(** * l2pGUI: the ingestion and track-state engine of [l2pGUI.py]

    A shallow embedding of the parts of [src/l2pGUI/l2pGUI.py] that receive,
    classify and store ADS-B position lines:

    - [split]            Python's [str.split()] on whitespace;
    - [Plane]            the class [Plane] ([__init__] and [addLine]);
    - [addPlanes]        the batch update of the planes dictionary;
    - [dataFakeRead]     the replay reader over a recorded file;
    - [process_lines], [reconnect]
                         the supervisor's classification and reconnection;
    - [receive_proc]     the transport worker, against a script of socket
                         exchanges;
    - [loadPlanesFile]   the offline loader of a whole recording;
    - [dump_queue], [updateData]
                         the display cycle, live and in replay;
    - [el2zdist], the traces [l[-80::5]] and the marker [n[-1]] of
      [animate].

    Python floats are kept abstract: every definition is parametric in a
    type [num] with a structure [PyNum num] that supplies [float()], the
    comparison [<] and the arithmetic the source uses, so the theorems hold
    for any behaviour of these operations (IEEE doubles included).  An
    instance over the rationals runs the definitions on recorded lines.

    Python mutates objects in place and an exception leaves the mutations
    made so far: code that can raise is written in a state monad whose
    result is either a value or the exception raised, together with the
    state reached.  Console output ([print]) is not modelled. *)

From Stdlib Require Import ZArith QArith Qabs Lqa Ascii String.
From stdpp Require Import gmap strings list fin_maps.

Local Open Scope Z_scope.
Local Open Scope string_scope.
Local Open Scope list_scope.

(* ===================================================================== *)
(** ** Python strings: [str.split()] *)
(* ===================================================================== *)

(** The whitespace of [str.split()] without argument on a byte string:
    space, and the control characters 9 to 13 (tab, newline, vertical tab,
    form feed, carriage return). *)
Definition is_space (c : ascii) : bool :=
  let n := nat_of_ascii c in
  Nat.eqb n 32 || (Nat.leb 9 n && Nat.leb n 13).

(** [split_go tok s]: [tok] is the token being read. *)
Fixpoint split_go (tok : string) (s : string) : list string :=
  match s with
  | EmptyString => if decide (tok = "") then [] else [tok]
  | String c s' =>
      if is_space c
      then (if decide (tok = "") then split_go "" s' else tok :: split_go "" s')
      else split_go (tok +:+ String c "") s'
  end.

(** [line.split()]: the maximal runs of non-whitespace characters. *)
Definition split (line : string) : list string := split_go "" line.

(* ===================================================================== *)
(** ** Python numbers *)
(* ===================================================================== *)

(** The numeric operations [l2pGUI.py] uses.  [float s] is [float(s)] and
    is [None] where Python raises [ValueError]; [of_int] is the conversion
    of an integer literal that meets a float; [flt a b] is [a < b] (and
    [a > b] is [flt b a]). *)
Class PyNum (num : Type) := {
  float : string → option num;
  of_int : Z → num;
  flt : num → num → bool;
  fadd : num → num → num;
  fsub : num → num → num;
  fmul : num → num → num;
  fdiv : num → num → num;
  fabs : num → num;
  lit_0_3048 : num;   (* the literal 0.3048 *)
  np_pi : num         (* numpy.pi *)
}.

Definition fgt {num : Type} `{!PyNum num} (a b : num) : bool := flt b a.

(* ===================================================================== *)
(** ** Exceptions and in-place mutation *)
(* ===================================================================== *)

Inductive exn := ValueError | IndexError | KeyError.

Inductive outcome (A : Type) :=
  | Return (a : A)
  | Raise (e : exn).
Arguments Return {A} a.
Arguments Raise {A} e.

(** A computation over a mutable object of type [S]: the object as the
    computation leaves it, and what it returned or raised. *)
Definition M (S A : Type) : Type := S → S * outcome A.

Definition ret {S A} (a : A) : M S A := λ s, (s, Return a).
Definition raise {S A} (e : exn) : M S A := λ s, (s, Raise e).
Definition bind {S A B} (m : M S A) (k : A → M S B) : M S B :=
  λ s, match m s with
       | (s', Return a) => k a s'
       | (s', Raise e) => (s', Raise e)
       end.
Definition get {S} : M S S := λ s, (s, Return s).
Definition gets {S A} (f : S → A) : M S A := λ s, (s, Return (f s)).
Definition modify {S} (f : S → S) : M S unit := λ s, (f s, Return tt).

Declare Scope py_scope.
Delimit Scope py_scope with py.
Notation "'let!' x ':=' m 'in' k" := (bind m (λ x, k))
  (at level 10, x name, m at level 100, k at level 200) : py_scope.
Notation "m '>>' k" := (bind m (λ _, k))
  (at level 100, k at level 200, right associativity) : py_scope.
Local Open Scope py_scope.

(** [for x in xs: body x] *)
Fixpoint for_each {S A} (xs : list A) (body : A → M S unit) : M S unit :=
  match xs with
  | [] => ret tt
  | x :: xs' => body x >> for_each xs' body
  end.

(** [l[i]] for [0 <= i] on a list. *)
Definition item {S A} (l : list A) (i : nat) : M S A :=
  match l !! i with
  | Some x => ret x
  | None => raise IndexError
  end.

(** [l[-1]] *)
Definition item_last {S A} (l : list A) : M S A :=
  match last l with
  | Some x => ret x
  | None => raise IndexError
  end.

(** The list after [l[-1] = x] on a non-empty list. *)
Definition set_last {A} (l : list A) (x : A) : list A :=
  <[pred (length l) := x]> l.

(** The list after [del(l[-1])]. *)
Definition del_last {A} (l : list A) : list A := removelast l.

Section Engine.
Context {num : Type} {ops : PyNum num}.

(** [float(l[i])] *)
Definition float_item {S} (l : list string) (i : nat) : M S num :=
  let! s := item l i in
  match float s with
  | Some x => ret x
  | None => raise ValueError
  end.

(** The value of [float(l[i])] where it has one. *)
Definition field (l : list string) (i : nat) : option num :=
  l !! i ≫= float.

(* ===================================================================== *)
(** ** class Plane *)
(* ===================================================================== *)

(** The attributes of a [Plane] object.  ([plane_id] is the attribute [id],
    renamed because [id] is the identity function here.) *)
Record Plane := mkPlane {
  minel : num;
  mjd : list num;
  plane_id : string;
  code : string;
  epc : list num;
  last_epoch : num;
  lat : list num;
  lon : list num;
  alt : list num;
  ran : list num;
  az : list num;
  el : list num;
  maxel : num;
  gaps : Z
}.

(** Attribute assignments [self.x = v]. *)
Definition set_mjd (v : list num) (p : Plane) : Plane :=
  mkPlane (minel p) v (plane_id p) (code p) (epc p) (last_epoch p)
          (lat p) (lon p) (alt p) (ran p) (az p) (el p) (maxel p) (gaps p).
Definition set_epc (v : list num) (p : Plane) : Plane :=
  mkPlane (minel p) (mjd p) (plane_id p) (code p) v (last_epoch p)
          (lat p) (lon p) (alt p) (ran p) (az p) (el p) (maxel p) (gaps p).
Definition set_last_epoch (v : num) (p : Plane) : Plane :=
  mkPlane (minel p) (mjd p) (plane_id p) (code p) (epc p) v
          (lat p) (lon p) (alt p) (ran p) (az p) (el p) (maxel p) (gaps p).
Definition set_lat (v : list num) (p : Plane) : Plane :=
  mkPlane (minel p) (mjd p) (plane_id p) (code p) (epc p) (last_epoch p)
          v (lon p) (alt p) (ran p) (az p) (el p) (maxel p) (gaps p).
Definition set_lon (v : list num) (p : Plane) : Plane :=
  mkPlane (minel p) (mjd p) (plane_id p) (code p) (epc p) (last_epoch p)
          (lat p) v (alt p) (ran p) (az p) (el p) (maxel p) (gaps p).
Definition set_alt (v : list num) (p : Plane) : Plane :=
  mkPlane (minel p) (mjd p) (plane_id p) (code p) (epc p) (last_epoch p)
          (lat p) (lon p) v (ran p) (az p) (el p) (maxel p) (gaps p).
Definition set_ran (v : list num) (p : Plane) : Plane :=
  mkPlane (minel p) (mjd p) (plane_id p) (code p) (epc p) (last_epoch p)
          (lat p) (lon p) (alt p) v (az p) (el p) (maxel p) (gaps p).
Definition set_az (v : list num) (p : Plane) : Plane :=
  mkPlane (minel p) (mjd p) (plane_id p) (code p) (epc p) (last_epoch p)
          (lat p) (lon p) (alt p) (ran p) v (el p) (maxel p) (gaps p).
Definition set_el (v : list num) (p : Plane) : Plane :=
  mkPlane (minel p) (mjd p) (plane_id p) (code p) (epc p) (last_epoch p)
          (lat p) (lon p) (alt p) (ran p) (az p) v (maxel p) (gaps p).
Definition set_maxel (v : num) (p : Plane) : Plane :=
  mkPlane (minel p) (mjd p) (plane_id p) (code p) (epc p) (last_epoch p)
          (lat p) (lon p) (alt p) (ran p) (az p) (el p) v (gaps p).
Definition set_gaps (v : Z) (p : Plane) : Plane :=
  mkPlane (minel p) (mjd p) (plane_id p) (code p) (epc p) (last_epoch p)
          (lat p) (lon p) (alt p) (ran p) (az p) (el p) (maxel p) v.

(** [Plane.addLine(self, l)]: [l] is an already split line. *)
Definition addLine (l : list string) : M Plane unit :=
  if decide (length l = 13%nat) then
    let! x9 := float_item l 9 in
    let! lim := gets minel in
    if flt x9 lim then ret tt else
    (* self.epc.append(float(l[1])) *)
    let! x1 := float_item l 1 in
    modify (λ p, set_epc (epc p ++ [x1]) p) >>
    (* if self.epc[-1] < self.last_epoch: self.epc[-1] += 86000 *)
    let! e := (let! p := get in item_last (epc p)) in
    let! t := gets last_epoch in
    (if flt e t
     then let! e := (let! p := get in item_last (epc p)) in
          modify (λ p, set_epc (set_last (epc p) (fadd e (of_int 86000))) p)
     else ret tt) >>
    (* if self.epc[-1] - self.last_epoch > 600000: ... return *)
    let! e := (let! p := get in item_last (epc p)) in
    let! t := gets last_epoch in
    if fgt (fsub e t) (of_int 600000) then
      modify (set_gaps 1) >>
      modify (λ p, set_epc (del_last (epc p)) p) >>
      ret tt
    else
    let! x0 := float_item l 0 in
    modify (λ p, set_mjd (mjd p ++ [x0]) p) >>
    let! e := (let! p := get in item_last (epc p)) in
    modify (set_last_epoch e) >>
    let! x4 := float_item l 4 in
    modify (λ p, set_lat (lat p ++ [x4]) p) >>
    let! x5 := float_item l 5 in
    modify (λ p, set_lon (lon p ++ [x5]) p) >>
    let! x6 := float_item l 6 in
    modify (λ p, set_alt (alt p ++ [fmul x6 lit_0_3048]) p) >>
    let! x7 := float_item l 7 in
    modify (λ p, set_ran (ran p ++ [x7]) p) >>
    let! x8 := float_item l 8 in
    modify (λ p, set_az (az p ++ [fmul (fdiv np_pi (of_int 180)) x8]) p) >>
    let! x9 := float_item l 9 in
    modify (λ p, set_el (el p ++ [x9]) p) >>
    (* self.maxel = self.el[-1] if self.el[-1] > self.maxel else self.maxel *)
    let! e9 := (let! p := get in item_last (el p)) in
    let! mx := gets maxel in
    if fgt e9 mx
    then let! e9 := (let! p := get in item_last (el p)) in
         modify (set_maxel e9)
    else let! mx := gets maxel in modify (set_maxel mx)
  else ret tt.

(** [Plane(line, minel)]: [__init__] builds the object and ends with
    [self.addLine(l)]; an exception raised on the way leaves no object. *)
Definition new_object {S O} (o : O) (init : M O unit) : M S O :=
  λ s, match init o with
       | (o', Return _) => (s, Return o')
       | (_, Raise e) => (s, Raise e)
       end.

(** The attributes [__init__] assigns before it calls [addLine]. *)
Definition Plane_attrs (minel0 : num) (i c : string) (t : num) : Plane :=
  {| minel := minel0; mjd := []; plane_id := i; code := c; epc := [];
     last_epoch := t; lat := []; lon := []; alt := []; ran := [];
     az := []; el := []; maxel := of_int (-10); gaps := 0 |}.

Definition Plane_init {S} (line : string) (minel0 : num) : M S Plane :=
  let l := split line in
  let! i := item l 2 in
  let! c := item l 3 in
  let! t := float_item l 1 in
  new_object (Plane_attrs minel0 i c t) (addLine l).

(* ===================================================================== *)
(** ** addPlanes: the planes dictionary *)
(* ===================================================================== *)

(** A method call on the object stored under key [k]: the object is
    mutated in place, also when the call raises. *)
Definition at_key {A} (k : string) (m : M Plane A) : M (gmap string Plane) A :=
  λ P, match P !! k with
       | Some p => let (p', r) := m p in (<[k := p']> P, r)
       | None => (P, Raise KeyError)
       end.

(** The body of [for line in planeLines]. *)
Definition addPlanes_line (minel0 : num) (line : string)
  : M (gmap string Plane) unit :=
  let l := split line in
  let! plane_id := item l 2 in
  let! el := float_item l 9 in
  if fgt el minel0 then
    let! P := get in
    if decide (is_Some (P !! plane_id))
    then at_key plane_id (addLine l)
    else let! p := Plane_init line minel0 in
         modify (insert plane_id p)
  else ret tt.

(** [abs(last_epoch - v.last_epoch) > time_alive] *)
Definition stale (ref_epoch time_alive : num) (v : Plane) : bool :=
  fgt (fabs (fsub ref_epoch (last_epoch v))) time_alive.

(** [[k for k,v in P.iteritems() if abs(last_epoch - v.last_epoch) > time_alive]] *)
Definition stale_keys (ref_epoch time_alive : num) (P : gmap string Plane)
  : list string :=
  (filter (λ kv, stale ref_epoch time_alive kv.2 = true) (map_to_list P)).*1.

(** [addPlanes(planeLines, planes_dict, minel, time_alive)].  The
    dictionary is the state; after the loop, [l] still holds the tokens
    of the last line. *)
Definition addPlanes (planeLines : list string) (minel0 time_alive : num)
  : M (gmap string Plane) unit :=
  for_each planeLines (addPlanes_line minel0) >>
  let! P := get in
  if Nat.eqb (size P) 0 || Nat.eqb (length planeLines) 0 then ret tt else
  if fgt time_alive (of_int 0) then
    let! line := item_last planeLines in
    let l := split line in
    let! ref_epoch := float_item l 1 in
    let! P := get in
    let keys := stale_keys ref_epoch time_alive P in
    for_each keys (λ key, modify (delete key))
  else ret tt.

(** The calls [self.P = addPlanes(planeLines, self.P, ...)] of successive
    update cycles. *)
Definition addPlanes_cycles (batches : list (list string * num * num))
  : M (gmap string Plane) unit :=
  for_each batches (λ b, addPlanes b.1.1 b.1.2 b.2).

(* ===================================================================== *)
(** ** Predicates of the specification *)
(* ===================================================================== *)

(** The numeric tokens of a position line: mjd, epoch, lat, lon, alt,
    range, az, el. *)
Definition numeric_fields : list nat := [0; 1; 4; 5; 6; 7; 8; 9]%nat.

(** Every numeric token of [l] is accepted by [float()]. *)
Definition numeric (l : list string) : Prop :=
  ∀ i, i ∈ numeric_fields → is_Some (field l i).

(** A position record: 13 tokens, the numeric ones well formed. *)
Definition position_record (line : string) : Prop :=
  length (split line) = 13%nat ∧ numeric (split line).

(** The same, as tests that run. *)
Definition numericb (l : list string) : bool :=
  forallb (λ i, bool_decide (is_Some (field l i))) numeric_fields.

Definition tokens_okb (l : list string) : bool :=
  negb (Nat.eqb (length l) 13) || numericb l.

Definition position_recordb (line : string) : bool :=
  Nat.eqb (length (split line)) 13 && numericb (split line).

(** The lengths of the eight sample sequences of a track. *)
Definition sample_lengths (p : Plane) : list nat :=
  [length (mjd p); length (epc p); length (lat p); length (lon p);
   length (alt p); length (ran p); length (az p); length (el p)].

(** The eight sample sequences have one common length [n]. *)
Definition samples (n : nat) (p : Plane) : Prop :=
  sample_lengths p = replicate 8 n.

Definition equal_lengths (p : Plane) : Prop := ∃ n, samples n p.

(** The epoch after the day-rollover correction of [addLine]. *)
Definition corrected_epoch (x1 : num) (p : Plane) : num :=
  if flt x1 (last_epoch p) then fadd x1 (of_int 86000) else x1.

(** [addLine] finds a gap between the corrected epoch and the last one. *)
Definition gap (x1 : num) (p : Plane) : bool :=
  fgt (fsub (corrected_epoch x1 p) (last_epoch p)) (of_int 600000).

(** The track [p] after one more sample: mjd [x0], corrected epoch [e],
    lat [x4], lon [x5], alt token [x6], range [x7], az token [x8], el [x9]. *)
Definition with_sample (x0 e x4 x5 x6 x7 x8 x9 : num) (p : Plane) : Plane :=
  {| minel := minel p;
     mjd := mjd p ++ [x0];
     plane_id := plane_id p;
     code := code p;
     epc := epc p ++ [e];
     last_epoch := e;
     lat := lat p ++ [x4];
     lon := lon p ++ [x5];
     alt := alt p ++ [fmul x6 lit_0_3048];
     ran := ran p ++ [x7];
     az := az p ++ [fmul (fdiv np_pi (of_int 180)) x8];
     el := el p ++ [x9];
     maxel := if fgt x9 (maxel p) then x9 else maxel p;
     gaps := gaps p |}.

(** The tokens [l] are stored by [addLine] on [p]: thirteen of them, the
    elevation not below the track's threshold, no gap found. *)
Definition is_stored (l : list string) (p : Plane) : bool :=
  match field l 9, field l 1 with
  | Some x9, Some x1 =>
      bool_decide (length l = 13%nat) && negb (flt x9 (minel p)) && negb (gap x1 p)
  | _, _ => false
  end.

(** The exception of [float(l[i])] when it has no value. *)
Definition float_exn (l : list string) (i : nat) : exn :=
  match l !! i with
  | None => IndexError
  | Some _ => ValueError
  end.

(** [addLine] run symbolically: the object it leaves and how it ends, by
    cases on the tokens.  An exception keeps the appends made before it. *)
Definition addLine_run (l : list string) (p : Plane) : Plane * outcome unit :=
  if decide (length l = 13%nat) then
    match field l 9 with
    | None => (p, Raise (float_exn l 9))
    | Some x9 =>
    if flt x9 (minel p) then (p, Return tt) else
    match field l 1 with
    | None => (p, Raise (float_exn l 1))
    | Some x1 =>
    let e := corrected_epoch x1 p in
    if gap x1 p then (set_gaps 1 p, Return tt) else
    let p1 := set_epc (epc p ++ [e]) p in
    match field l 0 with
    | None => (p1, Raise (float_exn l 0))
    | Some x0 =>
    let p2 := set_last_epoch e (set_mjd (mjd p ++ [x0]) p1) in
    match field l 4 with
    | None => (p2, Raise (float_exn l 4))
    | Some x4 =>
    let p3 := set_lat (lat p ++ [x4]) p2 in
    match field l 5 with
    | None => (p3, Raise (float_exn l 5))
    | Some x5 =>
    let p4 := set_lon (lon p ++ [x5]) p3 in
    match field l 6 with
    | None => (p4, Raise (float_exn l 6))
    | Some x6 =>
    let p5 := set_alt (alt p ++ [fmul x6 lit_0_3048]) p4 in
    match field l 7 with
    | None => (p5, Raise (float_exn l 7))
    | Some x7 =>
    let p6 := set_ran (ran p ++ [x7]) p5 in
    match field l 8 with
    | None => (p6, Raise (float_exn l 8))
    | Some x8 =>
        (with_sample x0 e x4 x5 x6 x7 x8 x9 p, Return tt)
    end end end end end end end end
  else (p, Return tt).

(** What [addLine] needs of its tokens to run to its end. *)
Definition tokens_ok (l : list string) : Prop :=
  length l = 13%nat → numeric l.

(** The loop body of [addPlanes] run symbolically on the dictionary [P]. *)
Definition addPlanes_line_run (minel0 : num) (line : string)
    (P : gmap string Plane) : gmap string Plane * outcome unit :=
  let l := split line in
  match l !! 2%nat with
  | None => (P, Raise IndexError)
  | Some i =>
  match field l 9 with
  | None => (P, Raise (float_exn l 9))
  | Some x9 =>
  if fgt x9 minel0 then
    match P !! i with
    | Some p => (<[i := (addLine l p).1]> P, (addLine l p).2)
    | None =>
        match l !! 3%nat with
        | None => (P, Raise IndexError)
        | Some c =>
        match field l 1 with
        | None => (P, Raise (float_exn l 1))
        | Some t =>
        match addLine l (Plane_attrs minel0 i c t) with
        | (p, Return _) => (<[i := p]> P, Return tt)
        | (_, Raise e) => (P, Raise e)
        end end end
    end
  else (P, Return tt)
  end end.

(** Every track of the dictionary has sample sequences of one length. *)
Definition store_ok (P : gmap string Plane) : Prop :=
  ∀ k p, P !! k = Some p → equal_lengths p.

(** A track with samples has the last stored epoch as [last_epoch]. *)
Definition coherent (p : Plane) : Prop :=
  epc p ≠ [] → last (epc p) = Some (last_epoch p).

(** [addPlanes] after its loop has returned with the dictionary [P1]. *)
Definition addPlanes_rest (lines : list string) (ta : num)
    (P1 : gmap string Plane) : gmap string Plane * outcome unit :=
  if Nat.eqb (size P1) 0 || Nat.eqb (length lines) 0 then (P1, Return tt)
  else if fgt ta (of_int 0) then
    match last lines with
    | None => (P1, Raise IndexError)
    | Some line =>
        match field (split line) 1 with
        | None => (P1, Raise (float_exn (split line) 1))
        | Some ref =>
            for_each (stale_keys ref ta P1) (λ key, modify (delete key)) P1
        end
    end
  else (P1, Return tt).

End Engine.

Arguments Plane : clear implicits.

(* ===================================================================== *)
(** ** dataFakeRead: replay from a recorded file *)
(* ===================================================================== *)

(** A file object opened for reading: its bytes and the current offset. *)
Record File := mkFile { content : string; fpos : nat }.

Definition seek (pos : nat) (f : File) : File := mkFile (content f) pos.
Definition seek_end (f : File) : File :=
  mkFile (content f) (String.length (content f)).
Definition tell (f : File) : nat := fpos f.

Fixpoint drop_string (n : nat) (s : string) : string :=
  match n, s with
  | O, _ => s
  | S n', String _ s' => drop_string n' s'
  | S _, EmptyString => EmptyString
  end.

(** The prefix of [s] up to and including its first newline. *)
Fixpoint line_prefix (s : string) : string :=
  match s with
  | EmptyString => EmptyString
  | String c s' =>
      if Ascii.eqb c "010"%char then String c EmptyString
      else String c (line_prefix s')
  end.

(** [f.readline()]: the empty string at (or beyond) the end of the file. *)
Definition readline (f : File) : File * string :=
  let line := line_prefix (drop_string (fpos f) (content f)) in
  (mkFile (content f) (fpos f + String.length line), line).

(** The [while True] loop up to the first [yield].  [k] is [N_lines - i]
    at the head of the loop: the iteration that finds [k = 0] is the one
    whose [i += 1] makes [i > N_lines]. *)
Fixpoint dataFakeRead_loop (k : nat) (f : File) (plines tlines : list string)
  : File * (list string * list string * nat) :=
  let (f1, line) := readline f in
  if decide (line = "") then (f1, (plines, tlines, tell f1))
  else
    let l := split line in
    let plines' := if decide (length l = 13%nat) then plines ++ [line] else plines in
    let tlines' :=
      if decide (length l = 13%nat) then tlines
      else if decide (length l = 6%nat) then tlines ++ [line] else tlines in
    match k with
    | O => (f1, (plines', tlines', tell f1))
    | S k' => dataFakeRead_loop k' f1 plines' tlines'
    end.

(** [dataFakeRead(f, init_pos, N_lines).next()]: the first item of the
    generator, which is all that [updateData] takes from it; with the
    file object as the call leaves it. *)
Definition dataFakeRead (f : File) (init_pos : option nat) (N_lines : nat)
  : File * (list string * list string * nat) :=
  let init := match init_pos with
              | None => tell (seek_end f)
              | Some p => p
              end in
  dataFakeRead_loop N_lines (seek init f) [] [].

(** The invocation of [dataFakeRead] leaves its loop through the [yield]
    under [if not line]: it has read up to the end of the file. *)
Fixpoint dataFakeRead_eof (k : nat) (f : File) : bool :=
  let (f1, line) := readline f in
  if decide (line = "") then true
  else match k with
       | O => false
       | S k' => dataFakeRead_eof k' f1
       end.

(* ===================================================================== *)
(** ** The supervisor ([L2pRadar]) and the transport worker *)
(* ===================================================================== *)

(** A [multiprocessing.Queue]. *)
Record Queue := mkQueue { q_closed : bool; q_items : list string }.

(** A [multiprocessing.Process(target=receive_proc, args=[queue, host])].
    Queues and processes are referred to by their index in the lists of
    all queues and all processes created so far. *)
Record Process := mkProcess {
  p_queue : nat;
  p_host : string * Z;
  p_started : bool;
  p_terminated : bool
}.

Section Supervisor.
Context {num : Type} {ops : PyNum num}.
(** The global [L2P_HOST], set once from the configuration file. *)
Variable L2P_HOST : string * Z.

(** The attributes of [L2pRadar] that ingestion touches, with the queues
    and processes it has created, the lines written to [self.outFile] and
    the [time.sleep] calls made (seconds). *)
Record L2pRadar := mkRadar {
  P : gmap string (Plane num);
  planeQueue : nat;
  procWorker : nat;
  outFile : list string;
  queues : list Queue;
  procs : list Process;
  slept : list Q
}.

Definition close_queue (q : Queue) : Queue := mkQueue true (q_items q).
Definition terminate (p : Process) : Process :=
  mkProcess (p_queue p) (p_host p) (p_started p) true.
Definition start (p : Process) : Process :=
  mkProcess (p_queue p) (p_host p) true (p_terminated p).

(** [L2pRadar.reconnect(self)] *)
Definition reconnect : M L2pRadar unit :=
  (* self.planeQueue.close() *)
  modify (λ r, mkRadar (P r) (planeQueue r) (procWorker r) (outFile r)
                 (alter close_queue (planeQueue r) (queues r)) (procs r) (slept r)) >>
  (* self.planeQueue = multiprocessing.Queue() *)
  modify (λ r, mkRadar (P r) (length (queues r)) (procWorker r) (outFile r)
                 (queues r ++ [mkQueue false []]) (procs r) (slept r)) >>
  (* self.procWorker.terminate() *)
  modify (λ r, mkRadar (P r) (planeQueue r) (procWorker r) (outFile r)
                 (queues r) (alter terminate (procWorker r) (procs r)) (slept r)) >>
  (* self.procWorker = multiprocessing.Process(target=receive_proc, ...) *)
  modify (λ r, mkRadar (P r) (planeQueue r) (length (procs r)) (outFile r)
                 (queues r)
                 (procs r ++ [mkProcess (planeQueue r) L2P_HOST false false])
                 (slept r)) >>
  (* self.procWorker.start() *)
  modify (λ r, mkRadar (P r) (planeQueue r) (procWorker r) (outFile r)
                 (queues r) (alter start (procWorker r) (procs r)) (slept r)).

Definition sleep (secs : Q) : M L2pRadar unit :=
  modify (λ r, mkRadar (P r) (planeQueue r) (procWorker r) (outFile r)
                 (queues r) (procs r) (slept r ++ [secs])).

Definition write_outFile (s : string) : M L2pRadar unit :=
  modify (λ r, mkRadar (P r) (planeQueue r) (procWorker r) (outFile r ++ [s])
                 (queues r) (procs r) (slept r)).

(** The body of [for line in data_lines] in [process_lines]; [plines] and
    [tlines] are threaded through. *)
Definition process_line (dump2file : bool) (acc : list string * list string)
    (line : string) : M L2pRadar (list string * list string) :=
  (if dump2file then write_outFile (line +:+ " " +:+ String "010"%char "")
   else ret tt) >>
  let L := length (split line) in
  if decide (L = 13%nat) then ret (acc.1 ++ [line], acc.2)
  else if decide (L = 6%nat) then ret (acc.1, acc.2 ++ [line])
  else if decide (L = 2%nat) then sleep 2 >> reconnect >> ret acc
  else ret acc.

Fixpoint process_lines_from (dump2file : bool) (acc : list string * list string)
    (data_lines : list string) : M L2pRadar (list string * list string) :=
  match data_lines with
  | [] => ret acc
  | line :: rest =>
      let! acc' := process_line dump2file acc line in
      process_lines_from dump2file acc' rest
  end.

(** [L2pRadar.process_lines(self, data_lines, print_lines, dump2file)]:
    returns [(plines, tlines)]. *)
Definition process_lines (data_lines : list string) (dump2file : bool)
  : M L2pRadar (list string * list string) :=
  process_lines_from dump2file ([], []) data_lines.

End Supervisor.

Arguments L2pRadar : clear implicits.

(** What one round of the worker's loop meets on its socket: the [send]
    fails, the [send] succeeds and the [recv] fails, or both succeed and
    [recv] returns [data]. *)
Inductive exchange :=
  | SendFails
  | RecvFails
  | Received (data : string).

(** What the worker does, in order. *)
Inductive action :=
  | Connect (host : string * Z)
  | Send (payload : string)
  | Recv (bufsize : Z)
  | Sleep (secs : Q)
  | Put (item : string).

(** Whether [receive_proc] has returned, or is still in its loop when the
    given exchanges are used up. *)
Inductive worker_state := Terminated | Looping.

Definition handshake : string := "reader" +:+ String "000"%char "".

(** The [while True] loop of [receive_proc] against a finite script of
    exchanges. *)
Fixpoint receive_loop (script : list exchange) : list action * worker_state :=
  match script with
  | [] => ([], Looping)
  | SendFails :: _ =>
      ([Send handshake; Sleep 1.5; Put "CONN ERROR"], Terminated)
  | RecvFails :: _ =>
      ([Send handshake; Recv 256; Sleep 1.5; Put "CONN ERROR"], Terminated)
  | Received data :: rest =>
      let (acts, st) := receive_loop rest in
      (Send handshake :: Recv 256 :: Put data :: acts, st)
  end.

(** [receive_proc(planeQueue, L2P_HOST)]: a failing [connect] is only
    reported on the console, and the loop is entered either way. *)
Definition receive_proc (host : string * Z) (script : list exchange)
  : list action * worker_state :=
  let (acts, st) := receive_loop script in (Connect host :: acts, st).

(** The items the worker has put on its queue, oldest first. *)
Definition queued (acts : list action) : list string :=
  omap (λ a, match a with Put s => Some s | _ => None end) acts.

(* ===================================================================== *)
(** ** An instance: exact rational arithmetic *)
(* ===================================================================== *)

(** Numbers as rationals in lowest terms, and [float()] on plain decimal
    literals (optional sign, digits, optional point): enough to run the
    engine on recorded lines.  Python's [float()] reads more (exponents,
    [inf], [nan]); tokens outside the decimal form are [None] here.  The
    arithmetic is exact where doubles round, so this instance is not the
    program's arithmetic: it only evaluates the definitions on the
    recorded lines below, and every general theorem is stated for an
    arbitrary [PyNum]. *)
Module QNum.

Definition digit (c : ascii) : option Z :=
  let n := nat_of_ascii c in
  if Nat.leb 48 n && Nat.leb n 57 then Some (Z.of_nat (n - 48)) else None.

(** Digits after the point: [n / d] is the value read so far. *)
Fixpoint decimal_frac (seen : bool) (n : Z) (d : positive) (s : string)
  : option Q :=
  match s with
  | EmptyString => if seen then Some (n # d) else None
  | String c s' =>
      match digit c with
      | Some v => decimal_frac true (10 * n + v) (10 * d) s'
      | None => None
      end
  end.

(** Digits before the point. *)
Fixpoint decimal_int (seen : bool) (n : Z) (s : string) : option Q :=
  match s with
  | EmptyString => if seen then Some (n # 1) else None
  | String c s' =>
      if Ascii.eqb c "."%char then decimal_frac seen n 1 s'
      else match digit c with
           | Some v => decimal_int true (10 * n + v) s'
           | None => None
           end
  end.

Definition decimal (s : string) : option Q :=
  match s with
  | String c s' =>
      if Ascii.eqb c "-"%char then Qred ∘ Qopp <$> decimal_int false 0 s'
      else if Ascii.eqb c "+"%char then Qred <$> decimal_int false 0 s'
      else Qred <$> decimal_int false 0 s
  | EmptyString => None
  end.

Definition ltb (a b : Q) : bool := negb (Qle_bool b a).

Definition ops : PyNum Q := {|
  float := decimal;
  of_int := inject_Z;
  flt := ltb;
  fadd a b := Qred (a + b);
  fsub a b := Qred (a - b);
  fmul a b := Qred (a * b);
  fdiv a b := Qred (a / b);
  fabs a := Qred (Qabs a);
  lit_0_3048 := 381 # 1250;
  np_pi := 884279719003555 # 281474976710656
|}.

End QNum.

#[export] Existing Instance QNum.ops.

(** Recorded lines used below, and what the engine makes of them over
    [QNum.ops]. *)
Module Sample.

(** The line quoted in the source of [Plane]. *)
Definition ryr : string :=
  "56395 40400.326 4ca626 RYR8JT 50.97158 -0.61729 29525 68.6683 280.17873692 7.16197030 -474.0 191.0 1088".

(** The same aircraft after midnight: the epoch of day has wrapped. *)
Definition ryr_rollover : string :=
  "56396 12.500 4ca626 RYR8JT 51.00000 -0.70000 29525 69.0000 281.00000000 7.50000000 -474.0 191.0 1088".

(** The same aircraft, the modified Julian day unreadable. *)
Definition ryr_bad_mjd : string :=
  "5639x 40401.500 4ca626 RYR8JT 50.97200 -0.61800 29525 68.6000 280.20000000 7.17000000 -474.0 191.0 1088".

(** The same aircraft exactly on the horizon. *)
Definition ryr_horizon : string :=
  "56395 40400.326 4ca626 RYR8JT 50.97158 -0.61729 29525 68.6683 280.17873692 0 -474.0 191.0 1088".

(** Another aircraft, seen 100 s earlier. *)
Definition baw : string :=
  "56395 40300.000 400f01 BAW123 51.50000 -0.10000 30000 50.0000 100.00000000 20.00000000 0.0 0.0 0".

(** A telescope status line (6 tokens) and a fragment (3 tokens). *)
Definition telscp : string := "56692  41847.094 telscp  75.00  65.00 1".
Definition fragment : string := "56395 40400.326 4ca6".

(** The track that [Plane(ryr, 0)] builds. *)
Definition ryr_track : Plane Q :=
  Eval vm_compute in
    match Plane_init ryr 0%Q () with
    | (_, Return p) => p
    | (_, Raise _) => Plane_attrs 0%Q "" "" 0%Q
    end.

(** The track that [Plane(baw, 0)] builds. *)
Definition baw_track : Plane Q :=
  Eval vm_compute in
    match Plane_init baw 0%Q () with
    | (_, Return p) => p
    | (_, Raise _) => Plane_attrs 0%Q "" "" 0%Q
    end.

(** [ryr_track] after [addLine] of the rollover line. *)
Definition ryr_track2 : Plane Q :=
  Eval vm_compute in (addLine (split ryr_rollover) ryr_track).1.

(** The dictionary after [addPlanes([baw], {}, 0, 15)]. *)
Definition baw_only : gmap string (Plane Q) :=
  Eval vm_compute in (addPlanes [baw] 0%Q 15%Q ∅).1.

(** The dictionary after [addPlanes([ryr], {}, 0, 15)]. *)
Definition ryr_only : gmap string (Plane Q) :=
  Eval vm_compute in (addPlanes [ryr] 0%Q 15%Q ∅).1.

(** A recording of two lines, each ended by a newline. *)
Definition recording : File :=
  mkFile (ryr +:+ String "010"%char "" +:+ telscp +:+ String "010"%char "") 0.

(** A supervisor with one queue and one running worker. *)
Definition host : string * Z := ("l2p.example", 2020).
Definition radar : L2pRadar Q :=
  {| P := ryr_only; planeQueue := 0; procWorker := 0; outFile := [];
     queues := [mkQueue false []];
     procs := [mkProcess 0 host true false];
     slept := [] |}.

End Sample.

(* ===================================================================== *)
(** ** loadPlanesFile: a whole recording at once *)
(* ===================================================================== *)

(** [for line in f]: the lines of [s], each with its newline; the last
    one may lack it.  [cur] is the line being read. *)
Fixpoint lines_from (cur : string) (s : string) : list string :=
  match s with
  | EmptyString => if decide (cur = "") then [] else [cur]
  | String c s' =>
      if Ascii.eqb c "010"%char
      then (cur +:+ String c "") :: lines_from "" s'
      else lines_from (cur +:+ String c "") s'
  end.

Definition file_lines (f : File) : list string :=
  lines_from "" (drop_string (fpos f) (content f)).

Section Loading.
Context {num : Type} {ops : PyNum num}.

(** The body of [for line in f] in [loadPlanesFile].  The source passes
    [minel=-5] whatever its own [minel] argument is, and leaves
    [time_alive] at its default [-1]. *)
Definition loadPlanesFile_line (line : string)
  : M (gmap string (Plane num)) unit :=
  if Nat.ltb (length (split line)) 13 then ret tt
  else addPlanes [line] (of_int (-5)) (of_int (-1)).

(** [loadPlanesFile(fname, minel)] on the file opened: the dictionary it
    has built when it returns or raises. *)
Definition loadPlanesFile (f : File) (minel0 : num)
  : gmap string (Plane num) * outcome unit :=
  for_each (file_lines f) loadPlanesFile_line ∅.

End Loading.

(* ===================================================================== *)
(** ** The display cycle: dump_queue, updateData, the plotted traces *)
(* ===================================================================== *)

Module Gui.

(** The loop of [dump_queue] on the items waiting in the queue, when no
    process puts to it meanwhile: [get()] on an empty queue blocks
    ([None]). *)
Fixpoint dump_queue_from (items data_lines : list string)
  : option (list string * list string) :=
  match items with
  | [] => None
  | x :: rest =>
      if Nat.eqb (length rest) 0 then Some (rest, data_lines ++ [x])
      else dump_queue_from rest (data_lines ++ [x])
  end.

(** [dump_queue(planeQueue)]: the queue as it is left, and [data_lines]. *)
Definition dump_queue (q : Queue) : option (Queue * list string) :=
  match dump_queue_from (q_items q) [] with
  | Some (rest, data_lines) => Some (mkQueue (q_closed q) rest, data_lines)
  | None => None
  end.

(** [l[-80::5]]: from the 80th element from the end (from the start, if
    there are fewer), every fifth element.  [skip] elements are passed
    over before the next one is taken. *)
Fixpoint every_fifth {A} (skip : nat) (l : list A) : list A :=
  match l with
  | [] => []
  | x :: rest =>
      match skip with
      | O => x :: every_fifth 4 rest
      | S k => every_fifth k rest
      end
  end.

Definition last80_step5 {A} (l : list A) : list A :=
  every_fifth 0 (drop (length l - 80) l).

Section Cycle.
Context {num : Type} {ops : PyNum num}.
Variable L2P_HOST : string * Z.

(** [el2zdist(x)] *)
Definition el2zdist (x : num) : num := fsub (of_int 90) x.

(** The marker of one plane in [animate]: with [n] the trace
    [p.az[-80::5]] and [m] the trace [p.el[-80::5]], the point
    [(n[-1], el2zdist(m[-1]))] of lines 525-527.  This is the value of
    these expressions by themselves: [animate] reaches them only after
    its colour loop (lines 510-523), whose [colors.next()] can raise
    [StopIteration] first when a track has an empty [el]; the loop is not
    modelled, so [marker] stands for [animate] on tracks with samples
    only. *)
Definition marker (p : Plane num) : outcome (num * num) :=
  match last (last80_step5 (az p)), last (last80_step5 (el p)) with
  | Some a, Some e => Return (a, el2zdist e)
  | _, _ => Raise IndexError
  end.

(** The attributes of [L2pRadar] that [updateData] uses beyond those of
    the record [L2pRadar]: [anim] is whether the animation still runs. *)
Record Display := mkDisplay {
  radar : L2pRadar num;
  replay : bool;
  dump2file : bool;
  datafile : File;
  pos : nat;
  telLines : string;
  anim : bool
}.

Definition on_radar {A} (m : M (L2pRadar num) A) : M Display A :=
  λ d, let (r, o) := m (radar d) in
       (mkDisplay r (replay d) (dump2file d) (datafile d) (pos d)
                  (telLines d) (anim d), o).

(** [self.P = addPlanes(planeLines, self.P, minel=0, time_alive=15)] *)
Definition update_P (planeLines : list string) : M Display unit :=
  on_radar (λ r,
    let (P', o) := addPlanes planeLines (of_int 0) (of_int 15) (P r) in
    (mkRadar P' (planeQueue r) (procWorker r) (outFile r) (queues r)
             (procs r) (slept r), o)).

(** [if len(telLines) > 0: self.telLines = telLines[-1]] *)
Definition update_telLines (tl : list string) : M Display unit :=
  match last tl with
  | Some line =>
      modify (λ d, mkDisplay (radar d) (replay d) (dump2file d) (datafile d)
                     (pos d) line (anim d))
  | None => ret tt
  end.

(** [L2pRadar.updateData(self)]; [None] when [dump_queue] blocks. *)
Definition updateData (d : Display) : option (Display * outcome unit) :=
  if negb (replay d) then
    let r := radar d in
    match queues r !! planeQueue r with
    | None => None
    | Some q =>
        match dump_queue q with
        | None => None
        | Some (q', data_lines) =>
            let r1 := mkRadar (P r) (planeQueue r) (procWorker r) (outFile r)
                        (<[planeQueue r := q']> (queues r)) (procs r)
                        (slept r) in
            let d1 := mkDisplay r1 (replay d) (dump2file d) (datafile d)
                        (pos d) (telLines d) (anim d) in
            Some ((let! lines :=
                     on_radar (process_lines L2P_HOST data_lines (dump2file d)) in
                   update_P lines.1 >>
                   update_telLines lines.2) d1)
        end
    end
  else
    let '(f', (planeLines, tl, pos')) :=
      dataFakeRead (datafile d) (Some (pos d)) 140 in
    let d1 := mkDisplay (radar d) (replay d) (dump2file d) f' pos'
                (telLines d) (anim d) in
    Some ((update_P planeLines >>
           (if decide (planeLines = [])
            then modify (λ d, mkDisplay (radar d) (replay d) (dump2file d)
                                (datafile d) (pos d) (telLines d) false)
            else ret tt) >>
           update_telLines tl) d1).

End Cycle.

Arguments Display : clear implicits.

End Gui.

(* ===================================================================== *)
(** ** Reading the worker's script *)
(* ===================================================================== *)

(** The hosts the worker has called [connect] on, oldest first. *)
Definition connected (acts : list action) : list (string * Z) :=
  omap (λ a, match a with Connect h => Some h | _ => None end) acts.

(** What the worker has sent on its socket, oldest first. *)
Definition sent (acts : list action) : list string :=
  omap (λ a, match a with Send s => Some s | _ => None end) acts.

(** The payloads of the exchanges before the first failing one. *)
Fixpoint received_before_failure (script : list exchange) : list string :=
  match script with
  | Received data :: rest => data :: received_before_failure rest
  | _ => []
  end.

(** Some exchange of the script fails. *)
Fixpoint fails (script : list exchange) : bool :=
  match script with
  | [] => false
  | Received _ :: rest => fails rest
  | _ => true
  end.

(* ===================================================================== *)
(** ** Further predicates on tracks *)
(* ===================================================================== *)

Section TrackPredicates.
Context {num : Type} {ops : PyNum num}.

(** [p'] is [p] with its sample sequences extended at the end: the
    threshold, the identifier and the code are the same. *)
Definition extends (p p' : Plane num) : Prop :=
  minel p' = minel p ∧ plane_id p' = plane_id p ∧ code p' = code p ∧
  mjd p `prefix_of` mjd p' ∧ epc p `prefix_of` epc p' ∧
  lat p `prefix_of` lat p' ∧ lon p `prefix_of` lon p' ∧
  alt p `prefix_of` alt p' ∧ ran p `prefix_of` ran p' ∧
  az p `prefix_of` az p' ∧ el p `prefix_of` el p'.

(** The identifiers (third tokens) of the lines of a batch. *)
Definition batch_ids (lines : list string) : list string :=
  omap (λ line, split line !! 2%nat) lines.

(** No stored elevation is above [maxel]. *)
Definition maxel_bounds (p : Plane num) : Prop :=
  ∀ x, x ∈ el p → flt (maxel p) x = false.

(** The track has a sample in each of the sequences the display reads. *)
Definition has_sample (p : Plane num) : Prop :=
  az p ≠ [] ∧ el p ≠ [] ∧ lat p ≠ [] ∧ lon p ≠ [] ∧ alt p ≠ [] ∧ ran p ≠ [].

End TrackPredicates.

(* ===================================================================== *)
(** ** Predicates on strings, to speak of [split] *)
(* ===================================================================== *)

(** Some character of [s] is whitespace. *)
Fixpoint has_space (s : string) : bool :=
  match s with
  | EmptyString => false
  | String c s' => is_space c || has_space s'
  end.

(** Every character of [s] is whitespace. *)
Fixpoint all_space (s : string) : bool :=
  match s with
  | EmptyString => true
  | String c s' => is_space c && all_space s'
  end.

(** [" ".join(toks)] *)
Fixpoint unwords (toks : list string) : string :=
  match toks with
  | [] => ""
  | [t] => t
  | t :: rest => t +:+ " " +:+ unwords rest
  end.

(** Further recorded cases. *)
Module Cases.

(** The line of the comment in [Plane], all fifteen fields of it. *)
Definition ryr15 : string :=
  "56395 40400.326 4ca626 RYR8JT 50.97158 -0.61729 29525 68.6683 280.17873692 7.16197030 -474.0 191.0 1088 0.00 0.00".

(** The aircraft of [Sample.ryr] with an epoch more than 600000 past the
    one it was last seen at. *)
Definition ryr_gap : string :=
  "56403 700000.000 4ca626 RYR8JT 51.10000 -0.80000 29525 70.0000 282.00000000 8.00000000 -474.0 191.0 1088".

(** The same aircraft 2.174 s after [Sample.ryr]. *)
Definition ryr_next : string :=
  "56395 40402.500 4ca626 RYR8JT 50.97300 -0.61900 29525 68.5000 280.30000000 7.18000000 -474.0 191.0 1088".

(** A supervisor whose queue holds the notice of a dead worker and a
    telescope line. *)
Definition live : Gui.Display Q :=
  Gui.mkDisplay
    {| P := Sample.ryr_only; planeQueue := 0; procWorker := 0; outFile := [];
       queues := [mkQueue false ["CONN ERROR"; Sample.telscp]];
       procs := [mkProcess 0 Sample.host true false];
       slept := [] |}
    false false (mkFile "" 0) 0 "0 0 0 00.00 00.00 1" true.

(** A replay that has reached the end of [Sample.recording]. *)
Definition replay_done : Gui.Display Q :=
  Gui.mkDisplay Sample.radar true false Sample.recording 144
    Sample.telscp true.

(** A replay of a recording that starts with a malformed position line. *)
Definition replay_bad : Gui.Display Q :=
  Gui.mkDisplay Sample.radar true false
    (mkFile (Sample.ryr_bad_mjd +:+ String "010"%char "") 0) 0
    Sample.telscp true.

End Cases.

(* ===================================================================== *)
(** * Theorems *)
(* ===================================================================== *)

Section MonadLaws.
Context {S A B : Type}.

Lemma bind_ret (a : A) (k : A → M S B) : bind (ret a) k = k a.
Proof. reflexivity. Qed.

Lemma bind_raise (e : exn) (k : A → M S B) : bind (raise e) k = raise e.
Proof. reflexivity. Qed.

Lemma bind_get (k : S → M S B) (s : S) : bind get k s = k s s.
Proof. reflexivity. Qed.

Lemma bind_gets (f : S → A) (k : A → M S B) (s : S) :
  bind (gets f) k s = k (f s) s.
Proof. reflexivity. Qed.

Lemma bind_modify (f : S → S) (k : unit → M S B) (s : S) :
  bind (modify f) k s = k tt (f s).
Proof. reflexivity. Qed.

End MonadLaws.

Lemma bind_assoc {S A B C} (m : M S A) (f : A → M S B) (g : B → M S C) (s : S) :
  bind (bind m f) g s = bind m (λ x, bind (f x) g) s.
Proof. unfold bind. by destruct (m s) as [s' [a|e]]. Qed.

Lemma item_last_snoc {S A} (l : list A) (x : A) :
  item_last (S := S) (l ++ [x]) = ret x.
Proof. unfold item_last. by rewrite last_snoc. Qed.

Lemma set_last_snoc {A} (l : list A) (x y : A) :
  set_last (l ++ [x]) y = l ++ [y].
Proof.
  unfold set_last. rewrite length_app. simpl.
  replace (pred (length l + 1)) with (length l + 0)%nat by lia.
  by rewrite insert_app_r.
Qed.

Lemma del_last_snoc {A} (l : list A) (x : A) : del_last (l ++ [x]) = l.
Proof. apply removelast_last. Qed.

Section PlaneTheory.
Context {num : Type} {ops : PyNum num}.

Lemma numericb_true (l : list string) : numericb l = true → numeric l.
Proof.
  unfold numericb, numeric. rewrite forallb_forall. intros Hall i Hi.
  apply list_elem_of_In, Hall in Hi. by apply bool_decide_eq_true in Hi.
Qed.

Lemma tokens_okb_true (l : list string) : tokens_okb l = true → tokens_ok l.
Proof.
  unfold tokens_okb, tokens_ok. intros [Hl|Hn]%orb_true_iff Hlen.
  - apply negb_true_iff, Nat.eqb_neq in Hl. done.
  - by apply numericb_true.
Qed.

Lemma position_recordb_true (line : string) :
  position_recordb line = true → position_record line.
Proof.
  unfold position_recordb, position_record.
  intros [Hl%Nat.eqb_eq Hn%numericb_true]%andb_true_iff. done.
Qed.

Lemma Forall_forallb {A} (P : A → Prop) (f : A → bool) (xs : list A) :
  (∀ x, f x = true → P x) → forallb f xs = true → Forall P xs.
Proof.
  intros Hf. induction xs as [|x xs IH]; simpl; [done|].
  intros [Hx Hxs]%andb_true_iff. constructor; auto.
Qed.

Lemma float_item_field {S} (l : list string) (i : nat) (x : num) :
  field l i = Some x → float_item (S := S) l i = ret x.
Proof.
  unfold field, float_item, item. intros Hf.
  destruct (l !! i) as [tok|]; simpl in Hf; [|done].
  rewrite bind_ret. by rewrite Hf.
Qed.

Lemma float_item_eq {S} (l : list string) (i : nat) :
  float_item (S := S) l i =
    match field l i with
    | Some x => ret x
    | None => raise (float_exn l i)
    end.
Proof.
  unfold field, float_item, float_exn, item.
  destruct (l !! i) as [tok|]; simpl; [|done].
  rewrite bind_ret. by destruct (float tok).
Qed.

(** Simplification of a monadic program applied to a state. *)
Ltac py_step :=
  first
    [ rewrite bind_assoc
    | rewrite bind_ret
    | rewrite bind_raise
    | rewrite bind_get
    | rewrite bind_gets
    | rewrite bind_modify
    | rewrite item_last_snoc
    | rewrite set_last_snoc
    | rewrite del_last_snoc
    | progress simpl ].

Lemma addLine_short (l : list string) (p : Plane num) :
  length l ≠ 13%nat → addLine l p = (p, Return tt).
Proof. intros Hl. unfold addLine. by rewrite decide_False. Qed.

Lemma addLine_low (l : list string) (p : Plane num) (x9 : num) :
  length l = 13%nat → field l 9 = Some x9 → flt x9 (minel p) = true →
  addLine l p = (p, Return tt).
Proof.
  intros Hl H9 Hlow. unfold addLine. rewrite decide_True by done.
  rewrite (float_item_field _ _ _ H9).
  repeat py_step. by rewrite Hlow.
Qed.

Lemma addLine_gap (l : list string) (p : Plane num) (x9 x1 : num) :
  length l = 13%nat → field l 9 = Some x9 → flt x9 (minel p) = false →
  field l 1 = Some x1 → gap x1 p = true →
  addLine l p = (set_gaps 1 p, Return tt).
Proof.
  intros Hl H9 Hlow H1 Hgap. unfold addLine. rewrite decide_True by done.
  rewrite (float_item_field _ _ _ H9).
  repeat py_step. rewrite Hlow.
  rewrite (float_item_field _ _ _ H1).
  repeat py_step.
  unfold gap, corrected_epoch in Hgap.
  destruct (flt x1 (last_epoch p)); repeat py_step; rewrite Hgap;
    repeat py_step; done.
Qed.

Lemma addLine_append (l : list string) (p : Plane num)
    (x0 x1 x4 x5 x6 x7 x8 x9 : num) :
  length l = 13%nat → field l 9 = Some x9 → flt x9 (minel p) = false →
  field l 1 = Some x1 → gap x1 p = false →
  field l 0 = Some x0 → field l 4 = Some x4 → field l 5 = Some x5 →
  field l 6 = Some x6 → field l 7 = Some x7 → field l 8 = Some x8 →
  addLine l p =
    (with_sample x0 (corrected_epoch x1 p) x4 x5 x6 x7 x8 x9 p, Return tt).
Proof.
  intros Hl H9 Hlow H1 Hgap H0 H4 H5 H6 H7 H8.
  unfold addLine. rewrite decide_True by done.
  rewrite (float_item_field _ _ _ H9), (float_item_field _ _ _ H1),
    (float_item_field _ _ _ H0), (float_item_field _ _ _ H4),
    (float_item_field _ _ _ H5), (float_item_field _ _ _ H6),
    (float_item_field _ _ _ H7), (float_item_field _ _ _ H8).
  repeat py_step. rewrite Hlow. repeat py_step.
  unfold gap, corrected_epoch in Hgap. unfold with_sample, corrected_epoch.
  destruct (flt x1 (last_epoch p)); repeat py_step; rewrite Hgap;
    repeat py_step; destruct (fgt x9 (maxel p)); repeat py_step; done.
Qed.

Lemma addLine_eq (l : list string) (p : Plane num) :
  addLine l p = addLine_run l p.
Proof.
  unfold addLine, addLine_run. case_decide; [|done].
  rewrite !float_item_eq.
  destruct (field l 9) as [x9|]; repeat py_step; [|done].
  destruct (flt x9 (minel p)) eqn:Hlow; repeat py_step; [done|].
  destruct (field l 1) as [x1|]; repeat py_step; [|done].
  unfold gap, corrected_epoch.
  destruct (flt x1 (last_epoch p)); repeat py_step;
    (match goal with
     | |- context [fgt ?a ?b] => destruct (fgt a b)
     end; repeat py_step; [done|];
     destruct (field l 0) as [x0|]; repeat py_step; [|done];
     destruct (field l 4) as [x4|]; repeat py_step; [|done];
     destruct (field l 5) as [x5|]; repeat py_step; [|done];
     destruct (field l 6) as [x6|]; repeat py_step; [|done];
     destruct (field l 7) as [x7|]; repeat py_step; [|done];
     destruct (field l 8) as [x8|]; repeat py_step; [|done];
     unfold with_sample; destruct (fgt x9 (maxel p)); repeat py_step; done).
Qed.

Lemma numeric_field (l : list string) (i : nat) :
  numeric l → i ∈ numeric_fields → ∃ x, field l i = Some x.
Proof. intros Hn Hi. destruct (Hn i Hi) as [x Hx]. eauto. Qed.

(** The three ways [addLine] ends on well-formed tokens. *)
Lemma addLine_cases (l : list string) (p : Plane num) :
  tokens_ok l →
  (is_stored l p = false ∧
     (addLine l p = (p, Return tt) ∨ addLine l p = (set_gaps 1 p, Return tt))) ∨
  (is_stored l p = true ∧
     ∃ x0 x1 x4 x5 x6 x7 x8 x9,
       addLine l p =
         (with_sample x0 (corrected_epoch x1 p) x4 x5 x6 x7 x8 x9 p, Return tt)).
Proof.
  intros Hok. destruct (decide (length l = 13%nat)) as [Hl|Hl].
  - specialize (Hok Hl).
    destruct (numeric_field l 0 Hok) as [x0 H0]; [set_solver|].
    destruct (numeric_field l 1 Hok) as [x1 H1]; [set_solver|].
    destruct (numeric_field l 4 Hok) as [x4 H4]; [set_solver|].
    destruct (numeric_field l 5 Hok) as [x5 H5]; [set_solver|].
    destruct (numeric_field l 6 Hok) as [x6 H6]; [set_solver|].
    destruct (numeric_field l 7 Hok) as [x7 H7]; [set_solver|].
    destruct (numeric_field l 8 Hok) as [x8 H8]; [set_solver|].
    destruct (numeric_field l 9 Hok) as [x9 H9]; [set_solver|].
    unfold is_stored. rewrite H9, H1, bool_decide_eq_true_2 by done. simpl.
    destruct (flt x9 (minel p)) eqn:Hlow; simpl.
    { left. split; [done|]. left. eauto using addLine_low. }
    destruct (gap x1 p) eqn:Hgap; simpl.
    { left. split; [done|]. right. eauto using addLine_gap. }
    right. split; [done|]. exists x0, x1, x4, x5, x6, x7, x8, x9.
    by apply addLine_append.
  - left. split; [|left; by apply addLine_short].
    unfold is_stored. destruct (field l 9), (field l 1); try done.
    by rewrite bool_decide_eq_false_2.
Qed.


(** Whenever [addLine] returns, it has done one of three things. *)
Lemma addLine_returns (l : list string) (p p' : Plane num) :
  addLine l p = (p', Return tt) →
  (is_stored l p = false ∧ (p' = p ∨ p' = set_gaps 1 p)) ∨
  (is_stored l p = true ∧
     ∃ x0 x1 x4 x5 x6 x7 x8 x9,
       field l 0 = Some x0 ∧ field l 1 = Some x1 ∧ field l 4 = Some x4 ∧
       field l 5 = Some x5 ∧ field l 6 = Some x6 ∧ field l 7 = Some x7 ∧
       field l 8 = Some x8 ∧ field l 9 = Some x9 ∧
       p' = with_sample x0 (corrected_epoch x1 p) x4 x5 x6 x7 x8 x9 p).
Proof.
  rewrite addLine_eq. unfold addLine_run, is_stored.
  destruct (decide (length l = 13%nat)) as [Hl|Hl].
  2:{ intros [= <-]. left. split; [|by left].
      destruct (field l 9), (field l 1); try done.
      by rewrite bool_decide_eq_false_2. }
  rewrite (bool_decide_eq_true_2 _ Hl).
  destruct (field l 9) as [x9|]; [|done].
  destruct (flt x9 (minel p)).
  { intros [= <-]. left. split; [by destruct (field l 1)|by left]. }
  destruct (field l 1) as [x1|]; [|done]. simpl.
  destruct (gap x1 p).
  { intros [= <-]. left. split; [done|by right]. }
  destruct (field l 0) as [x0|]; [|done].
  destruct (field l 4) as [x4|]; [|done].
  destruct (field l 5) as [x5|]; [|done].
  destruct (field l 6) as [x6|]; [|done].
  destruct (field l 7) as [x7|]; [|done].
  destruct (field l 8) as [x8|]; [|done].
  intros [= <-]. right. split; [done|].
  by exists x0, x1, x4, x5, x6, x7, x8, x9.
Qed.

(** A call that stores nothing leaves the epochs alone, however it ends. *)
Lemma addLine_not_stored (l : list string) (p : Plane num) :
  is_stored l p = false →
  epc (addLine l p).1 = epc p ∧ last_epoch (addLine l p).1 = last_epoch p ∧
  sample_lengths (addLine l p).1 = sample_lengths p.
Proof.
  rewrite addLine_eq. unfold addLine_run, is_stored.
  destruct (decide (length l = 13%nat)) as [Hl|Hl]; [|done].
  rewrite (bool_decide_eq_true_2 _ Hl).
  destruct (field l 9) as [x9|]; [|done].
  destruct (flt x9 (minel p)); [done|].
  destruct (field l 1) as [x1|]; [|done]. simpl.
  by destruct (gap x1 p).
Qed.

Lemma coherent_step (l : list string) (p p' : Plane num) :
  coherent p → addLine l p = (p', Return tt) → coherent p'.
Proof.
  intros Hp Hrun. apply addLine_returns in Hrun as [[_ [->| ->]]|[_ Happ]].
  - done.
  - done.
  - destruct Happ as (x0&x1&x4&x5&x6&x7&x8&x9&_&_&_&_&_&_&_&_&->).
    intros _. simpl. by rewrite last_snoc.
Qed.

Lemma samples_step (l : list string) (p p' : Plane num) (n : nat) :
  samples n p → addLine l p = (p', Return tt) →
  samples (if is_stored l p then S n else n) p'.
Proof.
  intros Hp Hrun. apply addLine_returns in Hrun as [[-> [->| ->]]|[-> Happ]].
  - done.
  - done.
  - destruct Happ as (x0&x1&x4&x5&x6&x7&x8&x9&_&_&_&_&_&_&_&_&->).
    unfold samples, sample_lengths in *. simpl in *.
    injection Hp as E0 E1 E4 E5 E6 E7 E8 E9.
    rewrite !length_app, E0, E1, E4, E5, E6, E7, E8, E9. simpl.
    by rewrite Nat.add_1_r.
Qed.

Lemma addLine_total (l : list string) (p : Plane num) :
  tokens_ok l → ∃ p', addLine l p = (p', Return tt).
Proof.
  intros Hok. destruct (addLine_cases l p Hok)
    as [[_ [Hr|Hr]]|[_ (x0&x1&x4&x5&x6&x7&x8&x9&Hr)]]; eauto.
Qed.

Lemma Plane_init_inv {S} (line : string) (minel0 : num) (s s' : S) (p : Plane num) :
  Plane_init line minel0 s = (s', Return p) →
  s' = s ∧ ∃ i c t,
    split line !! 2%nat = Some i ∧ split line !! 3%nat = Some c ∧
    field (split line) 1 = Some t ∧
    addLine (split line) (Plane_attrs minel0 i c t) = (p, Return tt).
Proof.
  unfold Plane_init, item. rewrite float_item_eq.
  destruct (split line !! 2%nat) as [i|]; [|done].
  destruct (split line !! 3%nat) as [c|]; [|done].
  destruct (field (split line) 1) as [t|]; [|done].
  repeat py_step. unfold new_object.
  destruct (addLine (split line) (Plane_attrs minel0 i c t)) as [p' [[]|e]] eqn:Hrun;
    [|done].
  intros [= -> ->]. split; [done|]. by exists i, c, t.
Qed.

Lemma Plane_attrs_coherent (minel0 : num) (i c : string) (t : num) :
  coherent (Plane_attrs minel0 i c t).
Proof. intros Hne. by destruct Hne. Qed.

Lemma Plane_init_coherent {S} (line : string) (minel0 : num) (s s' : S) (p : Plane num) :
  Plane_init line minel0 s = (s', Return p) → coherent p.
Proof.
  intros Hinit. apply Plane_init_inv in Hinit as (_&i&c&t&_&_&_&Hrun).
  eapply coherent_step; [apply Plane_attrs_coherent|done].
Qed.

Lemma for_each_addLine_coherent (ls : list (list string)) (p : Plane num) :
  coherent p → Forall tokens_ok ls →
  ∃ p', for_each ls addLine p = (p', Return tt) ∧ coherent p'.
Proof.
  intros Hp Hok. revert p Hp.
  induction Hok as [|l ls Hl _ IH]; intros p Hp; simpl.
  - by exists p.
  - destruct (addLine_total l p Hl) as [p1 Hrun].
    unfold bind. rewrite Hrun. apply IH. by eapply coherent_step.
Qed.

(** Whenever a sequence of [addLine] calls returns, it keeps coherence. *)
Lemma for_each_addLine_returns_coherent (ls : list (list string))
    (p p' : Plane num) :
  coherent p → for_each ls addLine p = (p', Return tt) → coherent p'.
Proof.
  revert p. induction ls as [|l ls IH]; intros p Hp; simpl.
  - by intros [= <-].
  - unfold bind. destruct (addLine l p) as [p1 [[]|e]] eqn:Hrun; [|done].
    apply IH. by eapply coherent_step.
Qed.

(** C1. Epoch correction of [Plane.addLine]: for a track [p] and a
    position record whose elevation is not below the track's threshold, an
    epoch less than the last one observed has exactly 86000 added; if the
    corrected epoch minus the last one exceeds 600000, the gap flag is set
    ([gaps] becomes 1) and every other attribute is as it was (no sequence
    grows, [last_epoch] stays); otherwise the eight values are appended, [last_epoch] becomes the
    corrected epoch and [maxel] the larger of itself and the elevation. *)
Theorem addLine_epoch_correction (p : Plane num) (l : list string)
    (x0 x1 x4 x5 x6 x7 x8 x9 : num) :
  length l = 13%nat →
  field l 0 = Some x0 → field l 1 = Some x1 → field l 4 = Some x4 →
  field l 5 = Some x5 → field l 6 = Some x6 → field l 7 = Some x7 →
  field l 8 = Some x8 → field l 9 = Some x9 →
  flt x9 (minel p) = false →
  let e := if flt x1 (last_epoch p) then fadd x1 (of_int 86000) else x1 in
  if fgt (fsub e (last_epoch p)) (of_int 600000)
  then addLine l p =
    ({| minel := minel p;
        mjd := mjd p;
        plane_id := plane_id p;
        code := code p;
        epc := epc p;
        last_epoch := last_epoch p;
        lat := lat p;
        lon := lon p;
        alt := alt p;
        ran := ran p;
        az := az p;
        el := el p;
        maxel := maxel p;
        gaps := 1 |}, Return tt)
  else addLine l p =
    ({| minel := minel p;
        mjd := mjd p ++ [x0];
        plane_id := plane_id p;
        code := code p;
        epc := epc p ++ [e];
        last_epoch := e;
        lat := lat p ++ [x4];
        lon := lon p ++ [x5];
        alt := alt p ++ [fmul x6 lit_0_3048];
        ran := ran p ++ [x7];
        az := az p ++ [fmul (fdiv np_pi (of_int 180)) x8];
        el := el p ++ [x9];
        maxel := if fgt x9 (maxel p) then x9 else maxel p;
        gaps := gaps p |}, Return tt).
Proof.
  intros Hl H0 H1 H4 H5 H6 H7 H8 H9 Hlow e.
  destruct (fgt (fsub e (last_epoch p)) (of_int 600000)) eqn:Hgap.
  - by rewrite (addLine_gap l p x9 x1).
  - by rewrite (addLine_append l p x0 x1 x4 x5 x6 x7 x8 x9).
Qed.

(** C7. Unit conversion in [Plane.addLine]: when a position record is
    stored, the altitude appended is the altitude token times 0.3048 and
    the azimuth appended is pi/180 times the azimuth token; latitude,
    longitude, range and elevation are appended as read, each from its
    token position (4, 5, 7, 9; altitude 6, azimuth 8). *)
Theorem addLine_unit_conversion (p : Plane num) (l : list string)
    (x0 x1 x4 x5 x6 x7 x8 x9 : num) :
  length l = 13%nat →
  field l 0 = Some x0 → field l 1 = Some x1 → field l 4 = Some x4 →
  field l 5 = Some x5 → field l 6 = Some x6 → field l 7 = Some x7 →
  field l 8 = Some x8 → field l 9 = Some x9 →
  is_stored l p = true →
  ∃ p', addLine l p = (p', Return tt) ∧
    alt p' = alt p ++ [fmul x6 lit_0_3048] ∧
    az p' = az p ++ [fmul (fdiv np_pi (of_int 180)) x8] ∧
    lat p' = lat p ++ [x4] ∧
    lon p' = lon p ++ [x5] ∧
    ran p' = ran p ++ [x7] ∧
    el p' = el p ++ [x9].
Proof.
  intros Hl H0 H1 H4 H5 H6 H7 H8 H9 Hadm.
  unfold is_stored in Hadm. rewrite H9, H1 in Hadm.
  apply andb_true_iff in Hadm as [Hadm Hgap%negb_true_iff].
  apply andb_true_iff in Hadm as [_ Hlow%negb_true_iff].
  eexists. split; [by apply (addLine_append l p x0 x1 x4 x5 x6 x7 x8 x9)|].
  done.
Qed.

(** C10. Coherence of [last_epoch], as the code has it: a track made by
    [Plane(line, minel)] and then given any sequence of [addLine] calls
    each of which returns, that is, raises no exception, has, once it
    holds a sample, the last element of [epc] as its [last_epoch]; on
    well-formed tokens every call does return; and a call that stores
    nothing (elevation below the threshold, or a gap) leaves [epc] and
    [last_epoch] as they were. *)
Theorem last_epoch_coherence (line : string) (minel0 : num) (p0 : Plane num)
    (ls : list (list string)) :
  Plane_init line minel0 () = ((), Return p0) →
  (∀ p', for_each ls addLine p0 = (p', Return tt) →
     epc p' ≠ [] → last (epc p') = Some (last_epoch p')) ∧
  (Forall tokens_ok ls → ∃ p', for_each ls addLine p0 = (p', Return tt)) ∧
  (∀ (p : Plane num) (l : list string),
     is_stored l p = false →
     epc (addLine l p).1 = epc p ∧ last_epoch (addLine l p).1 = last_epoch p).
Proof.
  intros Hinit. apply Plane_init_coherent in Hinit. split; [|split].
  - intros p' Hrun. by apply (for_each_addLine_returns_coherent ls p0 p').
  - intros Hok.
    destruct (for_each_addLine_coherent ls p0 Hinit Hok) as (p'&Hrun&_).
    by exists p'.
  - intros p l Hadm. by destruct (addLine_not_stored l p Hadm) as (?&?&_).
Qed.

End PlaneTheory.

Section StoreTheory.
Context {num : Type} {ops : PyNum num}.

Lemma for_each_app {S A} (xs ys : list A) (f : A → M S unit) (s : S) :
  for_each (xs ++ ys) f s = bind (for_each xs f) (λ _, for_each ys f) s.
Proof.
  revert s. induction xs as [|x xs IH]; intros s; simpl; [done|].
  rewrite bind_assoc. unfold bind in *.
  destruct (f x s) as [s1 [[]|e]]; [apply IH|done].
Qed.

Lemma addPlanes_line_eq (minel0 : num) (line : string) (P : gmap string (Plane num)) :
  addPlanes_line minel0 line P = addPlanes_line_run minel0 line P.
Proof.
  unfold addPlanes_line, addPlanes_line_run, Plane_init, item.
  destruct (split line !! 2%nat) as [i|] eqn:Hi; [|done].
  rewrite !float_item_eq. rewrite bind_ret.
  destruct (field (split line) 9) as [x9|]; [|done]. rewrite bind_ret.
  destruct (fgt x9 minel0); [|done]. rewrite bind_get.
  destruct (P !! i) as [p|] eqn:HP.
  - rewrite decide_True by eauto. unfold at_key. rewrite HP.
    by destruct (addLine (split line) p).
  - rewrite decide_False by (by intros [? ?]).
    rewrite bind_ret.
    destruct (split line !! 3%nat) as [c|]; [|done]. rewrite bind_ret.
    destruct (field (split line) 1) as [t|]; [|done]. rewrite bind_ret.
    unfold bind, new_object, modify.
    by destruct (addLine (split line) (Plane_attrs minel0 i c t)) as [p' [[]|e]].
Qed.

(** The loop body only touches the track of the line's identifier. *)
Lemma addPlanes_line_frame (minel0 : num) (line : string)
    (P : gmap string (Plane num)) (i k : string) :
  split line !! 2%nat = Some i → k ≠ i →
  (addPlanes_line minel0 line P).1 !! k = P !! k.
Proof.
  intros Hi Hk. rewrite addPlanes_line_eq. unfold addPlanes_line_run.
  rewrite Hi. destruct (field (split line) 9) as [x9|]; [|done].
  destruct (fgt x9 minel0); [|done].
  destruct (P !! i) as [p|]; simpl.
  { by rewrite lookup_insert_ne. }
  destruct (split line !! 3%nat) as [c|]; [|done].
  destruct (field (split line) 1) as [t|]; [|done].
  destruct (addLine (split line) (Plane_attrs minel0 i c t)) as [p' [[]|e]];
    simpl; [|done].
  by rewrite lookup_insert_ne.
Qed.

(** A record whose elevation is not above the cutoff is skipped. *)
Lemma addPlanes_line_low (minel0 : num) (line : string)
    (P : gmap string (Plane num)) (x9 : num) :
  length (split line) = 13%nat → field (split line) 9 = Some x9 →
  fgt x9 minel0 = false →
  addPlanes_line minel0 line P = (P, Return tt).
Proof.
  intros Hl H9 Hlow. rewrite addPlanes_line_eq. unfold addPlanes_line_run.
  destruct (split line !! 2%nat) as [i|] eqn:Hi.
  - by rewrite H9, Hlow.
  - apply lookup_ge_None in Hi. lia.
Qed.

Lemma Plane_attrs_samples (minel0 : num) (i c : string) (t : num) :
  samples 0 (Plane_attrs minel0 i c t).
Proof. done. Qed.

Lemma samples_equal_lengths (l : list string) (p p' : Plane num) :
  equal_lengths p → addLine l p = (p', Return tt) → equal_lengths p'.
Proof. intros [n Hn] Hrun. eexists. by eapply samples_step. Qed.

(** On a position record the loop body returns. *)
Lemma addPlanes_line_total (minel0 : num) (line : string) (P : gmap string (Plane num)) :
  position_record line → ∃ P', addPlanes_line minel0 line P = (P', Return tt).
Proof.
  intros [Hl Hnum]. rewrite addPlanes_line_eq. unfold addPlanes_line_run.
  destruct (split line !! 2%nat) as [i|] eqn:Hi;
    [|apply lookup_ge_None in Hi; lia].
  destruct (split line !! 3%nat) as [c|] eqn:Hc;
    [|apply lookup_ge_None in Hc; lia].
  destruct (numeric_field _ 9 Hnum) as [x9 ->]; [set_solver|].
  destruct (numeric_field _ 1 Hnum) as [x1 ->]; [set_solver|].
  destruct (fgt x9 minel0); [|by exists P].
  destruct (P !! i) as [p|] eqn:Hp.
  - destruct (addLine_total (split line) p) as [p' Hrun]; [by intros _|].
    rewrite Hrun. simpl. by eexists.
  - destruct (addLine_total (split line) (Plane_attrs minel0 i c x1))
      as [p' Hrun]; [by intros _|].
    rewrite Hrun. by eexists.
Qed.

(** Whenever the loop body returns, it keeps the invariant. *)
Lemma addPlanes_line_ok (minel0 : num) (line : string) (P P' : gmap string (Plane num)) :
  store_ok P → addPlanes_line minel0 line P = (P', Return tt) → store_ok P'.
Proof.
  intros HP. rewrite addPlanes_line_eq. unfold addPlanes_line_run.
  destruct (split line !! 2%nat) as [i|]; [|done].
  destruct (field (split line) 9) as [x9|]; [|done].
  destruct (fgt x9 minel0); [|by intros [= <-]].
  destruct (P !! i) as [p|] eqn:Hp.
  - destruct (addLine (split line) p) as [p' [[]|e]] eqn:Hrun; [|done].
    intros [= <-] k q. rewrite lookup_insert. case_decide; [|by apply HP].
    intros [= <-]. eapply samples_equal_lengths; [|done]. by eapply HP.
  - destruct (split line !! 3%nat) as [c|]; [|done].
    destruct (field (split line) 1) as [t|]; [|done].
    destruct (addLine (split line) (Plane_attrs minel0 i c t))
      as [p' [[]|e]] eqn:Hrun; [|done].
    intros [= <-] k q. rewrite lookup_insert. case_decide; [|by apply HP].
    intros [= <-]. eapply samples_equal_lengths; [|done].
    eexists. apply Plane_attrs_samples.
Qed.

Lemma for_each_addPlanes_line_total (minel0 : num) (lines : list string)
    (P : gmap string (Plane num)) :
  Forall position_record lines →
  ∃ P', for_each lines (addPlanes_line minel0) P = (P', Return tt).
Proof.
  intros Hok. revert P. induction Hok as [|line lines Hline _ IH]; intros P.
  - by exists P.
  - destruct (addPlanes_line_total minel0 line P Hline) as (P1&Hrun).
    simpl. unfold bind. rewrite Hrun. by apply IH.
Qed.

Lemma for_each_addPlanes_line_ok (minel0 : num) (lines : list string)
    (P P' : gmap string (Plane num)) :
  store_ok P → for_each lines (addPlanes_line minel0) P = (P', Return tt) →
  store_ok P'.
Proof.
  revert P. induction lines as [|line lines IH]; intros P HP; simpl.
  - by intros [= <-].
  - unfold bind.
    destruct (addPlanes_line minel0 line P) as [P1 [[]|e]] eqn:Hrun; [|done].
    apply IH. by eapply addPlanes_line_ok.
Qed.

(** [for key in keys: del P[key]] *)
Lemma for_each_delete (keys : list string) (P : gmap string (Plane num)) :
  ∃ P', for_each keys (λ key, modify (delete key)) P = (P', Return tt) ∧
    ∀ k, P' !! k = if bool_decide (k ∈ keys) then None else P !! k.
Proof.
  revert P. induction keys as [|key keys IH]; intros P.
  - exists P. split; [done|]. intros k.
    by rewrite bool_decide_eq_false_2 by set_solver.
  - cbn [for_each]. rewrite bind_modify.
    destruct (IH (delete key P)) as (P'&->&HP').
    exists P'. split; [done|]. intros k. rewrite HP'.
    destruct (decide (k = key)) as [->|Hne].
    + rewrite (bool_decide_eq_true_2 (key ∈ key :: keys)) by set_solver.
      case_bool_decide; [done|]. by rewrite lookup_delete_eq.
    + rewrite lookup_delete_ne by done.
      destruct (decide (k ∈ keys)).
      * by rewrite !bool_decide_eq_true_2 by (rewrite ?elem_of_cons; auto).
      * rewrite (bool_decide_eq_false_2 (k ∈ key :: keys))
          by (by apply not_elem_of_cons).
        by rewrite bool_decide_eq_false_2.
Qed.

Lemma elem_of_stale_keys (ref ta : num) (P : gmap string (Plane num)) (k : string) :
  k ∈ stale_keys ref ta P ↔ ∃ v, P !! k = Some v ∧ stale ref ta v = true.
Proof.
  unfold stale_keys. rewrite list_elem_of_fmap. split.
  - intros [[k' v] [-> [Hst Hin]%list_elem_of_filter]].
    apply elem_of_map_to_list in Hin. eauto.
  - intros [v [Hk Hst]]. exists (k, v). split; [done|].
    apply list_elem_of_filter. split; [done|]. by apply elem_of_map_to_list.
Qed.

(** The eviction at the end of [addPlanes], on the dictionary [P1] that
    the loop leaves. *)
Lemma eviction (ref ta : num) (P1 : gmap string (Plane num)) :
  ∃ P2, for_each (stale_keys ref ta P1) (λ key, modify (delete key)) P1
          = (P2, Return tt) ∧
    ∀ k v, P2 !! k = Some v ↔ P1 !! k = Some v ∧ stale ref ta v = false.
Proof.
  destruct (for_each_delete (stale_keys ref ta P1) P1) as (P2&Hrun&HP2).
  exists P2. split; [done|]. intros k v. rewrite HP2.
  case_bool_decide as Hk.
  - apply elem_of_stale_keys in Hk as [v' [Hv' Hst]]. split; [done|].
    intros [Hv Hns]. simplify_eq. congruence.
  - split.
    + intros Hv. split; [done|]. destruct (stale ref ta v) eqn:Hst; [|done].
      destruct Hk. apply elem_of_stale_keys. eauto.
    + by intros [? _].
Qed.


Lemma addPlanes_eq (lines : list string) (minel0 ta : num)
    (P : gmap string (Plane num)) :
  addPlanes lines minel0 ta P =
    match for_each lines (addPlanes_line minel0) P with
    | (P1, Return _) => addPlanes_rest lines ta P1
    | (P1, Raise e) => (P1, Raise e)
    end.
Proof.
  unfold addPlanes, addPlanes_rest. unfold bind at 1.
  destruct (for_each lines (addPlanes_line minel0) P) as [P1 [[]|e]]; [|done].
  rewrite bind_get.
  destruct (Nat.eqb (size P1) 0 || Nat.eqb (length lines) 0); [done|].
  destruct (fgt ta (of_int 0)); [|done].
  unfold item_last. destruct (last lines) as [line|]; [|done].
  rewrite bind_ret, float_item_eq.
  by destruct (field (split line) 1).
Qed.

(** An exception in the loop ends [addPlanes]: the lines after it and the
    eviction are skipped. *)
Lemma addPlanes_raise (pre post : list string) (line : string) (minel0 ta : num)
    (P P1 P2 : gmap string (Plane num)) (e : exn) :
  for_each pre (addPlanes_line minel0) P = (P1, Return tt) →
  addPlanes_line minel0 line P1 = (P2, Raise e) →
  addPlanes (pre ++ line :: post) minel0 ta P = (P2, Raise e).
Proof.
  intros Hpre Hline. rewrite addPlanes_eq, for_each_app. unfold bind at 1.
  rewrite Hpre. simpl. unfold bind. by rewrite Hline.
Qed.

(** What is left after [addPlanes_rest] was in the dictionary before it. *)
Lemma addPlanes_rest_sub (lines : list string) (ta : num)
    (P1 : gmap string (Plane num)) (k : string) (p : Plane num) :
  (addPlanes_rest lines ta P1).1 !! k = Some p → P1 !! k = Some p.
Proof.
  unfold addPlanes_rest.
  destruct (Nat.eqb (size P1) 0 || Nat.eqb (length lines) 0); [done|].
  destruct (fgt ta (of_int 0)); [|done].
  destruct (last lines) as [line|]; [|done].
  destruct (field (split line) 1) as [ref|]; [|done].
  destruct (eviction ref ta P1) as (P2&Hrun&HP2).
  rewrite Hrun. simpl. intros Hk. by apply HP2 in Hk as [? _].
Qed.

(** Whenever [addPlanes] returns, it keeps the invariant. *)
Lemma addPlanes_returns_ok (lines : list string) (minel0 ta : num)
    (P P' : gmap string (Plane num)) :
  store_ok P → addPlanes lines minel0 ta P = (P', Return tt) → store_ok P'.
Proof.
  intros HP. rewrite addPlanes_eq.
  destruct (for_each lines (addPlanes_line minel0) P) as [P1 [[]|e]] eqn:Hloop;
    [|done].
  intros Hrest k p Hk.
  apply (for_each_addPlanes_line_ok minel0 lines P P1 HP Hloop k).
  apply (addPlanes_rest_sub lines ta). by rewrite Hrest.
Qed.

Lemma addPlanes_cycles_returns_ok (batches : list (list string * num * num))
    (P P' : gmap string (Plane num)) :
  store_ok P → addPlanes_cycles batches P = (P', Return tt) → store_ok P'.
Proof.
  unfold addPlanes_cycles. revert P.
  induction batches as [|[[lines minel0] ta] batches IH]; intros P HP; simpl.
  - by intros [= <-].
  - unfold bind.
    destruct (addPlanes lines minel0 ta P) as [P1 [[]|e]] eqn:Hrun; [|done].
    apply IH. by eapply addPlanes_returns_ok.
Qed.

Lemma addPlanes_rest_ok (lines : list string) (ta : num) (P1 : gmap string (Plane num)) :
  Forall position_record lines →
  ∃ P2, addPlanes_rest lines ta P1 = (P2, Return tt) ∧
    ∀ k v, P2 !! k = Some v → P1 !! k = Some v.
Proof.
  intros Hok. unfold addPlanes_rest.
  destruct (Nat.eqb (size P1) 0 || Nat.eqb (length lines) 0) eqn:Hz; [by eexists|].
  destruct (fgt ta (of_int 0)); [|by eexists].
  destruct (last lines) as [line|] eqn:Hlast.
  2:{ apply last_None in Hlast as ->. by rewrite orb_true_r in Hz. }
  assert (position_record line) as [_ Hnum].
  { rewrite Forall_forall in Hok. apply Hok. by apply last_Some_elem_of. }
  destruct (numeric_field _ 1 Hnum) as [ref ->]; [set_solver|].
  destruct (eviction ref ta P1) as (P2&->&HP2).
  exists P2. split; [done|]. intros k v Hv. by apply HP2 in Hv as [? _].
Qed.

Lemma addPlanes_ok (lines : list string) (minel0 ta : num) (P : gmap string (Plane num)) :
  store_ok P → Forall position_record lines →
  ∃ P', addPlanes lines minel0 ta P = (P', Return tt) ∧ store_ok P'.
Proof.
  intros HP Hok. rewrite addPlanes_eq.
  destruct (for_each_addPlanes_line_total minel0 lines P Hok) as [P1 Hloop].
  rewrite Hloop.
  destruct (addPlanes_rest_ok lines ta P1 Hok) as (P2&->&Hsub).
  exists P2. split; [done|]. intros k v Hv%Hsub.
  by eapply (for_each_addPlanes_line_ok minel0 lines P P1).
Qed.

(** C2. Staleness eviction of [addPlanes], as the code has it: for a
    non-empty batch of position records, with [ref] the raw epoch token of
    the last line and [P1] the dictionary after every line was applied: if
    [time_alive > 0], the tracks kept are exactly those of [P1] for which
    [abs(ref - last_epoch) > time_alive] is false (all others are removed);
    if [time_alive > 0] is false (zero or negative), nothing is evicted. *)
Theorem addPlanes_eviction (lines : list string) (line : string)
    (minel0 ta : num) (P : gmap string (Plane num)) :
  Forall position_record lines → last lines = Some line →
  ∃ P1 P2 ref,
    for_each lines (addPlanes_line minel0) P = (P1, Return tt) ∧
    field (split line) 1 = Some ref ∧
    addPlanes lines minel0 ta P = (P2, Return tt) ∧
    if fgt ta (of_int 0)
    then ∀ k v, P2 !! k = Some v ↔
           P1 !! k = Some v ∧ fgt (fabs (fsub ref (last_epoch v))) ta = false
    else P2 = P1.
Proof.
  intros Hok Hlast.
  destruct (for_each_addPlanes_line_total minel0 lines P Hok) as [P1 Hloop].
  assert (position_record line) as [_ Hnum].
  { rewrite Forall_forall in Hok. apply Hok. by apply last_Some_elem_of. }
  destruct (numeric_field _ 1 Hnum) as [ref Href]; [set_solver|].
  rewrite addPlanes_eq, Hloop. unfold addPlanes_rest. rewrite Hlast, Href.
  destruct (Nat.eqb (size P1) 0 || Nat.eqb (length lines) 0) eqn:Hz.
  - exists P1, P1, ref. repeat split; try done.
    destruct (fgt ta (of_int 0)); [|done].
    apply orb_true_iff in Hz as [Hz|Hz].
    + apply Nat.eqb_eq, map_size_empty_iff in Hz. subst P1.
      intros k v. rewrite lookup_empty. split; [done|by intros [? _]].
    + apply Nat.eqb_eq, nil_length_inv in Hz. by subst lines.
  - destruct (fgt ta (of_int 0)).
    + destruct (eviction ref ta P1) as (P2&Hrun&HP2).
      exists P1, P2, ref. by rewrite Hrun.
    + by exists P1, P1, ref.
Qed.

Lemma float_exn_ValueError (l : list string) (j : nat) :
  (j < length l)%nat → float_exn l j = ValueError.
Proof.
  intros Hj. unfold float_exn. destruct (l !! j) eqn:Hj'; [done|].
  apply lookup_ge_None in Hj'. lia.
Qed.

Lemma addLine_raise (l : list string) (p p' : Plane num) (e : exn) :
  length l = 13%nat → addLine l p = (p', Raise e) → e = ValueError.
Proof.
  intros Hl. rewrite addLine_eq. unfold addLine_run.
  repeat case_match; intros [= <- <-]; try done;
    apply float_exn_ValueError; lia.
Qed.

Lemma addPlanes_line_raise (minel0 : num) (line : string)
    (P P' : gmap string (Plane num)) (e : exn) :
  length (split line) = 13%nat →
  addPlanes_line minel0 line P = (P', Raise e) → e = ValueError.
Proof.
  intros Hl. rewrite addPlanes_line_eq. unfold addPlanes_line_run.
  destruct (split line !! 2%nat) as [i|] eqn:Hi;
    [|apply lookup_ge_None in Hi; lia].
  destruct (field (split line) 9) as [x9|].
  2:{ intros [= <- <-]. apply float_exn_ValueError. lia. }
  destruct (fgt x9 minel0); [|done].
  destruct (P !! i) as [p|].
  { destruct (addLine (split line) p) as [p' r] eqn:Hrun. simpl.
    intros [= <- ->]. by eapply addLine_raise. }
  destruct (split line !! 3%nat) as [c|] eqn:Hc;
    [|apply lookup_ge_None in Hc; lia].
  destruct (field (split line) 1) as [t|].
  2:{ intros [= <- <-]. apply float_exn_ValueError. lia. }
  destruct (addLine (split line) (Plane_attrs minel0 i c t))
    as [p' [[]|e']] eqn:Hrun; [done|].
  intros [= <- <-]. by eapply addLine_raise.
Qed.

(** C3. A malformed position line in [addPlanes], as the code has it
    (there is no exception handler).  For a 13-token line reached after
    the lines before it were applied: a non-numeric elevation token makes
    [addPlanes] raise [ValueError] with the dictionary exactly as those
    lines left it; so does a non-numeric epoch token on a record that
    passes the elevation tests; and whenever the loop body raises, the
    exception is [ValueError], it ends [addPlanes] at once (the remaining
    lines and the eviction are skipped), and the tracks of all other
    identifiers are as they were. *)
Theorem malformed_record (pre post : list string) (line : string)
    (minel0 ta : num) (P P1 : gmap string (Plane num)) (i : string) :
  length (split line) = 13%nat → split line !! 2%nat = Some i →
  for_each pre (addPlanes_line minel0) P = (P1, Return tt) →
  (field (split line) 9 = None →
   addPlanes (pre ++ line :: post) minel0 ta P = (P1, Raise ValueError)) ∧
  (∀ x9, field (split line) 9 = Some x9 → fgt x9 minel0 = true →
     (∀ p, P1 !! i = Some p → flt x9 (minel p) = false) →
     field (split line) 1 = None →
     addPlanes (pre ++ line :: post) minel0 ta P = (P1, Raise ValueError)) ∧
  (∀ P2 e, addPlanes_line minel0 line P1 = (P2, Raise e) →
     e = ValueError ∧
     addPlanes (pre ++ line :: post) minel0 ta P = (P2, Raise e) ∧
     ∀ k, k ≠ i → P2 !! k = P1 !! k).
Proof.
  intros Hl Hi Hpre. split; [|split].
  - intros H9. eapply addPlanes_raise; [done|].
    rewrite addPlanes_line_eq. unfold addPlanes_line_run.
    by rewrite Hi, H9, float_exn_ValueError by lia.
  - intros x9 H9 Hhigh Hown H1. eapply addPlanes_raise; [done|].
    rewrite addPlanes_line_eq. unfold addPlanes_line_run.
    rewrite Hi, H9, Hhigh, H1.
    destruct (P1 !! i) as [p|] eqn:Hp.
    + rewrite addLine_eq. unfold addLine_run.
      rewrite decide_True, H9, H1, (Hown p), float_exn_ValueError by (done || lia).
      simpl. by rewrite insert_id.
    + destruct (split line !! 3%nat) as [c|] eqn:Hc;
        [|apply lookup_ge_None in Hc; lia].
      by rewrite float_exn_ValueError by lia.
  - intros P2 e Hrun. split; [by eapply addPlanes_line_raise|].
    split; [by eapply addPlanes_raise|].
    intros k Hk.
    pose proof (addPlanes_line_frame minel0 line P1 i k Hi Hk) as Hfr.
    by rewrite Hrun in Hfr.
Qed.

Lemma addPlanes_cycles_total (batches : list (list string * num * num))
    (P : gmap string (Plane num)) :
  store_ok P → Forall (λ b, Forall position_record b.1.1) batches →
  ∃ P', addPlanes_cycles batches P = (P', Return tt).
Proof.
  intros HP Hok. revert P HP. unfold addPlanes_cycles.
  induction Hok as [|[[lines minel0] ta] batches Hb _ IH]; intros P HP.
  - by exists P.
  - destruct (addPlanes_ok lines minel0 ta P HP Hb) as (P1&Hrun&HP1).
    simpl. unfold bind. simpl in Hrun. rewrite Hrun. by apply IH.
Qed.

(** C4. The equal-length invariant, as the code has it: from a dictionary
    whose tracks each have their eight sample sequences (mjd, epoch, lat,
    lon, alt, range, az, el) of one length, any sequence of [addPlanes]
    calls (creating tracks, storing, rejecting by elevation, correcting
    rollover, discarding gaps, evicting) each of which returns, that is,
    raises no exception, leaves every track with eight sequences of one
    length; on batches of position records every call does return; and
    every [addLine] call that returns adds exactly one entry to each of
    the eight when the record is stored and none otherwise. *)
Theorem equal_length_invariant (P : gmap string (Plane num))
    (batches : list (list string * num * num)) :
  (∀ k p, P !! k = Some p → ∃ n, sample_lengths p = replicate 8 n) →
  (∀ P', addPlanes_cycles batches P = (P', Return tt) →
     ∀ k p, P' !! k = Some p → ∃ n, sample_lengths p = replicate 8 n) ∧
  (Forall (λ b, Forall position_record b.1.1) batches →
   ∃ P', addPlanes_cycles batches P = (P', Return tt)) ∧
  (∀ (l : list string) (p p' : Plane num) (n : nat),
     sample_lengths p = replicate 8 n → addLine l p = (p', Return tt) →
     sample_lengths p' = replicate 8 (if is_stored l p then S n else n)).
Proof.
  intros HP. split; [|split].
  - intros P' Hrun. by apply (addPlanes_cycles_returns_ok batches P P').
  - by apply addPlanes_cycles_total.
  - intros l p p' n. apply samples_step.
Qed.

End StoreTheory.

(* ===================================================================== *)
(** ** The replay reader *)
(* ===================================================================== *)

Section ReplayTheory.

Lemma line_prefix_empty (s : string) : line_prefix s = "" → s = "".
Proof. destruct s as [|c s]; [done|]. simpl. by case_match. Qed.

Lemma line_prefix_length (s : string) :
  (String.length (line_prefix s) ≤ String.length s)%nat.
Proof.
  induction s as [|c s IH]; simpl; [done|].
  case_match; simpl; lia.
Qed.

Lemma drop_string_length (n : nat) (s : string) :
  String.length (drop_string n s) = (String.length s - n)%nat.
Proof.
  revert s. induction n as [|n IH]; intros [|c s]; simpl; done.
Qed.

Lemma drop_string_all (n : nat) (s : string) :
  (String.length s ≤ n)%nat → drop_string n s = "".
Proof.
  revert s. induction n as [|n IH]; intros [|c s]; simpl; try done; [lia|].
  intros Hn. apply IH. lia.
Qed.

(** At or beyond the end, [readline] returns the empty string and the
    offset stays. *)
Lemma readline_at_end (f : File) :
  (String.length (content f) ≤ fpos f)%nat → readline f = (f, "").
Proof.
  intros Hpos. unfold readline. rewrite drop_string_all by done. simpl.
  destruct f as [c n]. simpl. by rewrite Nat.add_0_r.
Qed.

(** Within the file [readline] stays within it, and it returns the empty
    string only at the end. *)
Lemma readline_within (f f1 : File) (line : string) :
  (fpos f ≤ String.length (content f))%nat → readline f = (f1, line) →
  content f1 = content f ∧ (fpos f1 ≤ String.length (content f1))%nat ∧
  (line = "" → fpos f1 = String.length (content f)).
Proof.
  intros Hpos [= <- <-]. simpl. split; [done|].
  pose proof (line_prefix_length (drop_string (fpos f) (content f))) as Hle.
  rewrite drop_string_length in Hle. split; [lia|].
  intros Hempty%line_prefix_empty.
  apply (f_equal String.length) in Hempty as Hlen.
  rewrite drop_string_length in Hlen. rewrite Hempty. simpl in *. lia.
Qed.

(** An invocation that starts at the end of the file. *)
Lemma dataFakeRead_at_end (f : File) (N : nat) :
  dataFakeRead f (Some (String.length (content f))) N =
    (seek (String.length (content f)) f, ([], [], String.length (content f))).
Proof.
  unfold dataFakeRead.
  destruct N; cbn [dataFakeRead_loop]; by rewrite readline_at_end.
Qed.

Lemma dataFakeRead_loop_eof (k : nat) (f : File) (plines tlines : list string) :
  (fpos f ≤ String.length (content f))%nat →
  dataFakeRead_eof k f = true →
  ∃ f1 plines' tlines',
    dataFakeRead_loop k f plines tlines =
      (f1, (plines', tlines', String.length (content f))) ∧
    content f1 = content f.
Proof.
  revert f plines tlines. induction k as [|k IH]; intros f plines tlines Hpos;
    cbn [dataFakeRead_loop dataFakeRead_eof];
    destruct (readline f) as [f1 line] eqn:Hread;
    destruct (readline_within f f1 line Hpos Hread) as (Hc&Hpos1&Hend);
    case_decide as Hline; try done.
  - intros _. exists f1, plines, tlines. unfold tell. by rewrite Hend.
  - intros _. exists f1, plines, tlines. unfold tell. by rewrite Hend.
  - intros Heof. edestruct IH as (f2&pl&tl&Hrun&Hc2); [done..|].
    rewrite Hc in Hrun, Hc2. exists f2, pl, tl. split; [exact Hrun|done].
Qed.

End ReplayTheory.

(* ===================================================================== *)
(** ** The supervisor and the transport worker *)
(* ===================================================================== *)

Section SupervisorTheory.
Context {num : Type} {ops : PyNum num}.
Variable L2P_HOST : string * Z.

(** The supervisor after [reconnect]. *)
Lemma reconnect_run (r : L2pRadar num) :
  ∃ r', reconnect L2P_HOST r = (r', Return tt) ∧
    P r' = P r ∧ outFile r' = outFile r ∧ slept r' = slept r ∧
    planeQueue r' = length (queues r) ∧
    procWorker r' = length (procs r) ∧
    queues r' = alter close_queue (planeQueue r) (queues r) ++ [mkQueue false []] ∧
    procs r' = alter terminate (procWorker r) (procs r) ++
               [mkProcess (length (queues r)) L2P_HOST true false].
Proof.
  eexists. split; [reflexivity|]. simpl.
  rewrite !length_alter. repeat split; try done.
  rewrite <- (length_alter terminate (procs r) (procWorker r)) at 1.
  rewrite <- (Nat.add_0_r (length (alter terminate _ _))) at 1.
  by rewrite alter_app_r.
Qed.

Lemma process_line_run (dump2file : bool) (acc : list string * list string)
    (line : string) (r : L2pRadar num) :
  let r0 := if dump2file
            then (write_outFile (line +:+ " " +:+ String "010"%char "") r).1
            else r in
  let L := length (split line) in
  process_line L2P_HOST dump2file acc line r =
    if decide (L = 13%nat) then (r0, Return (acc.1 ++ [line], acc.2))
    else if decide (L = 6%nat) then (r0, Return (acc.1, acc.2 ++ [line]))
    else if decide (L = 2%nat)
         then ((reconnect L2P_HOST (sleep 2 r0).1).1, Return acc)
         else (r0, Return acc).
Proof.
  unfold process_line. destruct dump2file; simpl;
    repeat case_decide; try done;
    unfold sleep; rewrite bind_modify;
    by destruct (reconnect_run
      (mkRadar (P _) (planeQueue _) (procWorker _) (outFile _)
               (queues _) (procs _) (slept _ ++ [2%Q]))) as (r'&->&_).
Qed.

Lemma process_lines_from_run (dump2file : bool) (data_lines : list string)
    (acc : list string * list string) (r : L2pRadar num) :
  ∃ r', process_lines_from L2P_HOST dump2file acc data_lines r =
    (r', Return
       (acc.1 ++ filter (λ line, length (split line) = 13%nat) data_lines,
        acc.2 ++ filter (λ line, length (split line) = 6%nat) data_lines)).
Proof.
  revert acc r. induction data_lines as [|line rest IH]; intros acc r.
  - exists r. simpl. rewrite !app_nil_r. by destruct acc.
  - cbn [process_lines_from]. unfold bind.
    rewrite process_line_run. cbv zeta.
    rewrite !filter_cons.
    destruct (decide (length (split line) = 13%nat)) as [H13|H13].
    { rewrite decide_False by lia.
      edestruct IH as [r' ->]. exists r'. simpl. by rewrite <- !app_assoc. }
    destruct (decide (length (split line) = 6%nat)) as [H6|H6].
    { edestruct IH as [r' ->]. exists r'. simpl. by rewrite <- !app_assoc. }
    destruct (decide (length (split line) = 2%nat)) as [H2|H2];
      edestruct IH as [r' ->]; by exists r'.
Qed.

(** C6. Classification by token count in [process_lines]: the position
    group is exactly the lines of 13 whitespace-separated tokens and the
    telescope group exactly those of 6, in their order of arrival; a line
    whose token count is none of 13, 6, 2 adds to neither group and leaves
    the supervisor as it was (apart from the copy written to the dump
    file when dumping is on). *)
Theorem token_count_classification (data_lines : list string)
    (dump2file : bool) (r : L2pRadar num) :
  (∃ r', process_lines L2P_HOST data_lines dump2file r =
     (r', Return
        (filter (λ line, length (split line) = 13%nat) data_lines,
         filter (λ line, length (split line) = 6%nat) data_lines))) ∧
  (∀ (line : string) (acc : list string * list string),
     length (split line) ≠ 13%nat → length (split line) ≠ 6%nat →
     length (split line) ≠ 2%nat →
     process_line L2P_HOST dump2file acc line r =
       (if dump2file
        then mkRadar (P r) (planeQueue r) (procWorker r)
               (outFile r ++ [line +:+ " " +:+ String "010"%char ""])
               (queues r) (procs r) (slept r)
        else r, Return acc)).
Proof.
  split.
  - apply (process_lines_from_run dump2file data_lines ([], []) r).
  - intros line acc H13 H6 H2. rewrite process_line_run. cbv zeta.
    rewrite !decide_False by done. by destruct dump2file.
Qed.

Lemma receive_loop_fail (datas : list string) (fail : exchange)
    (rest : list exchange) :
  fail = SendFails ∨ fail = RecvFails →
  ∃ acts, receive_loop ((Received <$> datas) ++ fail :: rest) =
            (acts ++ [Sleep 1.5; Put "CONN ERROR"], Terminated) ∧
          queued acts = datas.
Proof.
  intros Hfail. induction datas as [|d datas (acts&IH&Hq)].
  - destruct Hfail as [-> | ->]; [by exists [Send handshake]|].
    by exists [Send handshake; Recv 256].
  - rewrite fmap_cons. cbn [app receive_loop]. rewrite IH. exists (Send handshake :: Recv 256 :: Put d :: acts).
    split; [done|]. simpl. by rewrite <- Hq.
Qed.

(** C5. Recovery from a transport failure.  The worker: when a [send] or
    [recv] fails after any number of successful exchanges, the worker
    sleeps 1.5 s, puts ["CONN ERROR"] (two tokens) on the queue after the
    payloads received so far, and returns.  The supervisor: on a payload
    of two tokens [process_lines] sleeps 2 s and reconnects: the old queue
    is closed and the old worker terminated, [planeQueue] and [procWorker]
    are a new empty queue and a new, started worker on that queue and the
    same [L2P_HOST]; the planes dictionary is not touched. *)
Theorem transport_failure_recovery :
  (∀ (host : string * Z) (datas : list string) (fail : exchange)
     (rest : list exchange),
     fail = SendFails ∨ fail = RecvFails →
     ∃ acts,
       receive_proc host ((Received <$> datas) ++ fail :: rest) =
         (acts ++ [Sleep 1.5; Put "CONN ERROR"], Terminated) ∧
       queued (acts ++ [Sleep 1.5; Put "CONN ERROR"]) = datas ++ ["CONN ERROR"] ∧
       length (split "CONN ERROR") = 2%nat) ∧
  (∀ (r : L2pRadar num) (payload : string) (dump2file : bool)
     (acc : list string * list string) (q : Queue) (w : Process),
     length (split payload) = 2%nat →
     queues r !! planeQueue r = Some q → procs r !! procWorker r = Some w →
     ∃ r', process_line L2P_HOST dump2file acc payload r = (r', Return acc) ∧
       P r' = P r ∧
       slept r' = slept r ++ [2%Q] ∧
       planeQueue r' = length (queues r) ∧
       procWorker r' = length (procs r) ∧
       queues r' !! planeQueue r = Some (mkQueue true (q_items q)) ∧
       queues r' !! planeQueue r' = Some (mkQueue false []) ∧
       procs r' !! procWorker r =
         Some (mkProcess (p_queue w) (p_host w) (p_started w) true) ∧
       procs r' !! procWorker r' =
         Some (mkProcess (planeQueue r') L2P_HOST true false)).
Proof.
  split.
  - intros host datas fail rest Hfail.
    destruct (receive_loop_fail datas fail rest Hfail) as (acts&Hloop&Hq).
    exists (Connect host :: acts). unfold receive_proc. rewrite Hloop.
    split; [done|]. split; [|done].
    unfold queued in *. simpl. rewrite omap_app, Hq. done.
  - intros r payload dump2file acc q w H2 Hq Hw.
    rewrite process_line_run. cbv zeta.
    rewrite decide_False, decide_False, decide_True by lia.
    set (r0 := if dump2file then _ else r).
    assert (P r0 = P r ∧ slept r0 = slept r ∧ queues r0 = queues r ∧
            procs r0 = procs r ∧ planeQueue r0 = planeQueue r ∧
            procWorker r0 = procWorker r) as (E1&E2&E3&E4&E5&E6)
      by (subst r0; by destruct dump2file).
    destruct (reconnect_run (sleep 2 r0).1)
      as (r'&Hrun&HP&_&Hs&HpQ&HpW&Hqs&Hps).
    simpl in HP, Hs, HpQ, HpW, Hqs, Hps.
    rewrite Hrun. exists r'. split; [done|].
    rewrite HP, Hs, HpQ, HpW, Hqs, Hps, ?E1, ?E2, ?E3, ?E4, ?E5, ?E6.
    pose proof (lookup_lt_Some _ _ _ Hq) as Hqlt.
    pose proof (lookup_lt_Some _ _ _ Hw) as Hwlt.
    repeat split.
    + rewrite lookup_app_l by (by rewrite length_alter).
      by rewrite list_lookup_alter_eq, Hq.
    + rewrite <- (length_alter close_queue (queues r) (planeQueue r)) at 1.
      by rewrite list_lookup_middle.
    + rewrite lookup_app_l by (by rewrite length_alter).
      by rewrite list_lookup_alter_eq, Hw.
    + rewrite <- (length_alter terminate (procs r) (procWorker r)) at 1.
      by rewrite list_lookup_middle.
Qed.

End SupervisorTheory.

(* ===================================================================== *)
(** ** The theorems on recorded lines *)
(* ===================================================================== *)

(** C1 on a day rollover (the epoch 12.5 after 40400.326 is stored as
    86012.5) and on a gap (the epoch 700000 is 659599.674 past 40400.326:
    [gaps] becomes 1 and nothing is stored). *)
Lemma addLine_epoch_correction_witness :
  addLine (split Sample.ryr_rollover) Sample.ryr_track =
    (with_sample 56396%Q (172025 # 2) 51%Q (-7 # 10) 29525%Q 69%Q 281%Q
       (15 # 2) Sample.ryr_track, Return tt) ∧
  addLine (split Cases.ryr_gap) Sample.ryr_track =
    ({| minel := 0%Q; mjd := [56395%Q]; plane_id := "4ca626";
        code := "RYR8JT"; epc := [20200163 # 500];
        last_epoch := 20200163 # 500;
        lat := lat Sample.ryr_track; lon := lon Sample.ryr_track;
        alt := alt Sample.ryr_track; ran := ran Sample.ryr_track;
        az := az Sample.ryr_track; el := el Sample.ryr_track;
        maxel := maxel Sample.ryr_track; gaps := 1 |}, Return tt).
Proof.
  split.
  - exact (addLine_epoch_correction Sample.ryr_track
             (split Sample.ryr_rollover) 56396%Q (25 # 2) 51%Q (-7 # 10)
             29525%Q 69%Q 281%Q (15 # 2) eq_refl eq_refl eq_refl eq_refl
             eq_refl eq_refl eq_refl eq_refl eq_refl eq_refl).
  - exact (addLine_epoch_correction Sample.ryr_track
             (split Cases.ryr_gap) 56403%Q 700000%Q (511 # 10) (-4 # 5)
             29525%Q 70%Q 282%Q 8%Q eq_refl eq_refl eq_refl eq_refl
             eq_refl eq_refl eq_refl eq_refl eq_refl eq_refl).
Defined.

(** C7 on the same line: 29525 ft are 8999.22 m, 281 degrees are
    pi/180 * 281. *)
Lemma addLine_unit_conversion_witness :
  ∃ p', addLine (split Sample.ryr_rollover) Sample.ryr_track
          = (p', Return tt) ∧
    alt p' = [449961 # 50; 449961 # 50] ∧
    az p' = az Sample.ryr_track ++
            [49696520207999791 # 10133099161583616] ∧
    lat p' = lat Sample.ryr_track ++ [51%Q] ∧
    lon p' = lon Sample.ryr_track ++ [-7 # 10] ∧
    ran p' = ran Sample.ryr_track ++ [69%Q] ∧
    el p' = el Sample.ryr_track ++ [15 # 2].
Proof.
  exact (addLine_unit_conversion Sample.ryr_track
           (split Sample.ryr_rollover) 56396%Q (25 # 2) 51%Q (-7 # 10) 29525%Q 69%Q 281%Q
           (15 # 2) eq_refl eq_refl eq_refl eq_refl eq_refl eq_refl eq_refl
           eq_refl eq_refl eq_refl).
Defined.

(** C10 on the track of [Sample.ryr] followed by the rollover line, a
    telescope line and a fragment. *)
Lemma last_epoch_coherence_witness :
  ∃ p', for_each
          [split Sample.ryr_rollover; split Sample.telscp; split Sample.fragment]
          addLine Sample.ryr_track = (p', Return tt) ∧
    last (epc p') = Some (last_epoch p').
Proof.
  destruct (last_epoch_coherence Sample.ryr 0%Q Sample.ryr_track
              [split Sample.ryr_rollover; split Sample.telscp;
               split Sample.fragment]) as (Hcoh & Htotal & _);
    [reflexivity|].
  destruct Htotal as [p' Hrun].
  { apply (Forall_forallb _ tokens_okb); [apply tokens_okb_true|].
    vm_compute. reflexivity. }
  exists p'. split; [exact Hrun|]. apply (Hcoh p' Hrun).
  vm_compute in Hrun. injection Hrun as <-. discriminate.
Defined.

(** C10 fails when a call raises: on the track of [Sample.ryr], which
    holds one sample, [addLine] of [Sample.ryr_bad_mjd] has appended the
    epoch 40401.5 when [float("5639x")] raises, and [last_epoch] is still
    40400.326. *)
Lemma last_epoch_coherence_counterexample :
  Plane_init Sample.ryr 0%Q () = ((), Return Sample.ryr_track) ∧
  length (split Sample.ryr_bad_mjd) = 13%nat ∧
  (addLine (split Sample.ryr_bad_mjd) Sample.ryr_track).2 = Raise ValueError ∧
  mjd (addLine (split Sample.ryr_bad_mjd) Sample.ryr_track).1 = [56395%Q] ∧
  last (epc (addLine (split Sample.ryr_bad_mjd) Sample.ryr_track).1)
    = Some (80803 # 2) ∧
  last_epoch (addLine (split Sample.ryr_bad_mjd) Sample.ryr_track).1
    = 20200163 # 500 ∧
  last (epc (addLine (split Sample.ryr_bad_mjd) Sample.ryr_track).1)
    ≠ Some (last_epoch (addLine (split Sample.ryr_bad_mjd) Sample.ryr_track).1).
Proof. repeat split; try (vm_compute; reflexivity). vm_compute. discriminate. Qed.

(** Scenario A of the specification: the line quoted in the source, with
    [minel = 0], creates the track ["4ca626"] with one sample; the ninth
    token (280.17873692) is the azimuth and the tenth the elevation. *)
Example scenario_A :
  Sample.ryr_only !! "4ca626" = Some Sample.ryr_track ∧
  sample_lengths Sample.ryr_track = replicate 8 1%nat ∧
  el Sample.ryr_track = [7.1619703%Q] ∧
  field (split Sample.ryr) 8 = Some (7004468423 # 25000000) ∧
  Qeq_bool (7004468423 # 25000000) 280.17873692 = true.
Proof. repeat split; vm_compute; reflexivity. Qed.

(** C2 with [time_alive = 15]: the track of [Sample.baw], last seen
    100.326 s before the reference epoch, is evicted. *)
Lemma addPlanes_eviction_witness :
  ∃ (P1 P2 : gmap string (Plane Q)) (ref : Q),
    for_each [Sample.ryr] (addPlanes_line 0%Q) Sample.baw_only
      = (P1, Return tt) ∧
    field (split Sample.ryr) 1 = Some ref ∧
    addPlanes [Sample.ryr] 0%Q 15%Q Sample.baw_only
      = (P2, Return tt) ∧
    if fgt 15%Q (of_int 0)
    then ∀ k v, P2 !! k = Some v ↔
           P1 !! k = Some v ∧
           fgt
             (fabs
                (fsub ref (last_epoch v))) 15%Q = false
    else P2 = P1.
Proof.
  apply (addPlanes_eviction [Sample.ryr] Sample.ryr 0%Q 15%Q
           Sample.baw_only).
  - apply (Forall_forallb _ position_recordb);
      [apply position_recordb_true|]. vm_compute. reflexivity.
  - reflexivity.
Defined.

(** C2 fails at [time_alive = 0]: the track of [Sample.baw] is 100.326 s
    from the reference epoch, which is more than 0, and it is kept. *)
Lemma addPlanes_zero_age_counterexample :
  let P2 := (addPlanes [Sample.ryr] 0%Q 0%Q Sample.baw_only).1 in
  let ref : Q := 20200163 # 500 in
  field (split Sample.ryr) 1 = Some ref ∧
  ¬ (∀ k v, P2 !! k = Some v → stale ref 0%Q v = false).
Proof.
  split; [vm_compute; reflexivity|]. intros Hkept.
  assert (stale (20200163 # 500) 0%Q Sample.baw_track = false) as Hst.
  { apply (Hkept "400f01"). vm_compute. reflexivity. }
  vm_compute in Hst. discriminate Hst.
Qed.

(** C3 fails on [Sample.ryr_bad_mjd]: [addPlanes] raises [ValueError], and
    the track of the aircraft is left with two epochs for one sample. *)
Lemma malformed_record_counterexample :
  let r := addPlanes [Sample.ryr_bad_mjd] 0%Q 15%Q Sample.ryr_only in
  length (split Sample.ryr_bad_mjd) = 13%nat ∧
  Sample.ryr_only !! "4ca626" = Some Sample.ryr_track ∧
  r.2 = Raise ValueError ∧
  r.1 !! "4ca626" =
    Some (set_epc [20200163 # 500; 80803 # 2] Sample.ryr_track).
Proof. repeat split; vm_compute; reflexivity. Qed.

(** C3 as the code has it, on [Sample.ryr_bad_mjd] between two good lines. *)
Lemma malformed_record_witness :
  (∀ P2 e,
     addPlanes_line 0%Q Sample.ryr_bad_mjd Sample.ryr_only
       = (P2, Raise e) →
     e = ValueError ∧
     addPlanes
       ([Sample.ryr] ++ Sample.ryr_bad_mjd :: [Sample.baw]) 0%Q 15%Q ∅
       = (P2, Raise e) ∧
     ∀ k, k ≠ "4ca626" → P2 !! k = Sample.ryr_only !! k) ∧
  (addPlanes_line 0%Q Sample.ryr_bad_mjd Sample.ryr_only).2
    = Raise ValueError.
Proof.
  split; [|vm_compute; reflexivity].
  refine (proj2 (proj2 (malformed_record [Sample.ryr] [Sample.baw]
           Sample.ryr_bad_mjd 0%Q 15%Q ∅ Sample.ryr_only "4ca626" _ _ _)));
    vm_compute; reflexivity.
Defined.

(** C4 on three update cycles from the empty dictionary. *)
Lemma equal_length_invariant_witness :
  (∃ P', addPlanes_cycles
           [([Sample.baw], 0%Q, 15%Q);
            ([Sample.ryr; Sample.ryr_horizon], 0%Q, 15%Q);
            ([Sample.ryr_rollover], 0%Q, (-1)%Q)] ∅ = (P', Return tt) ∧
     ∀ k p, P' !! k = Some p → ∃ n, sample_lengths p = replicate 8 n) ∧
  sample_lengths Sample.ryr_track2 =
    replicate 8
      (if is_stored (split Sample.ryr_rollover) Sample.ryr_track
       then 2%nat else 1%nat).
Proof.
  destruct (equal_length_invariant (∅ : gmap string (Plane Q))
              [([Sample.baw], 0%Q, 15%Q);
               ([Sample.ryr; Sample.ryr_horizon], 0%Q, 15%Q);
               ([Sample.ryr_rollover], 0%Q, (-1)%Q)])
    as (Hinv & Htotal & Hstep).
  - intros k p Hk. by rewrite lookup_empty in Hk.
  - split.
    + destruct Htotal as [P' Hrun].
      { apply (Forall_forallb _ (λ b, forallb position_recordb b.1.1)).
        - intros b. apply Forall_forallb, position_recordb_true.
        - vm_compute. reflexivity. }
      exists P'. split; [exact Hrun|exact (Hinv P' Hrun)].
    + apply (Hstep (split Sample.ryr_rollover) Sample.ryr_track
               Sample.ryr_track2 1%nat); vm_compute; reflexivity.
Defined.

(** C4 fails when a call raises: [addPlanes] on [Sample.ryr_bad_mjd]
    raises [ValueError] with two epochs for the one sample of the track,
    and a later call on a position record, which returns, leaves it with
    three epochs for two samples. *)
Lemma equal_length_counterexample :
  (∀ k p, Sample.ryr_only !! k = Some p →
     ∃ n, sample_lengths p = replicate 8 n) ∧
  length (split Sample.ryr_bad_mjd) = 13%nat ∧
  (addPlanes [Sample.ryr_bad_mjd] 0%Q 15%Q Sample.ryr_only).2
    = Raise ValueError ∧
  sample_lengths <$>
    (addPlanes [Sample.ryr_bad_mjd] 0%Q 15%Q Sample.ryr_only).1 !! "4ca626"
    = Some [1; 2; 1; 1; 1; 1; 1; 1]%nat ∧
  (addPlanes [Cases.ryr_next] 0%Q 15%Q
     (addPlanes [Sample.ryr_bad_mjd] 0%Q 15%Q Sample.ryr_only).1).2
    = Return tt ∧
  sample_lengths <$>
    (addPlanes [Cases.ryr_next] 0%Q 15%Q
       (addPlanes [Sample.ryr_bad_mjd] 0%Q 15%Q Sample.ryr_only).1).1
      !! "4ca626"
    = Some [2; 3; 2; 2; 2; 2; 2; 2]%nat.
Proof.
  split; [|repeat split; vm_compute; reflexivity].
  intros k p Hk. exists 1%nat.
  destruct (decide (k = "4ca626")) as [->|Hne].
  - vm_compute in Hk. by injection Hk as <-.
  - assert (Sample.ryr_only !! k = None) as Hnone; [|congruence].
    change Sample.ryr_only
      with (<["4ca626" := Sample.ryr_track]> (∅ : gmap string (Plane Q))).
    rewrite lookup_insert_ne by done. apply lookup_empty.
Qed.

(** C8 fails in [addPlanes] on a record exactly at the cutoff: with
    [minel = 0] and elevation 0, [addPlanes] neither creates a track nor
    appends to the existing one, although [Plane.addLine] itself accepts
    the record. *)
Lemma addPlanes_boundary_elevation :
  field (split Sample.ryr_horizon) 9 = Some 0%Q ∧
  addPlanes [Sample.ryr_horizon] 0%Q 15%Q ∅ = (∅, Return tt) ∧
  addPlanes [Sample.ryr_horizon] 0%Q 15%Q Sample.ryr_only
    = (Sample.ryr_only, Return tt) ∧
  is_stored (split Sample.ryr_horizon) Sample.ryr_track = true ∧
  el (addLine (split Sample.ryr_horizon) Sample.ryr_track).1
    = [7.1619703%Q; 0%Q].
Proof. repeat split; vm_compute; reflexivity. Qed.

(** C5 on a worker whose second [recv] fails, and on the supervisor
    [Sample.radar] draining ["CONN ERROR"]. *)
Lemma transport_failure_recovery_witness :
  (∃ acts,
     receive_proc Sample.host ((Received <$> [Sample.ryr]) ++ RecvFails :: []) =
       (acts ++ [Sleep 1.5; Put "CONN ERROR"], Terminated) ∧
     queued (acts ++ [Sleep 1.5; Put "CONN ERROR"]) =
       [Sample.ryr] ++ ["CONN ERROR"] ∧
     length (split "CONN ERROR") = 2%nat) ∧
  (∃ r', process_line Sample.host false ([], []) "CONN ERROR" Sample.radar
           = (r', Return ([], [])) ∧
     P r' = P Sample.radar ∧
     slept r' = slept Sample.radar ++ [2%Q] ∧
     planeQueue r' = length (queues Sample.radar) ∧
     procWorker r' = length (procs Sample.radar) ∧
     queues r' !! planeQueue Sample.radar = Some (mkQueue true []) ∧
     queues r' !! planeQueue r' = Some (mkQueue false []) ∧
     procs r' !! procWorker Sample.radar =
       Some (mkProcess 0 Sample.host true true) ∧
     procs r' !! procWorker r' =
       Some (mkProcess (planeQueue r') Sample.host true false)).
Proof.
  destruct (transport_failure_recovery (num := Q) Sample.host) as [Hworker Hsup].
  split.
  - apply Hworker. by right.
  - apply (Hsup Sample.radar "CONN ERROR" false ([], [])
             (mkQueue false []) (mkProcess 0 Sample.host true false));
      vm_compute; reflexivity.
Defined.

(** C6 on a position line, a telescope line and a fragment of 3 tokens. *)
Lemma token_count_classification_witness :
  (∃ r', process_lines Sample.host
           [Sample.ryr; Sample.telscp; Sample.fragment] false Sample.radar =
     (r', Return
        (filter (λ line, length (split line) = 13%nat)
           [Sample.ryr; Sample.telscp; Sample.fragment],
         filter (λ line, length (split line) = 6%nat)
           [Sample.ryr; Sample.telscp; Sample.fragment]))) ∧
  process_line Sample.host false ([], []) Sample.fragment Sample.radar =
    (Sample.radar, Return ([], [])).
Proof.
  destruct (token_count_classification (num := Q) Sample.host
              [Sample.ryr; Sample.telscp; Sample.fragment] false Sample.radar)
    as [Hgroups _].
  split; [exact Hgroups|].
  apply (proj2 (token_count_classification (num := Q) Sample.host [] false
                  Sample.radar) Sample.fragment ([], []));
    vm_compute; lia.
Defined.

Example classification_of_samples :
  filter (λ line, length (split line) = 13%nat)
    [Sample.ryr; Sample.telscp; Sample.fragment] = [Sample.ryr] ∧
  filter (λ line, length (split line) = 6%nat)
    [Sample.ryr; Sample.telscp; Sample.fragment] = [Sample.telscp].
Proof. split; vm_compute; reflexivity. Qed.

(* ===================================================================== *)
(** * Further properties of the code *)
(* ===================================================================== *)

(** ** Tracks under addLine and addPlanes, whatever the lines *)

Section TrackInvariants.
Context {num : Type} {ops : PyNum num}.

(** However [addLine] ends, it only extends the track. *)
Lemma addLine_extends (l : list string) (p : Plane num) :
  extends p (addLine l p).1.
Proof.
  rewrite addLine_eq. unfold addLine_run, extends.
  repeat case_match; simpl; repeat split; try done;
    by apply prefix_app_r.
Qed.

Lemma extends_refl (p : Plane num) : extends p p.
Proof. by repeat split. Qed.

Lemma extends_trans (p q r : Plane num) :
  extends p q → extends q r → extends p r.
Proof.
  intros (?&?&?&?&?&?&?&?&?&?&?) (?&?&?&?&?&?&?&?&?&?&?).
  repeat split; try congruence; by etrans.
Qed.

(** The loop body on a dictionary: the tracks that were there are still
    there, extended. *)
Lemma addPlanes_line_extends (minel0 : num) (line : string)
    (P : gmap string (Plane num)) (k : string) (p : Plane num) :
  P !! k = Some p →
  ∃ p', (addPlanes_line minel0 line P).1 !! k = Some p' ∧ extends p p'.
Proof.
  intros Hk. rewrite addPlanes_line_eq. unfold addPlanes_line_run.
  destruct (split line !! 2%nat) as [i|]; [|exists p; split; [done|apply extends_refl]].
  destruct (field (split line) 9) as [x9|]; [|exists p; split; [done|apply extends_refl]].
  destruct (fgt x9 minel0); [|exists p; split; [done|apply extends_refl]].
  destruct (P !! i) as [q|] eqn:Hi.
  - simpl. destruct (decide (k = i)) as [->|Hne].
    + rewrite lookup_insert_eq. simplify_eq. eexists. split; [done|].
      apply addLine_extends.
    + rewrite lookup_insert_ne by done. exists p. split; [done|apply extends_refl].
  - destruct (split line !! 3%nat) as [c|]; [|exists p; split; [done|apply extends_refl]].
    destruct (field (split line) 1) as [t|]; [|exists p; split; [done|apply extends_refl]].
    destruct (addLine (split line) (Plane_attrs minel0 i c t))
      as [q [[]|e]]; simpl; [|exists p; split; [done|apply extends_refl]].
    rewrite lookup_insert_ne by congruence. by exists p.
Qed.

Lemma for_each_addPlanes_line_extends (minel0 : num) (lines : list string)
    (P : gmap string (Plane num)) (k : string) (p : Plane num) :
  P !! k = Some p →
  ∃ p', (for_each lines (addPlanes_line minel0) P).1 !! k = Some p' ∧
        extends p p'.
Proof.
  revert P p. induction lines as [|line lines IH]; intros P p Hk; simpl.
  - exists p. split; [done|apply extends_refl].
  - destruct (addPlanes_line_extends minel0 line P k p Hk) as (p1&Hk1&Hext1).
    unfold bind.
    destruct (addPlanes_line minel0 line P) as [P1 [[]|e]]; simpl in *.
    + destruct (IH P1 p1 Hk1) as (p2&Hk2&Hext2). exists p2.
      split; [done|]. by eapply extends_trans.
    + by exists p1.
Qed.

(** Without eviction [addPlanes_rest] changes nothing. *)
Lemma addPlanes_rest_keep (lines : list string) (ta : num)
    (P1 : gmap string (Plane num)) :
  fgt ta (of_int 0) = false → (addPlanes_rest lines ta P1).1 = P1.
Proof. intros Hta. unfold addPlanes_rest. rewrite Hta. by case_match. Qed.

Lemma addPlanes_fst (lines : list string) (minel0 ta : num)
    (P : gmap string (Plane num)) :
  (addPlanes lines minel0 ta P).1 =
    match for_each lines (addPlanes_line minel0) P with
    | (P1, Return _) => (addPlanes_rest lines ta P1).1
    | (P1, Raise _) => P1
    end.
Proof.
  rewrite addPlanes_eq.
  by destruct (for_each lines (addPlanes_line minel0) P) as [P1 [[]|e]].
Qed.

(** X1. [addPlanes] is append-only on the tracks it keeps: however the
    call ends, a track that was in the dictionary and still is has the
    same identifier, code and threshold, and each of its eight sample
    sequences has the old one as a prefix. *)
Theorem addPlanes_append_only (lines : list string) (minel0 ta : num)
    (P : gmap string (Plane num)) (k : string) (p p' : Plane num) :
  P !! k = Some p → (addPlanes lines minel0 ta P).1 !! k = Some p' →
  minel p' = minel p ∧ plane_id p' = plane_id p ∧ code p' = code p ∧
  mjd p `prefix_of` mjd p' ∧ epc p `prefix_of` epc p' ∧
  lat p `prefix_of` lat p' ∧ lon p `prefix_of` lon p' ∧
  alt p `prefix_of` alt p' ∧ ran p `prefix_of` ran p' ∧
  az p `prefix_of` az p' ∧ el p `prefix_of` el p'.
Proof.
  intros Hk. rewrite addPlanes_fst.
  destruct (for_each_addPlanes_line_extends minel0 lines P k p Hk)
    as (p1&Hk1&Hext).
  destruct (for_each lines (addPlanes_line minel0) P) as [P1 [[]|e]];
    simpl in *.
  - intros Hk'%addPlanes_rest_sub. by simplify_eq.
  - intros Hk'. by simplify_eq.
Qed.

(** The loop body leaves alone every key that is not the line's third
    token. *)
Lemma addPlanes_line_other (minel0 : num) (line : string)
    (P : gmap string (Plane num)) (k : string) :
  split line !! 2%nat ≠ Some k →
  (addPlanes_line minel0 line P).1 !! k = P !! k.
Proof.
  intros Hk. destruct (split line !! 2%nat) as [i|] eqn:Hi.
  - apply (addPlanes_line_frame minel0 line P i k Hi). congruence.
  - rewrite addPlanes_line_eq. unfold addPlanes_line_run. by rewrite Hi.
Qed.

Lemma for_each_addPlanes_line_other (minel0 : num) (lines : list string)
    (P : gmap string (Plane num)) (k : string) :
  k ∉ batch_ids lines →
  (for_each lines (addPlanes_line minel0) P).1 !! k = P !! k.
Proof.
  revert P. induction lines as [|line lines IH]; intros P Hk; [done|].
  assert (split line !! 2%nat ≠ Some k ∧ k ∉ batch_ids lines) as [Hl Hr].
  { unfold batch_ids in *. simpl in Hk.
    destruct (split line !! 2%nat) as [i|]; [|done].
    apply not_elem_of_cons in Hk as [? ?]. split; [|done].
    intros [= ->]. done. }
  simpl. unfold bind.
  pose proof (addPlanes_line_other minel0 line P k Hl) as H1.
  destruct (addPlanes_line minel0 line P) as [P1 [[]|e]]; simpl in *.
  - by rewrite IH.
  - done.
Qed.

(** X2. [addPlanes] touches the track of an aircraft that does not occur
    in the batch in one way only: the eviction may remove it.  However the
    call ends, such a track is as it was or gone, and it is as it was when
    [time_alive > 0] is false. *)
Theorem addPlanes_other_tracks (lines : list string) (minel0 ta : num)
    (P : gmap string (Plane num)) (k : string) :
  k ∉ batch_ids lines →
  let P' := (addPlanes lines minel0 ta P).1 in
  (P' !! k = P !! k ∨ P' !! k = None) ∧
  (fgt ta (of_int 0) = false → P' !! k = P !! k).
Proof.
  intros Hk. cbv zeta. rewrite addPlanes_fst.
  pose proof (for_each_addPlanes_line_other minel0 lines P k Hk) as Hloop.
  destruct (for_each lines (addPlanes_line minel0) P) as [P1 [[]|e]];
    simpl in *.
  - split.
    + destruct ((addPlanes_rest lines ta P1).1 !! k) as [p|] eqn:Hp;
        [|by right].
      left. apply addPlanes_rest_sub in Hp. congruence.
    + intros Hta. by rewrite addPlanes_rest_keep.
  - split; [by left|done].
Qed.

End TrackInvariants.

(** ** Invariants of the dictionary *)

Section StoreInvariant.
Context {num : Type} {ops : PyNum num}.

(** An invariant [I] of the tracks, indexed by their key, that [addLine]
    keeps however it ends and that a new track has when [Plane(...)]
    returns on a line of which [L] is known. *)
Variable I : string → Plane num → Prop.
Variable L : string → Prop.
Hypothesis I_step : ∀ k l p, I k p → I k (addLine l p).1.
Hypothesis I_new : ∀ line m i c t x9 p,
  L line → split line !! 2%nat = Some i → split line !! 3%nat = Some c →
  field (split line) 9 = Some x9 → fgt x9 m = true →
  field (split line) 1 = Some t →
  addLine (split line) (Plane_attrs m i c t) = (p, Return tt) → I i p.

Lemma addPlanes_line_invariant (minel0 : num) (line : string)
    (P : gmap string (Plane num)) :
  L line → (∀ k p, P !! k = Some p → I k p) →
  ∀ k p, (addPlanes_line minel0 line P).1 !! k = Some p → I k p.
Proof.
  intros HL HP k p. rewrite addPlanes_line_eq. unfold addPlanes_line_run.
  destruct (split line !! 2%nat) as [i|] eqn:Hi; [|by apply HP].
  destruct (field (split line) 9) as [x9|] eqn:H9; [|by apply HP].
  destruct (fgt x9 minel0) eqn:Hhigh; [|by apply HP].
  destruct (P !! i) as [q|] eqn:Hq.
  - simpl. rewrite lookup_insert. case_decide; [|by apply HP].
    intros [= <-]. subst k. apply I_step. by apply HP.
  - destruct (split line !! 3%nat) as [c|] eqn:Hc; [|by apply HP].
    destruct (field (split line) 1) as [t|] eqn:H1; [|by apply HP].
    destruct (addLine (split line) (Plane_attrs minel0 i c t))
      as [q [[]|e]] eqn:Hrun; simpl; [|by apply HP].
    rewrite lookup_insert. case_decide; [|by apply HP].
    intros [= <-]. subst k. by eapply I_new.
Qed.

Lemma for_each_addPlanes_line_invariant (minel0 : num) (lines : list string)
    (P : gmap string (Plane num)) :
  Forall L lines → (∀ k p, P !! k = Some p → I k p) →
  ∀ k p, (for_each lines (addPlanes_line minel0) P).1 !! k = Some p → I k p.
Proof.
  intros HL. revert P. induction HL as [|line lines Hline _ IH]; intros P HP;
    [done|].
  simpl. unfold bind.
  pose proof (addPlanes_line_invariant minel0 line P Hline HP) as H1.
  destruct (addPlanes_line minel0 line P) as [P1 [[]|e]]; simpl in *.
  - by apply IH.
  - done.
Qed.

Lemma addPlanes_invariant (lines : list string) (minel0 ta : num)
    (P : gmap string (Plane num)) :
  Forall L lines → (∀ k p, P !! k = Some p → I k p) →
  ∀ k p, (addPlanes lines minel0 ta P).1 !! k = Some p → I k p.
Proof.
  intros HL HP k p. rewrite addPlanes_fst.
  pose proof (for_each_addPlanes_line_invariant minel0 lines P HL HP) as H1.
  destruct (for_each lines (addPlanes_line minel0) P) as [P1 [[]|e]];
    simpl in *.
  - intros Hk%addPlanes_rest_sub. by apply H1.
  - apply H1.
Qed.

Lemma addPlanes_cycles_invariant (batches : list (list string * num * num))
    (P : gmap string (Plane num)) :
  Forall (λ b, Forall L b.1.1) batches → (∀ k p, P !! k = Some p → I k p) →
  ∀ k p, (addPlanes_cycles batches P).1 !! k = Some p → I k p.
Proof.
  intros HL. revert P. unfold addPlanes_cycles.
  induction HL as [|[[lines m] ta] batches Hb _ IH]; intros P HP; [done|].
  simpl. unfold bind.
  pose proof (addPlanes_invariant lines m ta P Hb HP) as H1.
  destruct (addPlanes lines m ta P) as [P1 [[]|e]]; simpl in *.
  - by apply IH.
  - done.
Qed.

End StoreInvariant.

Section KeyInvariant.
Context {num : Type} {ops : PyNum num}.

(** X3. Every track is stored under its own identifier: from a
    dictionary in which each key is the [id] of its track (the empty one,
    for instance), any sequence of [addPlanes] calls on any lines, however
    each call ends, leaves a dictionary with the same property. *)
Theorem addPlanes_keys_are_ids (batches : list (list string * num * num))
    (P : gmap string (Plane num)) :
  (∀ k p, P !! k = Some p → plane_id p = k) →
  ∀ k p, (addPlanes_cycles batches P).1 !! k = Some p → plane_id p = k.
Proof.
  intros HP.
  apply (addPlanes_cycles_invariant (λ k p, plane_id p = k) (λ _, True)).
  - intros k l p <-. by destruct (addLine_extends l p) as (_&?&_).
  - intros line m i c t x9 p _ _ _ _ _ _ Hrun.
    destruct (addLine_extends (split line) (Plane_attrs m i c t)) as (_&Hid&_).
    by rewrite Hrun in Hid.
  - apply Forall_forall. intros b _. by apply Forall_forall.
  - done.
Qed.

End KeyInvariant.

Section OrderedNumbers.
Context {num : Type} {ops : PyNum num}.

(** What the theorems below need of [<]; IEEE comparison has all of it,
    [nan] included. *)
Hypothesis flt_irrefl : ∀ a, flt a a = false.
Hypothesis flt_asym : ∀ a b, flt a b = true → flt b a = false.
Hypothesis flt_chain : ∀ a b c,
  flt a b = true → flt a c = false → flt b c = false.
Hypothesis sub_self : ∀ a, flt (of_int 600000) (fsub a a) = false.

Lemma addLine_el_maxel (l : list string) (p : Plane num) :
  (el (addLine l p).1 = el p ∧ maxel (addLine l p).1 = maxel p) ∨
  ∃ x9, el (addLine l p).1 = el p ++ [x9] ∧
        maxel (addLine l p).1 = if fgt x9 (maxel p) then x9 else maxel p.
Proof.
  rewrite addLine_eq. unfold addLine_run.
  repeat case_match; simpl; eauto.
Qed.

Lemma maxel_bounds_step (l : list string) (p : Plane num) :
  maxel_bounds p → maxel_bounds (addLine l p).1.
Proof.
  intros Hp. destruct (addLine_el_maxel l p) as [[He Hm]|(x9&He&Hm)];
    unfold maxel_bounds; rewrite He, Hm; [done|].
  intros x [Hx|Hx%list_elem_of_singleton]%elem_of_app.
  - unfold fgt. destruct (flt (maxel p) x9) eqn:Hgt; [|by apply Hp].
    eapply flt_chain; [done|]. by apply Hp.
  - subst x. unfold fgt. by destruct (flt (maxel p) x9) eqn:Hgt.
Qed.

(** X4. [maxel] is an upper bound of the stored elevations, given that
    [<] is irreflexive and that [a < b] and not [a < c] give not [b < c]:
    from a dictionary where no track has a stored elevation above its
    [maxel] (the empty one, for instance), any sequence of [addPlanes]
    calls on any lines, however each call ends, leaves no track with an
    element [x] of [el] such that [maxel < x]. *)
Theorem maxel_is_upper_bound (batches : list (list string * num * num))
    (P : gmap string (Plane num)) :
  (∀ k p, P !! k = Some p → ∀ x, x ∈ el p → flt (maxel p) x = false) →
  ∀ k p, (addPlanes_cycles batches P).1 !! k = Some p →
    ∀ x, x ∈ el p → flt (maxel p) x = false.
Proof.
  intros HP.
  apply (addPlanes_cycles_invariant (λ _ p, maxel_bounds p) (λ _, True)).
  - intros _ l p. apply maxel_bounds_step.
  - intros line m i c t x9 p _ _ _ _ _ _ Hrun.
    pose proof (maxel_bounds_step (split line) (Plane_attrs m i c t)) as Hb.
    rewrite Hrun in Hb. apply Hb. intros x Hx. by apply elem_of_nil in Hx.
  - apply Forall_forall. intros b _. by apply Forall_forall.
  - done.
Qed.

Lemma has_sample_step (l : list string) (p : Plane num) :
  has_sample p → has_sample (addLine l p).1.
Proof.
  intros (?&?&?&?&?&?).
  destruct (addLine_extends l p)
    as (_&_&_&_&_&[? Hlat]&[? Hlon]&[? Halt]&[? Hran]&[? Haz]&[? Hel]).
  unfold has_sample. rewrite Hlat, Hlon, Halt, Hran, Haz, Hel.
  repeat split; by intros [? _]%app_eq_nil.
Qed.

Lemma has_sample_new (line : string) (m : num) (i c : string) (t x9 : num)
    (p : Plane num) :
  length (split line) = 13%nat →
  field (split line) 9 = Some x9 → fgt x9 m = true →
  field (split line) 1 = Some t →
  addLine (split line) (Plane_attrs m i c t) = (p, Return tt) → has_sample p.
Proof.
  intros Hl H9 Hhigh H1 Hrun.
  apply addLine_returns in Hrun as [[Hst _]|[_ Happ]].
  - exfalso. unfold is_stored in Hst. rewrite H9, H1 in Hst.
    rewrite bool_decide_eq_true_2 in Hst by done. simpl in Hst.
    rewrite (flt_asym _ _ Hhigh) in Hst. simpl in Hst.
    unfold gap, corrected_epoch in Hst. simpl in Hst.
    rewrite flt_irrefl in Hst. unfold fgt in Hst.
    by rewrite sub_self in Hst.
  - destruct Happ as (x0&x1&x4&x5&x6&x7&x8&y9&_&_&_&_&_&_&_&_&->).
    repeat split; simpl; discriminate.
Qed.

End OrderedNumbers.

(** ** The plotted trace: [l[-80::5]] and the marker *)

Section Trace.
Context {A : Type}.

Lemma every_fifth_lookup (skip : nat) (l : list A) (j : nat) :
  Gui.every_fifth skip l !! j = l !! (skip + 5 * j)%nat.
Proof.
  revert skip j. induction l as [|x l IH]; intros skip j; [done|].
  destruct skip as [|k]; cbn [Gui.every_fifth].
  - destruct j as [|j]; [done|].
    replace (0 + 5 * S j)%nat with (S (4 + 5 * j)) by lia.
    rewrite !lookup_cons. apply IH.
  - replace (S k + 5 * j)%nat with (S (k + 5 * j)) by lia.
    rewrite lookup_cons. apply IH.
Qed.

Lemma last_lookup_unique (l : list A) (j : nat) (x : A) :
  l !! j = Some x → l !! S j = None → last l = Some x.
Proof.
  intros Hj Hn. rewrite last_lookup.
  apply lookup_lt_Some in Hj as Hlt. apply lookup_ge_None in Hn.
  by replace (pred (length l)) with j by lia.
Qed.

Lemma last80_step5_lookup (l : list A) (j : nat) :
  Gui.last80_step5 l !! j = l !! (length l - 80 + 5 * j)%nat.
Proof.
  unfold Gui.last80_step5. by rewrite every_fifth_lookup, lookup_drop.
Qed.

Lemma last80_step5_length (l : list A) :
  (length (Gui.last80_step5 l) ≤ 16)%nat.
Proof.
  destruct (decide (length (Gui.last80_step5 l) ≤ 16)%nat) as [|Hn]; [done|].
  destruct (lookup_lt_is_Some_2 (Gui.last80_step5 l) 16) as [x Hx]; [lia|].
  rewrite last80_step5_lookup in Hx. apply lookup_lt_Some in Hx. lia.
Qed.

Lemma last80_step5_nil (l : list A) : Gui.last80_step5 l = [] → l = [].
Proof.
  intros Hnil. destruct l as [|x l]; [done|].
  pose proof (last80_step5_lookup (x :: l) 0) as H0.
  rewrite Hnil, Nat.mul_0_r, Nat.add_0_r in H0.
  symmetry in H0. apply lookup_ge_None in H0. simpl in *. lia.
Qed.

(** X5. The trace [l[-80::5]] that [animate] plots: its [j]-th element is
    the element of [l] at [max(len(l) - 80, 0) + 5 j]; it has at most 16
    elements and is empty only for an empty [l]; and once [l] has 80
    elements or more its last element, where the marker is drawn, is
    [l[-5]], four samples behind the newest. *)
Theorem trace_of_last_80 (l : list A) :
  (∀ j, Gui.last80_step5 l !! j = l !! (length l - 80 + 5 * j)%nat) ∧
  (length (Gui.last80_step5 l) ≤ 16)%nat ∧
  (Gui.last80_step5 l = [] ↔ l = []) ∧
  ((80 ≤ length l)%nat →
   last (Gui.last80_step5 l) = l !! (length l - 5)%nat).
Proof.
  split; [apply last80_step5_lookup|]. split; [apply last80_step5_length|].
  split.
  - split; [apply last80_step5_nil|by intros ->].
  - intros Hlen.
    destruct (lookup_lt_is_Some_2 l (length l - 5)) as [x Hx]; [lia|].
    rewrite Hx. apply (last_lookup_unique _ 15).
    + rewrite last80_step5_lookup, <- Hx. f_equal. lia.
    + rewrite last80_step5_lookup. apply lookup_ge_None. lia.
Qed.

End Trace.

Section LiveTracks.
Context {num : Type} {ops : PyNum num}.
Hypothesis flt_irrefl : ∀ a : num, flt a a = false.
Hypothesis flt_asym : ∀ a b : num, flt a b = true → flt b a = false.
Hypothesis sub_self : ∀ a : num, flt (of_int 600000) (fsub a a) = false.

Lemma has_sample_marker (p : Plane num) :
  has_sample p → ∃ a e, Gui.marker p = Return (a, e).
Proof.
  intros (Haz&Hel&_). unfold Gui.marker.
  destruct (last (Gui.last80_step5 (az p))) as [a|] eqn:Ha.
  2:{ by apply last_None, last80_step5_nil in Ha. }
  destruct (last (Gui.last80_step5 (el p))) as [e|] eqn:He.
  2:{ by apply last_None, last80_step5_nil in He. }
  eauto.
Qed.

(** X6. In the live path no track is ever without samples, so the marker
    of [animate] never fails: from a dictionary whose tracks all have a
    sample (the empty one, for instance), any sequence of [addPlanes]
    calls on lines of 13 tokens, as [process_lines] passes them, however
    each call ends, leaves every track with non-empty [az], [el], [lat],
    [lon], [alt] and [ran], and [marker] returns for it. *)
Theorem live_tracks_have_samples (batches : list (list string * num * num))
    (P : gmap string (Plane num)) :
  Forall (λ b, Forall (λ line, length (split line) = 13%nat) b.1.1) batches →
  (∀ k p, P !! k = Some p → has_sample p) →
  ∀ k p, (addPlanes_cycles batches P).1 !! k = Some p →
    has_sample p ∧ ∃ a e, Gui.marker p = Return (a, e).
Proof.
  intros Hb HP k p Hk.
  assert (has_sample p) as Hs; [|split; [done|by apply has_sample_marker]].
  revert k p Hk.
  apply (addPlanes_cycles_invariant (λ _ p, has_sample p)
           (λ line, length (split line) = 13%nat)); [| |done..].
  - intros _ l q. apply has_sample_step.
  - intros line m i c t x9 q Hl _ _ H9 Hhigh H1 Hrun.
    by eapply (has_sample_new flt_irrefl flt_asym sub_self).
Qed.

End LiveTracks.

Section EmptyTrack.
Context {num : Type} {ops : PyNum num}.

(** X7. A line of more than 13 tokens, which [loadPlanesFile] lets
    through, makes [addPlanes] create a track without any sample for an
    aircraft not yet in the dictionary (its elevation above the cutoff,
    its epoch readable): the track [__init__] has set up, its eight
    sequences empty, since [addLine] stores nothing; for an aircraft
    already in the dictionary the line changes nothing. *)
Theorem long_line_empty_track (minel0 : num) (line i c : string) (x9 t : num)
    (P : gmap string (Plane num)) :
  (13 < length (split line))%nat →
  split line !! 2%nat = Some i → split line !! 3%nat = Some c →
  field (split line) 9 = Some x9 → fgt x9 minel0 = true →
  field (split line) 1 = Some t →
  (P !! i = None →
   addPlanes_line minel0 line P
     = (<[i := Plane_attrs minel0 i c t]> P, Return tt) ∧
   sample_lengths (Plane_attrs minel0 i c t) = replicate 8 0%nat) ∧
  (is_Some (P !! i) → addPlanes_line minel0 line P = (P, Return tt)).
Proof.
  intros Hl Hi Hc H9 Hhigh H1. rewrite addPlanes_line_eq.
  unfold addPlanes_line_run. rewrite Hi, H9, Hhigh. split.
  - intros ->. rewrite Hc, H1, addLine_short by lia. done.
  - intros [p Hp]. rewrite Hp, addLine_short by lia. simpl.
    by rewrite insert_id.
Qed.

End EmptyTrack.

(** ** The replay reader, line by line *)

Section ReplayLines.

Lemma drop_string_nil (n : nat) : drop_string n "" = "".
Proof. by destruct n. Qed.

Lemma drop_string_add (n m : nat) (s : string) :
  drop_string m (drop_string n s) = drop_string (n + m) s.
Proof.
  revert s. induction n as [|n IH]; intros s; [done|].
  destruct s as [|c s]; simpl; [apply drop_string_nil|apply IH].
Qed.

Lemma string_app_cons (x : ascii) (a b : string) :
  String x a +:+ b = String x (a +:+ b).
Proof. reflexivity. Qed.

Lemma string_app_assoc (a b c : string) : (a +:+ b) +:+ c = a +:+ (b +:+ c).
Proof.
  induction a as [|x a IH]; [done|]. by rewrite !string_app_cons, IH.
Qed.

Lemma string_app_length (a b : string) :
  String.length (a +:+ b) = (String.length a + String.length b)%nat.
Proof.
  induction a as [|x a IH]; [done|]. rewrite string_app_cons. simpl.
  by rewrite IH.
Qed.

Lemma string_app_not_nil (a : string) (c : ascii) : a +:+ String c "" ≠ "".
Proof. by destruct a. Qed.

(** The first line of a non-empty rest of file is what [readline] reads. *)
Lemma lines_from_cons (cur s : string) :
  s ≠ "" →
  lines_from cur s =
    (cur +:+ line_prefix s)
      :: lines_from "" (drop_string (String.length (line_prefix s)) s).
Proof.
  revert cur. induction s as [|c s IH]; intros cur Hs; [done|].
  cbn [lines_from line_prefix]. destruct (Ascii.eqb c "010") eqn:Hc; [done|].
  destruct s as [|c' s'].
  - simpl. rewrite decide_False by apply string_app_not_nil. done.
  - rewrite IH by done. cbn [String.length drop_string].
    by rewrite string_app_assoc.
Qed.

Lemma readline_eq (f : File) :
  readline f =
    (mkFile (content f)
       (fpos f + String.length
                   (line_prefix (drop_string (fpos f) (content f)))),
     line_prefix (drop_string (fpos f) (content f))).
Proof. done. Qed.

Lemma file_lines_empty (f : File) :
  line_prefix (drop_string (fpos f) (content f)) = "" → file_lines f = [].
Proof. intros Hs%line_prefix_empty. unfold file_lines. by rewrite Hs. Qed.

Lemma file_lines_cons (f : File) :
  line_prefix (drop_string (fpos f) (content f)) ≠ "" →
  file_lines f =
    (readline f).2 :: file_lines (readline f).1.
Proof.
  intros Hs. unfold file_lines at 1. rewrite lines_from_cons.
  - unfold file_lines. simpl. by rewrite drop_string_add.
  - intros Hnil. by rewrite Hnil in Hs.
Qed.

(** The loop of [dataFakeRead] in terms of the lines of the file. *)
Lemma dataFakeRead_loop_lines (k : nat) (f : File) (plines tlines : list string) :
  let ls := take (S k) (file_lines f) in
  let o := (fpos f + sum_list (String.length <$> ls))%nat in
  dataFakeRead_loop k f plines tlines =
    (mkFile (content f) o,
     (plines ++ filter (λ line, length (split line) = 13%nat) ls,
      tlines ++ filter (λ line, length (split line) = 6%nat) ls, o)).
Proof.
  revert f plines tlines. induction k as [|k IH]; intros f plines tlines;
    cbn [dataFakeRead_loop]; rewrite readline_eq;
    (destruct (decide (line_prefix (drop_string (fpos f) (content f)) = ""))
      as [Hs|Hs];
     [ rewrite (file_lines_empty f Hs), Hs; cbn;
       by rewrite !app_nil_r, Nat.add_0_r
     | rewrite (file_lines_cons f Hs), readline_eq; cbn [fst snd];
       set (line := line_prefix (drop_string (fpos f) (content f))) in *;
       rewrite firstn_cons, fmap_cons; cbn [sum_list sum_list_with];
       rewrite !filter_cons ]).
  - rewrite take_0. cbn. rewrite Nat.add_0_r. unfold tell. simpl.
    repeat case_decide; try lia; by rewrite ?app_nil_r.
  - rewrite IH. cbn [fpos content]. cbv zeta. rewrite Nat.add_assoc.
    repeat case_decide; try lia; by rewrite <- ?app_assoc.
Qed.

(** X8. What one invocation of [dataFakeRead] returns, by the lines of
    the file from the offset: of the next [N_lines + 1] lines (fewer at
    the end of the file), the position group is those of 13 tokens and the
    telescope group those of 6 tokens, in file order, and the offset
    returned is the start offset plus the lengths of these lines, where
    the file object is left. *)
Theorem dataFakeRead_lines (f : File) (pos N : nat) :
  let ls := take (S N) (file_lines (seek pos f)) in
  let o := (pos + sum_list (String.length <$> ls))%nat in
  dataFakeRead f (Some pos) N =
    (mkFile (content f) o,
     (filter (λ line, length (split line) = 13%nat) ls,
      filter (λ line, length (split line) = 6%nat) ls, o)).
Proof. cbv zeta. unfold dataFakeRead. by rewrite dataFakeRead_loop_lines. Qed.

(** An invocation that meets the end of the file has read every line
    from its start offset. *)
Lemma dataFakeRead_eof_lines (k : nat) (f : File) :
  dataFakeRead_eof k f = true → (length (file_lines f) ≤ k)%nat.
Proof.
  revert f. induction k as [|k IH]; intros f; cbn [dataFakeRead_eof];
    rewrite readline_eq; case_decide as Hs; try done.
  - intros _. rewrite (file_lines_empty f Hs). simpl. lia.
  - intros _. rewrite (file_lines_empty f Hs). simpl. lia.
  - intros Heof%IH. rewrite (file_lines_cons f Hs), readline_eq. simpl.
    simpl in Heof. lia.
Qed.

(** C9. End of stream in [dataFakeRead], as the code has it: an
    invocation that starts within the file and reaches its end returns the
    lines it has read up to there, which are all the lines of the file
    from the start offset (those of 13 tokens as position lines, those of
    6 tokens as telescope lines, in file order), with the offset of the
    end of the file; the batch is empty when the invocation started at
    the end; and an invocation from the returned offset returns an empty
    batch and the same offset. *)
Theorem replay_end_of_stream (f : File) (pos N : nat) :
  (pos ≤ String.length (content f))%nat →
  dataFakeRead_eof N (seek pos f) = true →
  dataFakeRead f (Some pos) N =
    (mkFile (content f) (String.length (content f)),
     (filter (λ line, length (split line) = 13%nat) (file_lines (seek pos f)),
      filter (λ line, length (split line) = 6%nat) (file_lines (seek pos f)),
      String.length (content f))) ∧
  (pos = String.length (content f) →
   dataFakeRead f (Some pos) N =
     (mkFile (content f) (String.length (content f)),
      ([], [], String.length (content f)))) ∧
  ∀ N',
    dataFakeRead (mkFile (content f) (String.length (content f)))
      (Some (String.length (content f))) N' =
      (mkFile (content f) (String.length (content f)),
       ([], [], String.length (content f))).
Proof.
  intros Hpos Heof. split; [|split].
  - destruct (dataFakeRead_loop_eof N (seek pos f) [] [] Hpos Heof)
      as (f1&pl&tl&Hrun&_).
    unfold dataFakeRead. rewrite dataFakeRead_loop_lines in Hrun |- *.
    cbv zeta in Hrun |- *. rewrite take_ge in Hrun |- *
      by (apply dataFakeRead_eof_lines in Heof; lia).
    injection Hrun as _ _ _ Ho. simpl in Ho |- *. by rewrite Ho.
  - intros ->. apply (dataFakeRead_at_end f N).
  - intros N'.
    apply (dataFakeRead_at_end (mkFile (content f) (String.length (content f))) N').
Qed.

Lemma readline_eof_again (f f1 : File) :
  readline f = (f1, "") → readline f1 = (f1, "").
Proof.
  rewrite readline_eq. intros [= <- Hs]. rewrite readline_eq. simpl.
  rewrite Hs. simpl. rewrite !Nat.add_0_r, Hs. simpl.
  by rewrite Nat.add_0_r.
Qed.

Lemma dataFakeRead_loop_at_eof (k : nat) (f : File) (pl tl : list string) :
  readline f = (f, "") → dataFakeRead_loop k f pl tl = (f, (pl, tl, tell f)).
Proof. intros Hr. destruct k; cbn [dataFakeRead_loop]; by rewrite Hr. Qed.

(** Reading [k1 + 1] lines and then [k2 + 1] more is reading
    [k1 + k2 + 2]. *)
Lemma dataFakeRead_loop_split (k1 k2 : nat) (f : File) (pl tl : list string) :
  dataFakeRead_loop (k1 + S k2) f pl tl =
    let '(f1, (p1, t1, _)) := dataFakeRead_loop k1 f pl tl in
    dataFakeRead_loop k2 f1 p1 t1.
Proof.
  revert f pl tl. induction k1 as [|k1 IH]; intros f pl tl;
    cbn [Nat.add dataFakeRead_loop];
    destruct (readline f) as [f1 line] eqn:Hr;
    (case_decide as Hline;
     [subst line; rewrite dataFakeRead_loop_at_eof;
        [done|by eapply readline_eof_again]|]).
  - done.
  - apply IH.
Qed.

Lemma dataFakeRead_loop_acc (k : nat) (f : File) (pl tl : list string) :
  dataFakeRead_loop k f pl tl =
    let '(f1, (p, t, o)) := dataFakeRead_loop k f [] [] in
    (f1, (pl ++ p, tl ++ t, o)).
Proof. rewrite !dataFakeRead_loop_lines. done. Qed.

Lemma dataFakeRead_loop_tell (k : nat) (f : File) (pl tl : list string) :
  let '(f1, (_, _, o)) := dataFakeRead_loop k f pl tl in
  seek o f1 = f1.
Proof. by rewrite dataFakeRead_loop_lines. Qed.

(** X9. Replaying in chunks loses and repeats nothing: an invocation with
    [N1], followed by one with [N2] from the offset the first returned,
    yields together exactly what a single invocation with
    [N1 + N2 + 1] yields from the first offset: the same position lines,
    the same telescope lines, in order, and the same final offset. *)
Theorem dataFakeRead_chunks (f : File) (pos N1 N2 : nat) :
  let '(f1, (p1, t1, o1)) := dataFakeRead f (Some pos) N1 in
  let '(f2, (p2, t2, o2)) := dataFakeRead f1 (Some o1) N2 in
  dataFakeRead f (Some pos) (N1 + N2 + 1) = (f2, (p1 ++ p2, t1 ++ t2, o2)).
Proof.
  unfold dataFakeRead.
  replace (N1 + N2 + 1)%nat with (N1 + S N2)%nat by lia.
  rewrite dataFakeRead_loop_split.
  pose proof (dataFakeRead_loop_tell N1 (seek pos f) [] []) as Htell.
  destruct (dataFakeRead_loop N1 (seek pos f) [] []) as [f1 [[p1 t1] o1]].
  rewrite Htell, (dataFakeRead_loop_acc N2 f1 p1 t1).
  by destruct (dataFakeRead_loop N2 f1 [] []) as [f2 [[p2 t2] o2]].
Qed.

Lemma sum_list_cons (x : nat) (l : list nat) :
  sum_list (x :: l) = (x + sum_list l)%nat.
Proof. reflexivity. Qed.

Lemma sum_list_lengths_lines_from (n : nat) (cur s : string) :
  (sum_list (String.length <$> take n (lines_from cur s))
     ≤ String.length cur + String.length s)%nat.
Proof.
  revert n cur. induction s as [|c s IH]; intros n cur; cbn [lines_from].
  - case_decide; destruct n; rewrite ?take_0, ?firstn_cons, ?take_nil;
      simpl; lia.
  - assert (String.length (cur +:+ String c "") = S (String.length cur)) as Hl.
    { rewrite string_app_length. simpl. lia. }
    destruct (Ascii.eqb c "010").
    + destruct n as [|n];
        rewrite ?take_0, ?firstn_cons, ?fmap_cons, ?sum_list_cons;
        cbn [sum_list sum_list_with fmap list_fmap String.length]; [lia|].
      rewrite Hl. specialize (IH n ""). cbn [String.length] in IH. lia.
    + specialize (IH n (cur +:+ String c "")). rewrite Hl in IH.
      cbn [String.length]. lia.
Qed.

(** X10. Offsets of [dataFakeRead]: the file's bytes are never changed;
    started within the file, the offset returned lies between the start
    offset and the end of the file, and it is beyond the start offset
    unless that was the end (every invocation makes progress); with
    [init_pos=None] the invocation starts at the end and returns an empty
    batch with the end offset. *)
Theorem dataFakeRead_offsets (f : File) (pos N : nat) :
  (pos ≤ String.length (content f))%nat →
  (∃ f1 plines tlines o,
     dataFakeRead f (Some pos) N = (f1, (plines, tlines, o)) ∧
     content f1 = content f ∧ fpos f1 = o ∧
     (pos ≤ o ≤ String.length (content f))%nat ∧
     ((pos < String.length (content f))%nat → (pos < o)%nat)) ∧
  dataFakeRead f None N =
    (seek (String.length (content f)) f,
     ([], [], String.length (content f))).
Proof.
  intros Hpos. split; [|apply (dataFakeRead_at_end f N)].
  unfold dataFakeRead. rewrite dataFakeRead_loop_lines. cbv zeta.
  eexists _, _, _, _. split; [done|]. simpl. split; [done|]. split; [done|].
  pose proof (sum_list_lengths_lines_from (S N) ""
                (drop_string pos (content f))) as Hsum.
  rewrite drop_string_length in Hsum. unfold file_lines. simpl in *.
  split; [lia|]. intros Hlt.
  destruct (drop_string pos (content f)) as [|c s] eqn:Hs.
  { apply (f_equal String.length) in Hs. rewrite drop_string_length in Hs.
    simpl in Hs. lia. }
  rewrite (lines_from_cons "" (String c s)) by done. simpl.
  destruct (Ascii.eqb c "010"); simpl; lia.
Qed.

End ReplayLines.

(** ** The supervisor's cycle *)

Section SupervisorCycle.
Context {num : Type} {ops : PyNum num}.
Variable L2P_HOST : string * Z.

(** What one payload does to the supervisor. *)
Lemma process_line_effects (dump2file : bool) (acc : list string * list string)
    (line : string) (r : L2pRadar num) :
  let two := bool_decide (length (split line) = 2%nat) in
  ∃ r' acc', process_line L2P_HOST dump2file acc line r = (r', Return acc') ∧
    P r' = P r ∧
    outFile r' = outFile r ++
      (if dump2file then [line +:+ " " +:+ String "010"%char ""] else []) ∧
    slept r' = slept r ++ (if two then [2%Q] else []) ∧
    length (queues r') = (length (queues r) + if two then 1 else 0)%nat ∧
    length (procs r') = (length (procs r) + if two then 1 else 0)%nat.
Proof.
  cbv zeta. rewrite process_line_run. cbv zeta.
  set (r0 := if dump2file then _ else r).
  assert (P r0 = P r ∧ slept r0 = slept r ∧ queues r0 = queues r ∧
          procs r0 = procs r ∧
          outFile r0 = outFile r ++
            (if dump2file then [line +:+ " " +:+ String "010"%char ""] else []))
    as (E1&E2&E3&E4&E5).
  { subst r0. destruct dump2file; simpl; by rewrite ?app_nil_r. }
  destruct (decide (length (split line) = 13%nat)) as [H13|H13].
  { rewrite bool_decide_eq_false_2 by lia. eexists _, _. split; [done|].
    by rewrite E1, E2, E3, E4, E5, !app_nil_r, !Nat.add_0_r. }
  destruct (decide (length (split line) = 6%nat)) as [H6|H6].
  { rewrite bool_decide_eq_false_2 by lia. eexists _, _. split; [done|].
    by rewrite E1, E2, E3, E4, E5, !app_nil_r, !Nat.add_0_r. }
  destruct (decide (length (split line) = 2%nat)) as [H2|H2].
  - rewrite bool_decide_eq_true_2 by done.
    destruct (reconnect_run L2P_HOST (sleep 2 r0).1)
      as (r'&Hrun&HP&Hout&Hs&_&_&Hqs&Hps).
    rewrite Hrun. eexists _, _. split; [done|]. simpl in *.
    rewrite HP, Hout, Hs, Hqs, Hps, !length_app, !length_alter.
    by rewrite E1, E2, E3, E4, E5.
  - rewrite bool_decide_eq_false_2 by done. eexists _, _. split; [done|].
    by rewrite E1, E2, E3, E4, E5, !app_nil_r, !Nat.add_0_r.
Qed.

Lemma process_lines_from_effects (dump2file : bool) (data_lines : list string)
    (acc : list string * list string) (r : L2pRadar num) :
  let n := length (filter (λ line, length (split line) = 2%nat) data_lines) in
  ∃ r' acc', process_lines_from L2P_HOST dump2file acc data_lines r
               = (r', Return acc') ∧
    P r' = P r ∧
    outFile r' = outFile r ++
      (if dump2file
       then (λ line, line +:+ " " +:+ String "010"%char "") <$> data_lines
       else []) ∧
    slept r' = slept r ++ replicate n 2%Q ∧
    length (queues r') = (length (queues r) + n)%nat ∧
    length (procs r') = (length (procs r) + n)%nat.
Proof.
  cbv zeta. revert acc r. induction data_lines as [|line rest IH]; intros acc r.
  - exists r, acc. split; [done|]. simpl.
    rewrite !Nat.add_0_r. destruct dump2file; by rewrite !app_nil_r.
  - cbn [process_lines_from]. unfold bind.
    destruct (process_line_effects dump2file acc line r)
      as (r1&acc1&->&HP1&Ho1&Hs1&Hq1&Hp1).
    destruct (IH acc1 r1) as (r2&acc2&->&HP2&Ho2&Hs2&Hq2&Hp2).
    exists r2, acc2. split; [done|].
    rewrite HP2, Ho2, Hs2, Hq2, Hp2, HP1, Ho1, Hs1, Hq1, Hp1.
    rewrite filter_cons. 
    destruct (decide (length (split line) = 2%nat)) as [H2|H2].
    + rewrite bool_decide_eq_true_2 by done. simpl.
      rewrite <- !app_assoc. repeat split; try lia; by destruct dump2file.
    + rewrite bool_decide_eq_false_2 by done. simpl.
      rewrite !app_nil_r, <- !app_assoc.
      repeat split; try lia; by destruct dump2file.
Qed.

(** X11. What [process_lines] does besides classifying: it never touches
    the planes dictionary; with dumping on, every payload is written to
    the dump file, in order, followed by a space and a newline, whatever
    its token count; and each payload of two tokens costs a sleep of 2 s
    and one reconnection, with no back-off: [n] of them in one drain
    create [n] queues and [n] workers. *)
Theorem process_lines_effects (data_lines : list string) (dump2file : bool)
    (r : L2pRadar num) :
  let n := length (filter (λ line, length (split line) = 2%nat) data_lines) in
  ∃ r' groups, process_lines L2P_HOST data_lines dump2file r
                 = (r', Return groups) ∧
    P r' = P r ∧
    outFile r' = outFile r ++
      (if dump2file
       then (λ line, line +:+ " " +:+ String "010"%char "") <$> data_lines
       else []) ∧
    slept r' = slept r ++ replicate n 2%Q ∧
    length (queues r') = (length (queues r) + n)%nat ∧
    length (procs r') = (length (procs r) + n)%nat.
Proof. apply process_lines_from_effects. Qed.

End SupervisorCycle.

Section Worker.

Lemma receive_loop_queued (script : list exchange) :
  queued (receive_loop script).1 =
    received_before_failure script ++
    (if fails script then ["CONN ERROR"] else []) ∧
  (receive_loop script).2 = (if fails script then Terminated else Looping) ∧
  sent (receive_loop script).1 =
    replicate (length (received_before_failure script) +
               if fails script then 1 else 0) handshake.
Proof.
  induction script as [|[| |data] rest (IH1&IH2&IH3)]; [done..|].
  cbn [receive_loop received_before_failure fails].
  destruct (receive_loop rest) as [acts st]. simpl in *.
  by rewrite IH1, IH2, IH3.
Qed.

(** The loop itself never connects. *)
Lemma receive_loop_connected (script : list exchange) :
  connected (receive_loop script).1 = [].
Proof.
  induction script as [|[| |data] rest IH]; [done..|].
  cbn [receive_loop]. by destruct (receive_loop rest) as [acts st].
Qed.

(** X12. The transport worker on any script of exchanges: it connects
    once, to the host given, before anything else; what it sends is the handshake ["reader\0"],
    once per exchange up to and including the first failing one; it puts
    on the queue the payloads received before the first failure, in order,
    followed by ["CONN ERROR"] exactly when an exchange fails; and it has
    returned exactly when an exchange fails, otherwise it is still
    polling. *)
Theorem receive_proc_script (host : string * Z) (script : list exchange) :
  let acts := (receive_proc host script).1 in
  let rounds := (length (received_before_failure script) +
                 if fails script then 1 else 0)%nat in
  head acts = Some (Connect host) ∧
  connected acts = [host] ∧
  sent acts = replicate rounds handshake ∧
  queued acts =
    received_before_failure script ++
    (if fails script then ["CONN ERROR"] else []) ∧
  (receive_proc host script).2 =
    (if fails script then Terminated else Looping).
Proof.
  cbv zeta. unfold receive_proc.
  destruct (receive_loop_queued script) as (H1&H2&H3).
  pose proof (receive_loop_connected script) as H4.
  destruct (receive_loop script) as [acts st]. simpl in *.
  by rewrite H4.
Qed.

End Worker.

(** ** dump_queue and updateData *)

Section DisplayCycle.
Context {num : Type} {ops : PyNum num}.
Variable L2P_HOST : string * Z.

Lemma dump_queue_from_all (items data_lines : list string) :
  items ≠ [] →
  Gui.dump_queue_from items data_lines = Some ([], data_lines ++ items).
Proof.
  revert data_lines. induction items as [|x rest IH]; intros dl Hne; [done|].
  cbn [Gui.dump_queue_from]. destruct rest as [|y rest]; [done|].
  cbn [length Nat.eqb]. rewrite IH by done. by rewrite <- app_assoc.
Qed.

Lemma dump_queue_nonempty (q : Queue) :
  q_items q ≠ [] →
  Gui.dump_queue q = Some (mkQueue (q_closed q) [], q_items q).
Proof.
  intros Hne. unfold Gui.dump_queue.
  by rewrite dump_queue_from_all.
Qed.

(** X13. [dump_queue] on a queue that nothing is put to meanwhile: with
    items waiting it returns all of them, oldest first, and leaves the
    queue empty, so it never returns an empty list; with none waiting it
    blocks. *)
Theorem dump_queue_drains (q : Queue) :
  (q_items q ≠ [] →
   Gui.dump_queue q = Some (mkQueue (q_closed q) [], q_items q)) ∧
  (q_items q = [] → Gui.dump_queue q = None) ∧
  (∀ q' data_lines, Gui.dump_queue q = Some (q', data_lines) →
     data_lines ≠ []).
Proof.
  unfold Gui.dump_queue. destruct (q_items q) as [|x rest] eqn:Hq.
  - by repeat split.
  - rewrite dump_queue_from_all by done. repeat split; try done.
    by intros q' dl [= <- <-].
Qed.

Lemma addPlanes_nil (minel0 ta : num) (P : gmap string (Plane num)) :
  addPlanes [] minel0 ta P = (P, Return tt).
Proof.
  rewrite addPlanes_eq. simpl. unfold addPlanes_rest. simpl.
  by rewrite orb_true_r.
Qed.

Lemma update_telLines_run (tl : list string) (d : Gui.Display num) :
  Gui.update_telLines tl d =
    (Gui.mkDisplay (Gui.radar d) (Gui.replay d) (Gui.dump2file d)
       (Gui.datafile d) (Gui.pos d) (default (Gui.telLines d) (last tl))
       (Gui.anim d), Return tt).
Proof.
  unfold Gui.update_telLines. destruct (last tl); [done|]. by destruct d.
Qed.

(** X14. A live cycle without position lines: when the payloads drained
    hold no line of 13 tokens (telescope lines, fragments, or the
    ["CONN ERROR"] of a dead worker), [updateData] returns with the planes
    dictionary exactly as it was (nothing is added and nothing is evicted,
    however old the tracks are), [telLines] is the last payload of 6
    tokens if there is one and is unchanged otherwise, and one
    reconnection was made per payload of two tokens. *)
Theorem updateData_live_idle (d : Gui.Display num) (q : Queue) :
  Gui.replay d = false →
  queues (Gui.radar d) !! planeQueue (Gui.radar d) = Some q →
  q_items q ≠ [] →
  Forall (λ line, length (split line) ≠ 13%nat) (q_items q) →
  ∃ d', Gui.updateData L2P_HOST d = Some (d', Return tt) ∧
    P (Gui.radar d') = P (Gui.radar d) ∧
    Gui.telLines d' =
      default (Gui.telLines d)
        (last (filter (λ line, length (split line) = 6%nat) (q_items q))) ∧
    length (procs (Gui.radar d')) =
      (length (procs (Gui.radar d)) +
       length (filter (λ line, length (split line) = 2%nat) (q_items q)))%nat ∧
    Gui.pos d' = Gui.pos d ∧ Gui.anim d' = Gui.anim d.
Proof.
  intros Hlive Hq Hne Hno13. unfold Gui.updateData.
  rewrite Hlive, Hq. simpl.
  rewrite (dump_queue_nonempty q Hne).
  set (r1 := mkRadar _ _ _ _ _ _ _).
  destruct (process_lines_from_run L2P_HOST (Gui.dump2file d) (q_items q)
              ([], []) r1) as [r2 Hrun].
  destruct (process_lines_from_effects L2P_HOST (Gui.dump2file d) (q_items q)
              ([], []) r1) as (r2'&g&Hrun'&HP&_&_&_&Hprocs).
  rewrite Hrun in Hrun'. injection Hrun' as <- <-.
  assert (filter (λ line, length (split line) = 13%nat) (q_items q) = [])
    as Hnil.
  { clear -Hno13. induction Hno13 as [|x l Hx _ IH]; [done|].
    by rewrite filter_cons_False. }
  rewrite Hnil in Hrun.
  unfold bind, Gui.on_radar, process_lines. cbn [Gui.radar Gui.dump2file].
  rewrite Hrun. cbn [fst snd]. unfold Gui.update_P, Gui.on_radar.
  cbn [Gui.radar]. rewrite addPlanes_nil, update_telLines_run.
  eexists. split; [done|]. cbn. rewrite HP, Hprocs. subst r1. by cbn.
Qed.

(** X15. A replay cycle: the offset and the file object are updated
    before the lines are applied.  When the chunk read holds no line of
    13 tokens, at the end of the file or before it, [updateData] stops
    the animation and leaves the planes dictionary as it was; when
    [addPlanes] raises on the chunk, the exception leaves [updateData]
    with the offset already advanced (the chunk will not be read again),
    the animation still running and [telLines] not updated. *)
Theorem updateData_replay (d : Gui.Display num) (f' : File)
    (planeLines tl : list string) (pos' : nat) :
  Gui.replay d = true →
  dataFakeRead (Gui.datafile d) (Some (Gui.pos d)) 140
    = (f', (planeLines, tl, pos')) →
  (planeLines = [] →
   Gui.updateData L2P_HOST d =
     Some (Gui.mkDisplay (Gui.radar d) true (Gui.dump2file d) f' pos'
             (default (Gui.telLines d) (last tl)) false, Return tt)) ∧
  (∀ P' e,
     addPlanes planeLines (of_int 0) (of_int 15) (P (Gui.radar d))
       = (P', Raise e) →
     ∃ d', Gui.updateData L2P_HOST d = Some (d', Raise e) ∧
       P (Gui.radar d') = P' ∧ Gui.pos d' = pos' ∧ Gui.datafile d' = f' ∧
       Gui.anim d' = Gui.anim d ∧ Gui.telLines d' = Gui.telLines d).
Proof.
  intros Hrep Hread. unfold Gui.updateData. rewrite Hrep, Hread. simpl.
  split.
  - intros ->. unfold bind, Gui.update_P, Gui.on_radar. cbn [Gui.radar].
    rewrite addPlanes_nil. cbn.
    rewrite decide_True by done. unfold modify. rewrite update_telLines_run.
    cbn. by destruct d as [[] ? ? ? ? ? ?].
  - intros P' e Hraise. unfold bind, Gui.update_P, Gui.on_radar.
    cbn [Gui.radar]. rewrite Hraise. eexists. split; [done|]. by cbn.
Qed.

End DisplayCycle.

(** ** loadPlanesFile *)

Section LoadingTheory.
Context {num : Type} {ops : PyNum num}.

(** Without eviction, a batch of one line is the loop body. *)
Lemma addPlanes_single (minel0 ta : num) (line : string)
    (P : gmap string (Plane num)) :
  fgt ta (of_int 0) = false →
  addPlanes [line] minel0 ta P = addPlanes_line minel0 line P.
Proof.
  intros Hta. rewrite addPlanes_eq. simpl. unfold bind.
  destruct (addPlanes_line minel0 line P) as [P1 [[]|e]]; [|done].
  unfold addPlanes_rest. rewrite Hta. cbn. by case_match.
Qed.

Lemma addPlanes_no_eviction (lines : list string) (minel0 ta : num)
    (P : gmap string (Plane num)) :
  fgt ta (of_int 0) = false →
  addPlanes lines minel0 ta P = for_each lines (addPlanes_line minel0) P.
Proof.
  intros Hta. rewrite addPlanes_eq.
  destruct (for_each lines (addPlanes_line minel0) P) as [P1 [[]|e]]; [|done].
  unfold addPlanes_rest. rewrite Hta. by case_match.
Qed.

Lemma for_each_filter {S A} (Q : A → Prop) `{!∀ x, Decision (Q x)}
    (body body' : A → M S unit) (xs : list A) (s : S) :
  (∀ x s, body' x s = if decide (Q x) then body x s else (s, Return tt)) →
  for_each xs body' s = for_each (filter Q xs) body s.
Proof.
  intros Hbody. revert s. induction xs as [|x xs IH]; intros s; [done|].
  rewrite filter_cons. cbn [for_each]. unfold bind at 1. rewrite Hbody.
  destruct (decide (Q x)).
  - cbn [for_each]. unfold bind.
    destruct (body x s) as [s1 [[]|e]]; [apply IH|done].
  - apply IH.
Qed.

(** X16. [loadPlanesFile] is one batch without eviction: given that
    [-1 > 0] is false, it builds what [addPlanes] builds from the empty
    dictionary on the lines of the file that have 13 tokens or more, with
    the cutoff [-5] and [time_alive = -1], and ends as it ends; shorter
    lines are skipped, and its own [minel] argument has no effect. *)
Theorem loadPlanesFile_is_a_batch (f : File) (minel0 : num) :
  fgt (of_int (-1)) (of_int 0) = false →
  loadPlanesFile f minel0 =
    addPlanes
      (filter (λ line, (13 ≤ length (split line))%nat) (file_lines f))
      (of_int (-5)) (of_int (-1)) ∅.
Proof.
  intros Hta. unfold loadPlanesFile. rewrite addPlanes_no_eviction by done.
  apply for_each_filter. intros line P. unfold loadPlanesFile_line.
  destruct (Nat.ltb_spec (length (split line)) 13).
  - by rewrite decide_False by lia.
  - rewrite decide_True by lia. by apply addPlanes_single.
Qed.

End LoadingTheory.

(** ** [split] *)

Section SplitTheory.

Lemma string_app_nil_r (s : string) : s +:+ "" = s.
Proof. induction s as [|c s IH]; [done|]. by rewrite string_app_cons, IH. Qed.

Lemma has_space_app (a b : string) :
  has_space (a +:+ b) = has_space a || has_space b.
Proof.
  induction a as [|c a IH]; [done|]. rewrite string_app_cons. simpl.
  by rewrite IH, orb_assoc.
Qed.

Lemma split_go_space (tok : string) (c : ascii) (s : string) :
  is_space c = true →
  split_go tok (String c s) =
    (if decide (tok = "") then [] else [tok]) ++ split_go "" s.
Proof. intros Hc. cbn [split_go]. rewrite Hc. by case_decide. Qed.

Lemma split_go_token (tok t s : string) :
  has_space t = false → split_go tok (t +:+ s) = split_go (tok +:+ t) s.
Proof.
  revert tok. induction t as [|c t IH]; intros tok Ht.
  - by rewrite string_app_nil_r.
  - simpl in Ht. apply orb_false_iff in Ht as [Hc Ht].
    rewrite string_app_cons. cbn [split_go]. rewrite Hc, IH by done.
    by rewrite string_app_assoc.
Qed.

Lemma split_go_tokens (tok s : string) :
  has_space tok = false →
  Forall (λ t, t ≠ "" ∧ has_space t = false) (split_go tok s).
Proof.
  revert tok. induction s as [|c s IH]; intros tok Htok; cbn [split_go].
  - case_decide; by repeat constructor.
  - destruct (is_space c) eqn:Hc.
    + case_decide; [by apply IH|]. constructor; [done|by apply IH].
    + apply IH. rewrite has_space_app. simpl. by rewrite Htok, Hc.
Qed.

Lemma split_go_trailing (tok s w : string) :
  all_space w = true → split_go tok (s +:+ w) = split_go tok s.
Proof.
  intros Hw. revert tok. induction s as [|c s IH]; intros tok.
  - change ("" +:+ w) with w. revert tok.
    induction w as [|c w IHw]; intros tok; [done|].
    simpl in Hw. apply andb_true_iff in Hw as [Hc Hw].
    rewrite split_go_space, (IHw Hw) by done. simpl. by case_decide.
  - rewrite string_app_cons. cbn [split_go].
    destruct (is_space c); [case_decide|]; by rewrite IH.
Qed.

(** X17. The tokens of [split]: each is non-empty and free of
    whitespace, and whitespace at the end of the line does not change
    them; so the newline that replayed lines carry does not change the
    token count the lines are classified by. *)
Theorem split_tokens (line w : string) :
  all_space w = true →
  Forall (λ t, t ≠ "" ∧ has_space t = false) (split line) ∧
  split (line +:+ w) = split line ∧
  length (split (line +:+ String "010"%char "")) = length (split line).
Proof.
  intros Hw. split; [by apply split_go_tokens|].
  split; [by apply split_go_trailing|].
  unfold split. by rewrite split_go_trailing.
Qed.

(** X18. [split] undoes [" ".join]: tokens that are non-empty and free
    of whitespace, joined by single spaces, split into the same tokens. *)
Theorem split_unwords (toks : list string) :
  Forall (λ t, t ≠ "" ∧ has_space t = false) toks →
  split (unwords toks) = toks.
Proof.
  unfold split. induction 1 as [|t toks [Hne Ht] Htoks IH]; [done|].
  destruct toks as [|t2 rest].
  - cbn [unwords]. rewrite <- (string_app_nil_r t) at 1.
    rewrite split_go_token by done. change ("" +:+ t) with t.
    cbn [split_go]. by rewrite decide_False.
  - change (unwords (t :: t2 :: rest))
      with (t +:+ String " "%char (unwords (t2 :: rest))).
    rewrite split_go_token, split_go_space by done.
    change ("" +:+ t) with t. rewrite IH. by rewrite decide_False.
Qed.

End SplitTheory.

(** ** Epochs of day: the gap test, the rollover and the eviction *)

Section EpochsOfDay.
Context {num : Type} {ops : PyNum num}.

(** What the theorem below needs of [<], [+] and [-]; IEEE doubles have
    all of it:
    [<] is irreflexive; [a < b] and not [a < c] give not [b < c];
    [86400 < 600000]; subtracting a number that is not negative from a
    number that is not above [k] gives a number that is not above [k]; and
    a number below 86400 plus 86000 is not above 600000. *)
Hypothesis flt_irrefl : ∀ a : num, flt a a = false.
Hypothesis flt_chain : ∀ a b c : num,
  flt a b = true → flt a c = false → flt b c = false.
Hypothesis day_below_gap : flt (of_int 86400) (of_int 600000) = true.
Hypothesis sub_nonneg : ∀ k a b : num,
  flt b (of_int 0) = false → flt k a = false → flt k (fsub a b) = false.
Hypothesis add_day : ∀ a : num,
  flt a (of_int 86400) = true →
  flt (of_int 600000) (fadd a (of_int 86000)) = false.

(** X19. The gap test of [addLine] cannot succeed on an epoch of day:
    for an epoch below 86400 and a [last_epoch] that is not negative, the
    corrected epoch minus [last_epoch] is not above 600000, with or
    without the rollover correction, so the test [> 600000] is false and
    [addLine] leaves [gaps] as it is, however it ends. *)
Theorem gap_never_found (l : list string) (p : Plane num) (x1 : num) :
  field l 1 = Some x1 → flt x1 (of_int 86400) = true →
  flt (last_epoch p) (of_int 0) = false →
  gap x1 p = false ∧ gaps (addLine l p).1 = gaps p.
Proof.
  intros H1 Hday Hlast.
  assert (gap x1 p = false) as Hgap.
  { unfold gap, corrected_epoch, fgt. apply sub_nonneg; [done|].
    destruct (flt x1 (last_epoch p)); [by apply add_day|].
    apply (flt_chain (of_int 86400)); [done|].
    by apply (flt_chain x1). }
  split; [done|].
  rewrite addLine_eq. unfold addLine_run. rewrite H1, Hgap.
  repeat case_match; done.
Qed.

End EpochsOfDay.

Section Rollover.
Context {num : Type} {ops : PyNum num}.

(** X20. The day rollover and the eviction: when the one record of a
    batch is stored with its epoch advanced by 86000 (its epoch of day is
    below the track's [last_epoch], and no gap is found) and
    [time_alive > 0], the eviction compares the raw epoch [e] of that
    record with the advanced one: [addPlanes] returns, and it has removed
    the track the record was just appended to exactly when
    [abs(e - (e + 86000)) > time_alive]. *)
Theorem rollover_evicts (P : gmap string (Plane num)) (line i : string)
    (p : Plane num) (minel0 ta x1 x9 : num) :
  position_record line → split line !! 2%nat = Some i → P !! i = Some p →
  field (split line) 9 = Some x9 → fgt x9 minel0 = true →
  flt x9 (minel p) = false →
  field (split line) 1 = Some x1 → flt x1 (last_epoch p) = true →
  fgt (fsub (fadd x1 (of_int 86000)) (last_epoch p)) (of_int 600000) = false →
  fgt ta (of_int 0) = true →
  ∃ P', addPlanes [line] minel0 ta P = (P', Return tt) ∧
    (P' !! i = None ↔
     fgt (fabs (fsub x1 (fadd x1 (of_int 86000)))) ta = true) ∧
    (∀ k, k ≠ i → P' !! k = None ∨ P' !! k = P !! k).
Proof.
  intros [Hl Hnum] Hi Hp H9 Hhigh Hown H1 Hroll Hnogap Hta.
  destruct (numeric_field _ 0 Hnum) as [x0 H0]; [set_solver|].
  destruct (numeric_field _ 4 Hnum) as [x4 H4]; [set_solver|].
  destruct (numeric_field _ 5 Hnum) as [x5 H5]; [set_solver|].
  destruct (numeric_field _ 6 Hnum) as [x6 H6]; [set_solver|].
  destruct (numeric_field _ 7 Hnum) as [x7 H7]; [set_solver|].
  destruct (numeric_field _ 8 Hnum) as [x8 H8]; [set_solver|].
  assert (corrected_epoch x1 p = fadd x1 (of_int 86000)) as Hce.
  { unfold corrected_epoch. by rewrite Hroll. }
  assert (gap x1 p = false) as Hgap.
  { unfold gap. by rewrite Hce. }
  rewrite addPlanes_eq. cbn [for_each]. unfold bind at 1.
  rewrite addPlanes_line_eq. unfold addPlanes_line_run.
  rewrite Hi, H9, Hhigh, Hp.
  rewrite (addLine_append (split line) p x0 x1 x4 x5 x6 x7 x8 x9) by done.
  cbn [fst snd ret]. unfold addPlanes_rest.
  rewrite map_size_insert_Some by done. rewrite Hta.
  destruct (size P) as [|n] eqn:Hsize.
  { apply map_size_empty_iff in Hsize. subst P. by rewrite lookup_empty in Hp. }
  cbn [Nat.eqb orb length last]. rewrite H1.
  set (P1 := <[i := _]> P).
  destruct (eviction x1 ta P1) as (P2&Hrun&HP2). rewrite Hrun.
  exists P2. split; [done|]. split.
  - assert (P1 !! i = Some
              (with_sample x0 (corrected_epoch x1 p) x4 x5 x6 x7 x8 x9 p))
      as HP1 by (subst P1; by rewrite lookup_insert_eq).
    split.
    + intros Hnone.
      destruct (fgt (fabs (fsub x1 (fadd x1 (of_int 86000)))) ta) eqn:Hst;
        [done|].
      assert (P2 !! i = Some
                (with_sample x0 (corrected_epoch x1 p) x4 x5 x6 x7 x8 x9 p))
        as Hsome; [|congruence].
      apply HP2. split; [done|]. unfold stale. simpl. by rewrite Hce.
    + intros Hst. destruct (P2 !! i) as [v|] eqn:Hv; [|done].
      apply HP2 in Hv as [Hv Hkeep]. rewrite HP1 in Hv. injection Hv as <-.
      unfold stale in Hkeep. simpl in Hkeep. rewrite Hce in Hkeep. congruence.
  - intros k Hk. destruct (P2 !! k) as [v|] eqn:Hv; [|by left].
    right. apply HP2 in Hv as [Hv _]. subst P1.
    by rewrite lookup_insert_ne in Hv.
Qed.

End Rollover.

(** ** Over the rationals *)

Section RationalNumbers.

Lemma QNum_ltb_lt (a b : Q) : QNum.ltb a b = true ↔ (a < b)%Q.
Proof.
  unfold QNum.ltb. rewrite negb_true_iff. split.
  - intros Hle. apply Qnot_le_lt. intros Hba.
    apply Qle_bool_iff in Hba. congruence.
  - intros Hlt. destruct (Qle_bool b a) eqn:Hle; [|done].
    apply Qle_bool_iff in Hle. by apply Qlt_not_le in Hlt.
Qed.

Lemma QNum_ltb_ge (a b : Q) : QNum.ltb a b = false ↔ (b <= a)%Q.
Proof.
  unfold QNum.ltb. rewrite negb_false_iff. apply Qle_bool_iff.
Qed.

Lemma QNum_flt_irrefl (a : Q) : flt a a = false.
Proof. apply QNum_ltb_ge, Qle_refl. Qed.

Lemma QNum_flt_asym (a b : Q) : flt a b = true → flt b a = false.
Proof. intros Hab%QNum_ltb_lt. by apply QNum_ltb_ge, Qlt_le_weak. Qed.

Lemma QNum_flt_chain (a b c : Q) :
  flt a b = true → flt a c = false → flt b c = false.
Proof.
  intros Hab%QNum_ltb_lt Hca%QNum_ltb_ge. apply QNum_ltb_ge.
  apply Qlt_le_weak. by eapply Qle_lt_trans.
Qed.

Lemma QNum_sub_self (a : Q) : flt (of_int 600000) (fsub a a) = false.
Proof.
  apply QNum_ltb_ge. simpl. rewrite Qred_correct.
  unfold inject_Z. lra.
Qed.

Lemma QNum_sub_nonneg (k a b : Q) :
  flt b (of_int 0) = false → flt k a = false → flt k (fsub a b) = false.
Proof.
  intros Hb%QNum_ltb_ge Ha%QNum_ltb_ge. apply QNum_ltb_ge. simpl.
  rewrite Qred_correct. unfold of_int in Hb. simpl in Hb.
  unfold inject_Z in Hb. lra.
Qed.

Lemma QNum_add_day (a : Q) :
  flt a (of_int 86400) = true →
  flt (of_int 600000) (fadd a (of_int 86000)) = false.
Proof.
  intros Ha%QNum_ltb_lt. apply QNum_ltb_ge. simpl. rewrite Qred_correct.
  unfold of_int in Ha. simpl in Ha. unfold inject_Z in *. lra.
Qed.

End RationalNumbers.

(** ** The further properties on recorded cases *)

(** X1 on the rollover line applied to the track of [Sample.ryr]. *)
Lemma addPlanes_append_only_witness :
  minel Sample.ryr_track2 = minel Sample.ryr_track ∧
  plane_id Sample.ryr_track2 = plane_id Sample.ryr_track ∧
  code Sample.ryr_track2 = code Sample.ryr_track ∧
  mjd Sample.ryr_track `prefix_of` mjd Sample.ryr_track2 ∧
  epc Sample.ryr_track `prefix_of` epc Sample.ryr_track2 ∧
  lat Sample.ryr_track `prefix_of` lat Sample.ryr_track2 ∧
  lon Sample.ryr_track `prefix_of` lon Sample.ryr_track2 ∧
  alt Sample.ryr_track `prefix_of` alt Sample.ryr_track2 ∧
  ran Sample.ryr_track `prefix_of` ran Sample.ryr_track2 ∧
  az Sample.ryr_track `prefix_of` az Sample.ryr_track2 ∧
  el Sample.ryr_track `prefix_of` el Sample.ryr_track2.
Proof.
  apply (addPlanes_append_only [Sample.ryr_rollover] 0%Q (-1)%Q
           Sample.ryr_only "4ca626"); vm_compute; reflexivity.
Defined.

(** X2: a batch about one aircraft leaves the track of another alone. *)
Lemma addPlanes_other_tracks_witness :
  let P' := (addPlanes [Sample.ryr] 0%Q (-1)%Q Sample.baw_only).1 in
  (P' !! "400f01" = Sample.baw_only !! "400f01" ∨ P' !! "400f01" = None) ∧
  (fgt (-1)%Q (of_int 0) = false →
   P' !! "400f01" = Sample.baw_only !! "400f01").
Proof.
  apply (addPlanes_other_tracks [Sample.ryr] 0%Q (-1)%Q Sample.baw_only).
  replace (batch_ids [Sample.ryr]) with ["4ca626"]
    by (vm_compute; reflexivity).
  apply not_elem_of_cons. split; [discriminate|apply not_elem_of_nil].
Defined.

(** X3 on one cycle from the empty dictionary. *)
Lemma addPlanes_keys_are_ids_witness : plane_id Sample.baw_track = "400f01".
Proof.
  apply (addPlanes_keys_are_ids [([Sample.baw], 0%Q, 15%Q)]
           (∅ : gmap string (Plane Q))).
  - intros k p Hk. by rewrite lookup_empty in Hk.
  - vm_compute. reflexivity.
Defined.

(** X4 on the same cycle. *)
Lemma maxel_is_upper_bound_witness :
  Forall (λ x, flt (maxel Sample.baw_track) x = false) (el Sample.baw_track).
Proof.
  apply Forall_forall.
  apply (maxel_is_upper_bound QNum_flt_irrefl QNum_flt_chain
           [([Sample.baw], 0%Q, 15%Q)] (∅ : gmap string (Plane Q)))
    with (k := "400f01").
  - intros k p Hk. by rewrite lookup_empty in Hk.
  - vm_compute. reflexivity.
Defined.

(** X5 on a track of a hundred samples. *)
Lemma trace_of_last_80_witness :
  last (Gui.last80_step5 (seq 0 100)) = Some 95%nat ∧
  length (Gui.last80_step5 (seq 0 100)) = 16%nat.
Proof.
  destruct (trace_of_last_80 (seq 0 100)) as (_ & _ & _ & Hlast).
  split; [|reflexivity].
  rewrite Hlast; [reflexivity|]. vm_compute. lia.
Defined.

(** X6 on one cycle from the empty dictionary. *)
Lemma live_tracks_have_samples_witness :
  has_sample Sample.baw_track ∧
  ∃ a e, Gui.marker Sample.baw_track = Return (a, e).
Proof.
  apply (live_tracks_have_samples QNum_flt_irrefl QNum_flt_asym QNum_sub_self
           [([Sample.baw], 0%Q, 15%Q)] (∅ : gmap string (Plane Q)))
    with (k := "400f01").
  - repeat constructor.
  - intros k p Hk. by rewrite lookup_empty in Hk.
  - vm_compute. reflexivity.
Defined.

(** X7 on the line of fifteen fields. *)
Lemma long_line_empty_track_witness :
  addPlanes_line 0%Q Cases.ryr15 (∅ : gmap string (Plane Q))
    = (<["4ca626" := Plane_attrs 0%Q "4ca626" "RYR8JT" (20200163 # 500)]> ∅,
       Return tt) ∧
  sample_lengths (Plane_attrs 0%Q "4ca626" "RYR8JT" (20200163 # 500))
    = replicate 8 0%nat.
Proof.
  apply (long_line_empty_track 0%Q Cases.ryr15 "4ca626" "RYR8JT"
           (71619703 # 10000000) (20200163 # 500) ∅);
    try (vm_compute; reflexivity).
  vm_compute. lia.
Defined.

(** C9 on a recording of two lines read from its start. *)
Lemma replay_end_of_stream_witness :
  dataFakeRead Sample.recording (Some 0%nat) 140 =
    (mkFile (content Sample.recording) 144,
     ([Sample.ryr +:+ String "010"%char ""],
      [Sample.telscp +:+ String "010"%char ""], 144%nat)) ∧
  ∀ N',
    dataFakeRead (mkFile (content Sample.recording) 144) (Some 144%nat) N' =
      (mkFile (content Sample.recording) 144, ([], [], 144%nat)).
Proof.
  destruct (replay_end_of_stream Sample.recording 0 140)
    as (Hread & _ & Hagain).
  - vm_compute. lia.
  - vm_compute. reflexivity.
  - split; [|exact Hagain]. rewrite Hread. vm_compute. reflexivity.
Defined.

(** C9 fails on the same recording: the invocation reaches the end of the
    file and returns the two lines it has read. *)
Lemma replay_eof_counterexample :
  dataFakeRead_eof 140 (seek 0 Sample.recording) = true ∧
  (dataFakeRead Sample.recording (Some 0%nat) 140).2 =
    ([Sample.ryr +:+ String "010"%char ""],
     [Sample.telscp +:+ String "010"%char ""], 144%nat).
Proof. split; vm_compute; reflexivity. Qed.

(** X10 on the recording, from its start. *)
Lemma dataFakeRead_offsets_witness :
  (∃ f1 plines tlines o,
     dataFakeRead Sample.recording (Some 0%nat) 140
       = (f1, (plines, tlines, o)) ∧
     content f1 = content Sample.recording ∧ fpos f1 = o ∧
     (0 ≤ o ≤ String.length (content Sample.recording))%nat ∧
     ((0 < String.length (content Sample.recording))%nat → (0 < o)%nat)) ∧
  dataFakeRead Sample.recording None 140 =
    (seek (String.length (content Sample.recording)) Sample.recording,
     ([], [], String.length (content Sample.recording))).
Proof. apply (dataFakeRead_offsets Sample.recording 0 140). lia. Defined.

(** X13 on a queue of two payloads. *)
Lemma dump_queue_drains_witness :
  Gui.dump_queue (mkQueue false ["CONN ERROR"; Sample.telscp])
    = Some (mkQueue false [], ["CONN ERROR"; Sample.telscp]).
Proof.
  destruct (dump_queue_drains (mkQueue false ["CONN ERROR"; Sample.telscp]))
    as [Hsome _].
  apply Hsome. discriminate.
Defined.

(** X14 on [Cases.live]: the notice of a dead worker and a telescope
    line. *)
Lemma updateData_live_idle_witness :
  ∃ d', Gui.updateData Sample.host Cases.live = Some (d', Return tt) ∧
    P (Gui.radar d') = Sample.ryr_only ∧
    Gui.telLines d' = Sample.telscp ∧
    length (procs (Gui.radar d')) = 2%nat.
Proof.
  destruct (updateData_live_idle Sample.host Cases.live
              (mkQueue false ["CONN ERROR"; Sample.telscp]))
    as (d' & Hrun & HP & Htel & Hprocs & _).
  - reflexivity.
  - reflexivity.
  - discriminate.
  - repeat constructor; vm_compute; lia.
  - exists d'. split; [exact Hrun|]. split; [exact HP|].
    split; [rewrite Htel|rewrite Hprocs]; vm_compute; reflexivity.
Defined.

(** X15 on a replay at the end of the recording, and on a recording
    whose first line has an unreadable field. *)
Lemma updateData_replay_witness :
  Gui.updateData Sample.host Cases.replay_done =
    Some (Gui.mkDisplay Sample.radar true false
            (mkFile (content Sample.recording) 144) 144 Sample.telscp false,
          Return tt) ∧
  ∃ d', Gui.updateData Sample.host Cases.replay_bad
          = Some (d', Raise ValueError) ∧
    Gui.pos d' = String.length (content (Gui.datafile Cases.replay_bad)) ∧
    Gui.anim d' = true ∧ Gui.telLines d' = Sample.telscp.
Proof.
  split.
  - apply (updateData_replay Sample.host Cases.replay_done
             (mkFile (content Sample.recording) 144) [] [] 144);
      vm_compute; reflexivity.
  - destruct (updateData_replay Sample.host Cases.replay_bad
                (mkFile (content (Gui.datafile Cases.replay_bad))
                   (String.length (content (Gui.datafile Cases.replay_bad))))
                [Sample.ryr_bad_mjd +:+ String "010"%char ""] []
                (String.length (content (Gui.datafile Cases.replay_bad))))
      as [_ Hraise]; [reflexivity|vm_compute; reflexivity|].
    destruct (Hraise
                (addPlanes [Sample.ryr_bad_mjd +:+ String "010"%char ""]
                   0%Q 15%Q Sample.ryr_only).1 ValueError)
      as (d' & Hrun & _ & Hpos & _ & Hanim & Htel).
    + vm_compute. reflexivity.
    + exists d'. split; [exact Hrun|]. split; [exact Hpos|].
      split; [exact Hanim|exact Htel].
Defined.

(** X16 on the recording, with rational numbers. *)
Lemma loadPlanesFile_is_a_batch_witness :
  loadPlanesFile Sample.recording 99%Q =
    addPlanes
      (filter (λ line, (13 ≤ length (split line))%nat)
         (file_lines Sample.recording))
      (of_int (-5)) (of_int (-1)) ∅.
Proof.
  apply (loadPlanesFile_is_a_batch Sample.recording 99%Q).
  vm_compute. reflexivity.
Defined.

(** X17 on a position line followed by a space and a newline, as the dump
    file holds it. *)
Lemma split_tokens_witness :
  Forall (λ t, t ≠ "" ∧ has_space t = false) (split Sample.ryr) ∧
  split (Sample.ryr +:+ String " "%char (String "010"%char ""))
    = split Sample.ryr ∧
  length (split (Sample.ryr +:+ String "010"%char ""))
    = length (split Sample.ryr).
Proof.
  apply (split_tokens Sample.ryr (String " "%char (String "010"%char ""))).
  reflexivity.
Defined.

(** X18 on three tokens. *)
Lemma split_unwords_witness :
  split (unwords ["56395"; "40400.326"; "4ca626"])
    = ["56395"; "40400.326"; "4ca626"].
Proof.
  apply (split_unwords ["56395"; "40400.326"; "4ca626"]).
  repeat constructor; discriminate.
Defined.

(** X19 on the rollover line applied to the track of [Sample.ryr], over
    the rationals. *)
Lemma gap_never_found_witness :
  gap (25 # 2) Sample.ryr_track = false ∧
  gaps (addLine (split Sample.ryr_rollover) Sample.ryr_track).1
    = gaps Sample.ryr_track.
Proof.
  apply (gap_never_found QNum_flt_irrefl QNum_flt_chain eq_refl
           QNum_sub_nonneg QNum_add_day
           (split Sample.ryr_rollover) Sample.ryr_track (25 # 2));
    vm_compute; reflexivity.
Defined.

(** X20 on the same line: with [time_alive = 15] the track it extends is
    evicted. *)
Lemma rollover_evicts_witness :
  ∃ P', addPlanes [Sample.ryr_rollover] 0%Q 15%Q Sample.ryr_only
          = (P', Return tt) ∧
    P' !! "4ca626" = None.
Proof.
  destruct (rollover_evicts Sample.ryr_only Sample.ryr_rollover "4ca626"
              Sample.ryr_track 0%Q 15%Q (25 # 2) (15 # 2))
    as (P' & Hrun & Hgone & _);
    try (vm_compute; reflexivity).
  - apply position_recordb_true. vm_compute. reflexivity.
  - exists P'. split; [exact Hrun|]. apply Hgone. vm_compute. reflexivity.
Defined.
